(** * Model registry of the AI service: a shallow embedding

    The development follows [app/models] of the Python service:

    - [Py]             Python values as produced by [json.load], exceptions,
                       and the state-and-exception monad the methods run in;
    - [Metadata]       [metadata.py]: enums, [ModelMetadata], [ModelConfig],
                       their validators, [calculate_file_hash],
                       [create_model_metadata];
    - [VersionManager] [version_manager.py];
    - [ModelManager]   [model_manager.py];
    - [ConfigLoader]   [config_loader.py].

    Conventions.  A Python [str] is a Rocq [string], one [ascii] per Python
    character (so [len] is [String.length] and [<] on [str] is the
    lexicographic order on characters).  A [datetime] is an integer reading of
    the clock.  A float of a JSON document is a rational; a float field of a
    pydantic model is a rational, an infinity or NaN, and the validators
    compare it as Python does (every comparison with NaN is false).  Side
    effects persist when an exception is raised, as in Python.

    The disk.  A file is known by its path, a string in the normal form
    [pathlib] renders (no empty, [.] or [..] segment), and two strings are
    two files: there are no symbolic links.  Artifact files, [metadata.json]
    files and [registry.json] files are kept apart by their paths, and a
    path at which the disk holds no file names nothing (no directory is
    taken for a file).  Creating and removing directories never fails;
    opening a file for writing fails with [OSError] on the paths listed as
    unwritable, opening an unreadable file for reading fails likewise. *)

From Stdlib Require Import QArith Strings.Byte Strings.Ascii.
From stdpp Require Import base option list sorting strings pretty gmap.

#[local] Set Warnings "-register-all".
Local Open Scope string_scope.
Local Open Scope Z_scope.

(* ===================================================================== *)
(** * Python values, exceptions and the monad *)
(* ===================================================================== *)

Module Py.

(** The values [json.load] produces: [None], [bool], [int], [float], [str],
    [list] and [dict] (a [dict] keeps insertion order; its keys are
    strings). *)
Inductive value : Type :=
| VNone
| VBool (b : bool)
| VInt (z : Z)
| VFloat (q : Q)
| VStr (s : string)
| VList (l : list value)
| VDict (d : list (string * value)).

Inductive exn_kind : Type :=
| TypeError | AttributeError | KeyError | ValueError
| ValidationError | OSError | JSONDecodeError | AnalyzerError.

(** An exception: its class and [str(e)]. *)
Record exn : Type := Exn { kind : exn_kind; message : string }.

Definition result (A : Type) : Type := exn + A.

Definition is_ok {A} (r : result A) : bool :=
  match r with inr _ => true | inl _ => false end.

(** ** Dictionaries in insertion order *)

Fixpoint dict_lookup {A} (k : string) (d : list (string * A)) : option A :=
  match d with
  | [] => None
  | (k', v) :: d' => if String.eqb k k' then Some v else dict_lookup k d'
  end.

Definition dict_mem {A} (k : string) (d : list (string * A)) : bool :=
  match dict_lookup k d with Some _ => true | None => false end.

(** [d[k] = v]: an existing key keeps its position. *)
Fixpoint dict_set {A} (k : string) (v : A) (d : list (string * A))
  : list (string * A) :=
  match d with
  | [] => [(k, v)]
  | (k', v') :: d' =>
      if String.eqb k k' then (k', v) :: d' else (k', v') :: dict_set k v d'
  end.

(** [d.update(e)] *)
Definition dict_update {A} (d e : list (string * A)) : list (string * A) :=
  fold_left (λ acc kv, dict_set kv.1 kv.2 acc) e d.

(** ** Truth value, equality, membership *)

Definition truthy (v : value) : bool :=
  match v with
  | VNone => false
  | VBool b => b
  | VInt z => negb (z =? 0)
  | VFloat q => negb (Qeq_bool q 0)
  | VStr s => negb (String.eqb s "")
  | VList l => match l with [] => false | _ => true end
  | VDict d => match d with [] => false | _ => true end
  end.

(** The number a numeric value stands for ([True == 1 == 1.0]). *)
Definition as_number (v : value) : option Q :=
  match v with
  | VBool b => Some (if b then 1%Q else 0%Q)
  | VInt z => Some (inject_Z z)
  | VFloat q => Some q
  | _ => None
  end.

(** [a == b] *)
Fixpoint py_eq (a b : value) {struct a} : bool :=
  match a, b with
  | VNone, VNone => true
  | VStr s, VStr t => String.eqb s t
  | VList l, VList m =>
      (fix all2 (l : list value) (m : list value) {struct l} : bool :=
         match l, m with
         | [], [] => true
         | x :: l', y :: m' => py_eq x y && all2 l' m'
         | _, _ => false
         end) l m
  | VDict d, VDict e =>
      (Nat.eqb (length d) (length e)) &&
      (fix sub (d : list (string * value)) {struct d} : bool :=
         match d with
         | [] => true
         | (k, x) :: d' =>
             match dict_lookup k e with
             | Some y => py_eq x y && sub d'
             | None => false
             end
         end) d
  | _, _ =>
      match as_number a, as_number b with
      | Some p, Some q => Qeq_bool p q
      | _, _ => false
      end
  end.

(** [sub in s] on strings. *)
Fixpoint is_prefix (p s : string) : bool :=
  match p, s with
  | EmptyString, _ => true
  | String a p', String b s' => Ascii.eqb a b && is_prefix p' s'
  | String _ _, EmptyString => false
  end.

Fixpoint is_substring (p s : string) : bool :=
  is_prefix p s ||
  match s with
  | EmptyString => false
  | String _ s' => is_substring p s'
  end.

Definition type_error {A} (msg : string) : result A := inl (Exn TypeError msg).

(** [x in c] *)
Definition contains (x c : value) : result bool :=
  match c with
  | VDict d =>
      match x with
      | VStr k => inr (dict_mem k d)
      | VList _ => type_error "unhashable type: 'list'"
      | VDict _ => type_error "unhashable type: 'dict'"
      | _ => inr false
      end
  | VList l => inr (existsb (py_eq x) l)
  | VStr s =>
      match x with
      | VStr k => inr (is_substring k s)
      | _ => type_error "'in <string>' requires string as left operand"
      end
  | _ => type_error "argument is not iterable"
  end.

(** [c[k]] for a string [k] *)
Definition getitem (c : value) (k : string) : result value :=
  match c with
  | VDict d =>
      match dict_lookup k d with
      | Some v => inr v
      | None => inl (Exn KeyError k)
      end
  | VList _ => type_error "list indices must be integers or slices, not str"
  | VStr _ => type_error "string indices must be integers, not 'str'"
  | _ => type_error "object is not subscriptable"
  end.

Definition attribute_error {A} (attr : string) : result A :=
  inl (Exn AttributeError ("object has no attribute '" +:+ attr +:+ "'")).

(** [c.items()] *)
Definition items (c : value) : result (list (string * value)) :=
  match c with
  | VDict d => inr d
  | _ => attribute_error "items"
  end.

(** [c.get(k)] is [get_default c k VNone]; [c.get(k, d)] is
    [get_default c k d]. *)
Definition get_default (c : value) (k : string) (dflt : value)
  : result value :=
  match c with
  | VDict d => inr (default dflt (dict_lookup k d))
  | _ => attribute_error "get"
  end.

(** ** Methods: state and exceptions

    A method body is a function of the state that returns a value or raises,
    together with the state it leaves behind. *)

Definition M (S A : Type) : Type := S → result A * S.

Definition ret {S A} (a : A) : M S A := λ s, (inr a, s).
Definition raise {S A} (e : exn) : M S A := λ s, (inl e, s).

Definition bind {S A B} (m : M S A) (k : A → M S B) : M S B :=
  λ s, match m s with
       | (inr a, s') => k a s'
       | (inl e, s') => (inl e, s')
       end.

#[export] Instance M_ret {S} : MRet (M S) := λ A, ret.
#[export] Instance M_bind {S} : MBind (M S) := λ A B k m, bind m k.

(** [try: m  except Exception as e: h e] *)
Definition try_except {S A} (m : M S A) (h : exn → M S A) : M S A :=
  λ s, match m s with
       | (inl e, s') => h e s'
       | r => r
       end.

Definition gets {S A} (f : S → A) : M S A := λ s, (inr (f s), s).
Definition modify {S} (f : S → S) : M S unit := λ s, (inr tt, f s).

(** A pure computation that may raise, run inside a method. *)
Definition lift {S A} (r : result A) : M S A := λ s, (r, s).

(** A method of a component held in a field of the state. *)
Definition zoom {S T A} (proj : S → T) (upd : T → S → S) (m : M T A) : M S A :=
  λ s, let '(r, t) := m (proj s) in (r, upd t s).

(** [for x in l: body x] *)
Fixpoint for_each {S A} (l : list A) (body : A → M S unit) : M S unit :=
  match l with
  | [] => ret tt
  | x :: l' => bind (body x) (λ _, for_each l' body)
  end.

End Py.

(* ===================================================================== *)
(** * metadata.py *)
(* ===================================================================== *)

Module Metadata.
Import Py.

Inductive ModelType : Type := TASK_PARSER | PRIORITIZER | INSIGHTS.

Inductive ModelStatus : Type := AVAILABLE | LOADING | ERROR | DEPRECATED.

#[export] Instance ModelType_eq_dec : EqDecision ModelType.
Proof. solve_decision. Defined.

#[export] Instance ModelStatus_eq_dec : EqDecision ModelStatus.
Proof. solve_decision. Defined.

(** [model_type.value] *)
Definition ModelType_value (t : ModelType) : string :=
  match t with
  | TASK_PARSER => "task_parser"
  | PRIORITIZER => "prioritizer"
  | INSIGHTS => "insights"
  end.

Definition ModelStatus_value (s : ModelStatus) : string :=
  match s with
  | AVAILABLE => "available"
  | LOADING => "loading"
  | ERROR => "error"
  | DEPRECATED => "deprecated"
  end.

(** [ModelType(s)] *)
Definition ModelType_of_value (s : string) : result ModelType :=
  if String.eqb s "task_parser" then inr TASK_PARSER
  else if String.eqb s "prioritizer" then inr PRIORITIZER
  else if String.eqb s "insights" then inr INSIGHTS
  else inl (Exn ValueError ("'" +:+ s +:+ "' is not a valid ModelType")).

(** A [float] field: a number, an infinity or NaN. *)
Inductive pyfloat : Type := Finite (q : Q) | PosInf | NegInf | NaN.

(** [v < c], [v <= c] and [v > c] for a constant [c]: false when [v] is
    NaN. *)
Definition float_lt (v : pyfloat) (c : Q) : bool :=
  match v with
  | Finite q => negb (Qle_bool c q)
  | NegInf => true
  | PosInf | NaN => false
  end.

Definition float_le (v : pyfloat) (c : Q) : bool :=
  match v with
  | Finite q => Qle_bool q c
  | NegInf => true
  | PosInf | NaN => false
  end.

Definition float_gt (v : pyfloat) (c : Q) : bool :=
  match v with
  | Finite q => negb (Qle_bool q c)
  | PosInf => true
  | NegInf | NaN => false
  end.

Record ModelMetadata : Type := {
  name : string;
  version : string;
  model_type : ModelType;
  description : option string;
  file_path : string;
  file_size_bytes : Z;
  file_hash : string;
  model_source : string;
  model_id : option string;
  memory_requirement_mb : Z;
  inference_time_ms : option Z;
  accuracy_score : option pyfloat;
  created_at : Z;
  updated_at : Z;
  status : ModelStatus;
  dependencies : list string;
  python_version : option string;
  framework_version : option string;
  config : list (string * value)
}.

Definition set_status (st : ModelStatus) (now : Z) (m : ModelMetadata)
  : ModelMetadata :=
  {| name := name m; version := version m; model_type := model_type m;
     description := description m; file_path := file_path m;
     file_size_bytes := file_size_bytes m; file_hash := file_hash m;
     model_source := model_source m; model_id := model_id m;
     memory_requirement_mb := memory_requirement_mb m;
     inference_time_ms := inference_time_ms m;
     accuracy_score := accuracy_score m;
     created_at := created_at m; updated_at := now; status := st;
     dependencies := dependencies m; python_version := python_version m;
     framework_version := framework_version m; config := config m |}.

Definition validate_accuracy_score (v : option pyfloat)
  : result (option pyfloat) :=
  match v with
  | Some x =>
      if float_lt x 0 || float_gt x 1
      then inl (Exn ValidationError
                  "Accuracy score must be between 0.0 and 1.0")
      else inr v
  | None => inr v
  end.

Definition validate_file_hash (v : string) : result string :=
  if negb (Nat.eqb (String.length v) 64)
  then inl (Exn ValidationError "File hash must be a valid SHA-256 hash")
  else inr v.

(** [ModelMetadata(...)] once every argument has the type of its field: the
    two validators of the class run, a failure of either raises. *)
Definition ModelMetadata_init (m : ModelMetadata) : result ModelMetadata :=
  match validate_file_hash (file_hash m),
        validate_accuracy_score (accuracy_score m) with
  | inr _, inr _ => inr m
  | inl e, _ => inl e
  | _, inl e => inl e
  end.

Record ModelConfig : Type := {
  cfg_model_type : ModelType;
  cfg_name : string;
  cfg_version : string;
  device : string;
  precision : string;
  max_memory_mb : option Z;
  max_length : Z;
  temperature : pyfloat;
  top_p : pyfloat;
  top_k : Z;
  cache_enabled : bool;
  cache_size : Z;
  cache_ttl_seconds : Z;
  batch_size : Z;
  timeout_seconds : Z;
  custom_params : list (string * value)
}.

Definition validate_temperature (v : pyfloat) : result pyfloat :=
  if float_le v 0 || float_gt v 2
  then inl (Exn ValidationError "Temperature must be between 0.0 and 2.0")
  else inr v.

Definition validate_top_p (v : pyfloat) : result pyfloat :=
  if float_le v 0 || float_gt v 1
  then inl (Exn ValidationError "Top-p must be between 0.0 and 1.0")
  else inr v.

(** ** What the libraries do

    [hashlib], [json] and pydantic's conversion of an argument to the
    declared type of its field are not part of the repository. *)
Class Externals : Type := {
  (** [hashlib.sha256(b).hexdigest()] *)
  sha256_hexdigest : list Byte.byte → string;
  sha256_hexdigest_length b : String.length (sha256_hexdigest b) = 64%nat;
  (** [json.dump(v, f, indent=2)], as the bytes written *)
  json_dump : value → list Byte.byte;
  (** [str(v)] for a value that is not a [str] *)
  builtin_str : value → string;
  (** pydantic: an argument for a field of type [str], [int],
      [Dict[str, Any]] *)
  coerce_str : value → option string;
  coerce_str_str s : coerce_str (VStr s) = Some s;
  coerce_int : value → option Z;
  coerce_int_int z : coerce_int (VInt z) = Some z;
  coerce_dict : value → option (list (string * value));
  coerce_dict_dict d : coerce_dict (VDict d) = Some d;
  (** pydantic: the keyword arguments of the [ModelConfig] constructor converted to the
      declared field types, defaults filled in; [None] when a conversion
      fails or a required field is missing *)
  coerce_ModelConfig : list (string * value) → option ModelConfig
}.

(** [str(v)] *)
Definition py_str `{Externals} (v : value) : string :=
  match v with VStr s => s | _ => builtin_str v end.

(** An argument for a field of type [Optional[str]]. *)
Definition coerce_opt_str `{Externals} (v : value) : option (option string) :=
  match v with VNone => Some None | _ => Some <$> coerce_str v end.

(** ** The operating system: files and the clock *)

Record file : Type := { content : list Byte.byte; readable : bool }.

(** One entry of [registry.json]. *)
Record RegistryEntry : Type := {
  re_name : string;
  re_version : string;
  re_status : string;
  re_created_at : Z;
  re_updated_at : Z;
  re_file_path : string;
  re_memory_requirement_mb : Z
}.

(** The disk holds the artifact files, by path; the [metadata.json] files, by
    path, each either the record it parses to or unreadable as one; the
    [registry.json] files, by path, each the table under its ["models"] key:
    a registry file has the shape the service writes, a dictionary whose
    ["models"] is a table of entries (a file of another shape, on which the
    methods that index ["models"] raise [KeyError], is not represented).
    [clock] lists the readings that calls of [datetime.now()] will see. *)
Record os : Type := {
  files : gmap string file;
  metadata_files : gmap string (option ModelMetadata);
  registry_files : gmap string (gmap string RegistryEntry);
  unwritable : gset string;
  clock : list Z
}.

Definition now : M os Z :=
  λ s, match clock s with
       | t :: rest =>
           (inr t, {| files := files s; metadata_files := metadata_files s;
                      registry_files := registry_files s;
                      unwritable := unwritable s; clock := rest |})
       | [] => (inr 0, s)
       end.

(** [os.path.exists(p)], [os.path.getsize(p)] *)
Definition path_exists (p : string) (s : os) : bool :=
  bool_decide (is_Some (files s !! p)).

Definition getsize (f : file) : Z := Z.of_nat (length (content f)).

(** [open(p, 'w')] *)
Definition open_w (p : string) : M os unit :=
  λ s, if bool_decide (p ∈ unwritable s)
       then (inl (Exn OSError ("[Errno 13] Permission denied: '" +:+ p +:+ "'")), s)
       else (inr tt, s).

Definition write_file (p : string) (b : list Byte.byte) : M os unit :=
  _ ← open_w p;
  modify (λ s, {| files := <[p := {| content := b; readable := true |}]> (files s);
                  metadata_files := metadata_files s;
                  registry_files := registry_files s;
                  unwritable := unwritable s; clock := clock s |}).

Definition write_metadata_file (p : string) (m : ModelMetadata) : M os unit :=
  _ ← open_w p;
  modify (λ s, {| files := files s;
                  metadata_files := <[p := Some m]> (metadata_files s);
                  registry_files := registry_files s;
                  unwritable := unwritable s; clock := clock s |}).

Definition write_registry_file (p : string) (r : gmap string RegistryEntry)
  : M os unit :=
  _ ← open_w p;
  modify (λ s, {| files := files s; metadata_files := metadata_files s;
                  registry_files := <[p := r]> (registry_files s);
                  unwritable := unwritable s; clock := clock s |}).

Section WithExternals.
Context `{Externals}.

Definition calculate_file_hash (file_path : string) : M os string :=
  λ s, match files s !! file_path with
       | None => (inl (Exn ValueError ("File not found: " +:+ file_path)), s)
       | Some f =>
           if readable f then (inr (sha256_hexdigest (content f)), s)
           else (inl (Exn ValueError
                        ("Error calculating hash for " +:+ file_path +:+
                         ": [Errno 13] Permission denied: '" +:+ file_path
                         +:+ "'")), s)
       end.

(** [create_model_metadata]; the arguments that callers take from a JSON
    document arrive as values and are converted by the constructor. *)
Definition create_model_metadata (name version : string)
    (model_type : ModelType) (file_path : string)
    (model_source memory_requirement_mb description model_id config : value)
  : M os ModelMetadata :=
  f ← (λ s, match files s !! file_path with
            | None => (inl (Exn ValueError
                              ("Model file not found: " +:+ file_path)), s)
            | Some f => (inr f, s)
            end);
  let file_size := getsize f in
  file_hash ← calculate_file_hash file_path;
  t ← now;
  lift
    (match coerce_str model_source, coerce_int memory_requirement_mb,
           coerce_opt_str description, coerce_opt_str model_id,
           coerce_dict (if truthy config then config else VDict []) with
     | Some src, Some mem, Some descr, Some mid, Some cfg =>
         ModelMetadata_init
           {| name := name; version := version; model_type := model_type;
              description := descr; file_path := file_path;
              file_size_bytes := file_size; file_hash := file_hash;
              model_source := src; model_id := mid;
              memory_requirement_mb := mem; inference_time_ms := None;
              accuracy_score := None; created_at := t; updated_at := t;
              status := AVAILABLE; dependencies := [];
              python_version := None; framework_version := None;
              config := cfg |}
     | _, _, _, _, _ =>
         inl (Exn ValidationError "validation error for ModelMetadata")
     end).

(** The [ModelConfig] constructor on keyword arguments [kw]: conversion,
    then the two validators of the class. *)
Definition ModelConfig_init (kw : list (string * value)) : result ModelConfig :=
  match coerce_ModelConfig kw with
  | None => inl (Exn ValidationError "validation error for ModelConfig")
  | Some c =>
      match validate_temperature (temperature c), validate_top_p (top_p c) with
      | inr _, inr _ => inr c
      | inl e, _ => inl e
      | _, inl e => inl e
      end
  end.

End WithExternals.

End Metadata.

(* ===================================================================== *)
(** * version_manager.py *)
(* ===================================================================== *)

Module VersionManager.
Import Py Metadata.

(** A [ModelVersionManager] together with the disk it works on.
    [models_base_path] is the path object as a string, [str] of it: a
    directory other than the current directory [.] and the root, so that
    joining a segment to it appends a slash and the segment. *)
Record t : Type := {
  models_base_path : string;
  _metadata_cache : gmap string ModelMetadata;
  disk : os
}.

Definition set_disk (d : os) (self : t) : t :=
  {| models_base_path := models_base_path self;
     _metadata_cache := _metadata_cache self; disk := d |}.

Definition set_cache (c : gmap string ModelMetadata) (self : t) : t :=
  {| models_base_path := models_base_path self;
     _metadata_cache := c; disk := disk self |}.

(** A call into the operating system. *)
Definition sys {A} (m : M os A) : M t A := zoom disk set_disk m.

Fixpoint has_char (c : ascii) (s : string) : bool :=
  match s with
  | EmptyString => false
  | String a rest => Ascii.eqb a c || has_char c rest
  end.

(** The string is one path segment for [pathlib] and the file system: not
    empty, without a slash or a NUL character, and neither [.] nor [..]. *)
Definition path_segment (s : string) : bool :=
  negb (String.eqb s "") && negb (has_char "/" s) && negb (has_char "000" s)
  && negb (String.eqb s ".") && negb (String.eqb s "..").

(** [self.models_base_path / model_type.value / name / version], for a name
    and a version that are path segments.  Other strings [pathlib] does not
    join by concatenation: it drops an empty or [.] segment and a trailing
    slash, a leading slash replaces the path, and a [..] segment names the
    directory above. *)
Definition get_model_directory (self : t) (model_type : ModelType)
    (name version : string) : string :=
  models_base_path self +:+ "/" +:+ ModelType_value model_type +:+ "/"
    +:+ name +:+ "/" +:+ version.

Definition get_registry_file (self : t) (model_type : ModelType) : string :=
  models_base_path self +:+ "/" +:+ ModelType_value model_type
    +:+ "/registry.json".

Definition metadata_file (self : t) (model_type : ModelType)
    (name version : string) : string :=
  get_model_directory self model_type name version +:+ "/metadata.json".

(** [f"{name}:{version}"] *)
Definition model_key (name version : string) : string :=
  name +:+ ":" +:+ version.

(** [_load_registry]: the table under ["models"] of the registry file of the
    type, empty when the file is missing or is no JSON. *)
Definition _load_registry (model_type : ModelType)
  : M t (gmap string RegistryEntry) :=
  gets (λ self, default ∅ (registry_files (disk self)
                             !! get_registry_file self model_type)).

Definition _initialize_directory_structure : M t unit :=
  for_each [TASK_PARSER; PRIORITIZER; INSIGHTS] (λ model_type,
    self ← gets id;
    let registry_file := get_registry_file self model_type in
    if bool_decide (is_Some (registry_files (disk self) !! registry_file))
    then ret tt
    else sys (write_registry_file registry_file ∅)).

(** [ModelVersionManager(models_base_path)] on disk [d]. *)
Definition __init__ (models_base_path : string) (d : os) : result t * os :=
  let self := {| models_base_path := models_base_path;
                 _metadata_cache := ∅; disk := d |} in
  match _initialize_directory_structure self with
  | (inr _, self') => (inr self', disk self')
  | (inl e, self') => (inl e, disk self')
  end.

Definition registry_entry (metadata : ModelMetadata) : RegistryEntry :=
  {| re_name := name metadata; re_version := version metadata;
     re_status := ModelStatus_value (status metadata);
     re_created_at := created_at metadata;
     re_updated_at := updated_at metadata;
     re_file_path := file_path metadata;
     re_memory_requirement_mb := memory_requirement_mb metadata |}.

Definition register_model (metadata : ModelMetadata) : M t bool :=
  try_except
    (self ← gets id;
     _ ← sys (write_metadata_file
                (metadata_file self (model_type metadata) (name metadata)
                   (version metadata)) metadata);
     let registry_file := get_registry_file self (model_type metadata) in
     registry ← _load_registry (model_type metadata);
     let model_key := model_key (name metadata) (version metadata) in
     _ ← sys (write_registry_file registry_file
                (<[model_key := registry_entry metadata]> registry));
     _ ← modify (λ self, set_cache (<[model_key := metadata]>
                                      (_metadata_cache self)) self);
     ret true)
    (λ e, ret false).

Definition get_model_metadata (model_type : ModelType) (name version : string)
  : M t (option ModelMetadata) :=
  let model_key := model_key name version in
  self ← gets id;
  match _metadata_cache self !! model_key with
  | Some metadata => ret (Some metadata)
  | None =>
      match metadata_files (disk self)
              !! metadata_file self model_type name version with
      | None => ret None
      | Some None => ret None
      | Some (Some metadata) =>
          _ ← modify (set_cache (<[model_key := metadata]>
                                   (_metadata_cache self)));
          ret (Some metadata)
      end
  end.

(** [key.split(":", 1)] when it has two parts. *)
Fixpoint split_once (key : string) : option (string * string) :=
  match key with
  | EmptyString => None
  | String c rest =>
      if Ascii.eqb c ":"%char then Some (EmptyString, rest)
      else
        match split_once rest with
        | Some (a, b) => Some (String c a, b)
        | None => None
        end
  end.

(** The loop of [list_versions]; unpacking a key with no colon raises. *)
Fixpoint versions_of (name : string) (keys : list string)
  : result (list string) :=
  match keys with
  | [] => inr []
  | model_key :: keys' =>
      match split_once model_key with
      | None =>
          inl (Exn ValueError "not enough values to unpack (expected 2, got 1)")
      | Some (model_name, version) =>
          match versions_of name keys' with
          | inr versions =>
              inr (if String.eqb model_name name then version :: versions
                   else versions)
          | inl e => inl e
          end
      end
  end.

(** [b <= a] on strings: [a] may stand before [b] in a descending list. *)
Definition desc (a b : string) : Prop := String.le b a.

#[export] Instance desc_dec a b : Decision (desc a b).
Proof. unfold desc. apply _. Defined.

(** [sorted(versions, reverse=True)] on strings. *)
Definition sorted_reverse (versions : list string) : list string :=
  merge_sort desc versions.

Definition list_versions (model_type : ModelType) (name : string)
  : M t (list string) :=
  registry ← _load_registry model_type;
  versions ← lift (versions_of name (map_to_list registry).*1);
  ret (sorted_reverse versions).

Definition get_latest_version (model_type : ModelType) (name : string)
  : M t (option string) :=
  versions ← list_versions model_type name;
  ret (head versions).

Definition update_registry_entry (st : ModelStatus) (now : Z)
    (e : RegistryEntry) : RegistryEntry :=
  {| re_name := re_name e; re_version := re_version e;
     re_status := ModelStatus_value st;
     re_created_at := re_created_at e; re_updated_at := now;
     re_file_path := re_file_path e;
     re_memory_requirement_mb := re_memory_requirement_mb e |}.

(** [update_model_status].  The record mutated is the object the cache holds
    for the key, so the cache sees the new status before anything is
    written. *)
Definition update_model_status (model_type : ModelType)
    (name version : string) (st : ModelStatus) : M t bool :=
  try_except
    (metadata ← get_model_metadata model_type name version;
     match metadata with
     | None => ret false
     | Some metadata =>
         t ← sys now;
         let metadata := set_status st t metadata in
         let model_key := model_key name version in
         _ ← modify (λ self, set_cache (<[model_key := metadata]>
                                          (_metadata_cache self)) self);
         self ← gets id;
         _ ← sys (write_metadata_file
                    (metadata_file self model_type name version) metadata);
         registry ← _load_registry model_type;
         _ ← match registry !! model_key with
             | Some e =>
                 sys (write_registry_file (get_registry_file self model_type)
                        (<[model_key := update_registry_entry st t e]>
                           registry))
             | None => ret tt
             end;
         _ ← modify (λ self, set_cache (<[model_key := metadata]>
                                          (_metadata_cache self)) self);
         ret true
     end)
    (λ e, ret false).

Section WithExternals.
Context `{Externals}.

Definition validate_model_integrity (model_type : ModelType)
    (name version : string) : M t (bool * string) :=
  metadata ← get_model_metadata model_type name version;
  match metadata with
  | None => ret (false, "Model metadata not found")
  | Some metadata =>
      self ← gets id;
      match files (disk self) !! file_path metadata with
      | None => ret (false, "Model file not found: " +:+ file_path metadata)
      | Some f =>
          let current_size := getsize f in
          if negb (current_size =? file_size_bytes metadata)
          then ret (false, "File size mismatch: expected "
                             +:+ pretty (file_size_bytes metadata)
                             +:+ ", got " +:+ pretty current_size)
          else
            try_except
              (current_hash ← sys (calculate_file_hash (file_path metadata));
               if negb (String.eqb current_hash (file_hash metadata))
               then ret (false, "File hash mismatch: expected "
                                  +:+ file_hash metadata
                                  +:+ ", got " +:+ current_hash)
               else ret (true, "Model integrity validated"))
              (λ e, ret (false, "Error calculating hash: " +:+ message e))
      end
  end.

Definition get_model_config (model_type : ModelType) (name version : string)
  : M t (option ModelConfig) :=
  metadata ← get_model_metadata model_type name version;
  match metadata with
  | None => ret None
  | Some metadata =>
      let config_data :=
        [("model_type", VStr (ModelType_value model_type));
         ("name", VStr name); ("version", VStr version)] in
      let config_data :=
        match config metadata with
        | [] => config_data
        | _ => dict_update config_data (config metadata)
        end in
      match ModelConfig_init config_data with
      | inr c => ret (Some c)
      | inl e => ret None
      end
  end.

End WithExternals.

(** ** Listing, deleting, storage *)




(** The path lies below the directory. *)
Definition below (dir path : string) : bool := is_prefix (dir +:+ "/") path.

(** [if model_dir.exists(): shutil.rmtree(model_dir)], for the directory of
    a name and a version that are path segments: every file below the
    directory is gone; a directory that does not exist has no file below it.
    Removal never fails. *)
Definition rmtree (dir : string) : M os unit :=
  modify (λ s,
    {| files := filter (λ kv, below dir kv.1 = false) (files s);
       metadata_files :=
         filter (λ kv, below dir kv.1 = false) (metadata_files s);
       registry_files :=
         filter (λ kv, below dir kv.1 = false) (registry_files s);
       unwritable := unwritable s; clock := clock s |}).

Definition delete_model_version (model_type : ModelType)
    (name version : string) : M t bool :=
  try_except
    (registry ← _load_registry model_type;
     let model_key := model_key name version in
     match registry !! model_key with
     | None => ret false
     | Some _ =>
         self ← gets id;
         _ ← sys (write_registry_file (get_registry_file self model_type)
                    (delete model_key registry));
         _ ← sys (rmtree (get_model_directory self model_type name version));
         _ ← modify (λ self, set_cache (delete model_key (_metadata_cache self))
                                self);
         ret true
     end)
    (λ e, ret false).



Section Storage.
(** [a / b] on integers with [b] not zero, and the builtin
    [round(x, ndigits)]: both give a float. *)
Variable truediv : Z → Z → Q.
Variable round : Q → Z → Q.


End Storage.

End VersionManager.

(* ===================================================================== *)
(** * model_manager.py *)
(* ===================================================================== *)

Module ModelManager.
Import Py Metadata.

(** The entry [load_model] stores for a loaded model.  It refers to the
    metadata object that the cache of the version manager holds, whose
    [status] and [updated_at] [update_model_status] assigns in place;
    [lm_metadata] is the record as [get_model_metadata] returned it to
    [load_model], so only its other fields, which no method assigns, are
    those of the object.  The model manager reads its
    [memory_requirement_mb] only. *)
Record LoadedModel : Type := {
  lm_name : string;
  lm_version : string;
  lm_type : string;
  lm_loaded_at : Z;
  lm_metadata : ModelMetadata;
  lm_config : ModelConfig;
  lm_status : string
}.

(** The calls received by [metrics_service]. *)
Inductive metric : Type :=
| set_active_models (count : nat)
| set_model_memory_usage (model_type model_version : string) (bytes : Z)
| record_model_inference (model_type model_version : string)
    (duration_ms : Z) (status : string).

(** The arguments a processing entry point is cached under. *)
Definition call_key : Type := string * string * option string.

(** A [ModelManager]; the clock counts milliseconds.  The three tables at the
    end are the stores of the [lru_cache] decorators, most recent first. *)
Record t : Type := {
  version_manager : VersionManager.t;
  _loaded_models : gmap string LoadedModel;
  _model_configs : gmap string ModelConfig;
  _load_times : gmap string Z;
  _loading_locks : gset string;
  _inference_stats : gmap string (list Z);
  metrics : list metric;
  parsing_cache : list (call_key * value);
  prioritization_cache : list (call_key * value);
  insights_cache : list (call_key * value)
}.

Definition set_version_manager (v : VersionManager.t) (self : t) : t :=
  {| version_manager := v; _loaded_models := _loaded_models self;
     _model_configs := _model_configs self; _load_times := _load_times self;
     _loading_locks := _loading_locks self;
     _inference_stats := _inference_stats self; metrics := metrics self;
     parsing_cache := parsing_cache self;
     prioritization_cache := prioritization_cache self;
     insights_cache := insights_cache self |}.

Definition set_loaded (key : string) (model : LoadedModel)
    (config : ModelConfig) (self : t) : t :=
  {| version_manager := version_manager self;
     _loaded_models := <[key := model]> (_loaded_models self);
     _model_configs := <[key := config]> (_model_configs self);
     _load_times := _load_times self;
     _loading_locks := _loading_locks self;
     _inference_stats := _inference_stats self; metrics := metrics self;
     parsing_cache := parsing_cache self;
     prioritization_cache := prioritization_cache self;
     insights_cache := insights_cache self |}.

Definition set_load_time (key : string) (time : Z) (self : t) : t :=
  {| version_manager := version_manager self;
     _loaded_models := _loaded_models self;
     _model_configs := _model_configs self;
     _load_times := <[key := time]> (_load_times self);
     _loading_locks := _loading_locks self;
     _inference_stats := _inference_stats self; metrics := metrics self;
     parsing_cache := parsing_cache self;
     prioritization_cache := prioritization_cache self;
     insights_cache := insights_cache self |}.

Definition add_lock (key : string) (self : t) : t :=
  {| version_manager := version_manager self;
     _loaded_models := _loaded_models self;
     _model_configs := _model_configs self; _load_times := _load_times self;
     _loading_locks := {[key]} ∪ _loading_locks self;
     _inference_stats := _inference_stats self; metrics := metrics self;
     parsing_cache := parsing_cache self;
     prioritization_cache := prioritization_cache self;
     insights_cache := insights_cache self |}.

Definition set_inference_stats (stats : gmap string (list Z)) (self : t) : t :=
  {| version_manager := version_manager self;
     _loaded_models := _loaded_models self;
     _model_configs := _model_configs self; _load_times := _load_times self;
     _loading_locks := _loading_locks self;
     _inference_stats := stats; metrics := metrics self;
     parsing_cache := parsing_cache self;
     prioritization_cache := prioritization_cache self;
     insights_cache := insights_cache self |}.

Definition emit (m : metric) : M t unit :=
  modify (λ self,
    {| version_manager := version_manager self;
       _loaded_models := _loaded_models self;
       _model_configs := _model_configs self; _load_times := _load_times self;
       _loading_locks := _loading_locks self;
       _inference_stats := _inference_stats self;
       metrics := (metrics self ++ [m])%list;
       parsing_cache := parsing_cache self;
       prioritization_cache := prioritization_cache self;
       insights_cache := insights_cache self |}).

(** A call of a method of [self.version_manager]. *)
Definition vm {A} (m : M VersionManager.t A) : M t A :=
  zoom version_manager set_version_manager m.

Definition clock_now : M t Z := vm (VersionManager.sys now).

Definition get_model_key (model_type : ModelType) (name version : string)
  : string :=
  ModelType_value model_type +:+ ":" +:+ name +:+ ":" +:+ version.

Section WithExternals.
Context `{Externals}.

Definition load_model (model_type : ModelType) (name : string)
    (version : option string) : M t bool :=
  version ← match version with
            | Some v => ret (Some v)
            | None => vm (VersionManager.get_latest_version model_type name)
            end;
  match version with
  | None => ret false
  | Some version =>
      let model_key := get_model_key model_type name version in
      self ← gets id;
      if bool_decide (is_Some (_loaded_models self !! model_key)) then ret true
      else
        _ ← modify (add_lock model_key);
        self ← gets id;
        if bool_decide (is_Some (_loaded_models self !! model_key))
        then ret true
        else
          try_except
            (metadata ← vm (VersionManager.get_model_metadata
                              model_type name version);
             match metadata with
             | None => ret false
             | Some metadata =>
                 '(is_valid, message) ←
                   vm (VersionManager.validate_model_integrity
                         model_type name version);
                 if negb is_valid then
                   _ ← vm (VersionManager.update_model_status
                             model_type name version ERROR);
                   ret false
                 else
                   _ ← vm (VersionManager.update_model_status
                             model_type name version LOADING);
                   config ← vm (VersionManager.get_model_config
                                  model_type name version);
                   match config with
                   | None => ret false
                   | Some config =>
                       loaded_at ← clock_now;
                       let mock_model :=
                         {| lm_name := name; lm_version := version;
                            lm_type := ModelType_value model_type;
                            lm_loaded_at := loaded_at;
                            lm_metadata := metadata; lm_config := config;
                            lm_status := "loaded" |} in
                       _ ← modify (set_loaded model_key mock_model config);
                       time ← clock_now;
                       _ ← modify (set_load_time model_key time);
                       _ ← vm (VersionManager.update_model_status
                                 model_type name version AVAILABLE);
                       self ← gets id;
                       _ ← emit (set_active_models
                                   (size (_loaded_models self)));
                       _ ← emit (set_model_memory_usage
                                   (ModelType_value model_type) version
                                   (memory_requirement_mb metadata
                                      * 1024 * 1024));
                       ret true
                   end
             end)
            (λ e,
               _ ← vm (VersionManager.update_model_status
                         model_type name version ERROR);
               ret false)
  end.

Definition is_model_loaded (model_type : ModelType) (name version : string)
  : M t bool :=
  gets (λ self, bool_decide (is_Some (_loaded_models self
                                        !! get_model_key model_type name version))).

End WithExternals.

(** ** The processing entry points *)

(** The analyzers of [app/ai] and [json.loads]: each returns a value or
    raises. *)
Class Analyzers : Type := {
  parse_task : string → result value;
  prioritize_tasks : value → result value;
  generate_insights : value → result value;
  json_loads : string → result value
}.

(** [functools.lru_cache(maxsize)] around a method: a hit returns the stored
    result and makes it the most recent, a miss runs the body and stores what
    it returns (not what it raises), dropping the least recent entry beyond
    [maxsize]. *)
Definition lru_cache {S} (maxsize : nat)
    (store : S → list (call_key * value))
    (set_store : list (call_key * value) → S → S)
    (body : call_key → M S value) (k : call_key) : M S value :=
  if Nat.eqb maxsize 0 then body k
  else
    s ← gets id;
    match list_find (λ e, e.1 = k) (store s) with
    | Some (i, (_, v)) =>
        _ ← modify (set_store ((k, v) :: delete i (store s)));
        ret v
    | None =>
        v ← body k;
        _ ← modify (λ s, set_store (take maxsize ((k, v) :: store s)) s);
        ret v
    end.

Definition set_parsing_cache (c : list (call_key * value)) (self : t) : t :=
  {| version_manager := version_manager self;
     _loaded_models := _loaded_models self;
     _model_configs := _model_configs self; _load_times := _load_times self;
     _loading_locks := _loading_locks self;
     _inference_stats := _inference_stats self; metrics := metrics self;
     parsing_cache := c;
     prioritization_cache := prioritization_cache self;
     insights_cache := insights_cache self |}.

Definition set_prioritization_cache (c : list (call_key * value)) (self : t)
  : t :=
  {| version_manager := version_manager self;
     _loaded_models := _loaded_models self;
     _model_configs := _model_configs self; _load_times := _load_times self;
     _loading_locks := _loading_locks self;
     _inference_stats := _inference_stats self; metrics := metrics self;
     parsing_cache := parsing_cache self;
     prioritization_cache := c;
     insights_cache := insights_cache self |}.

Definition set_insights_cache (c : list (call_key * value)) (self : t) : t :=
  {| version_manager := version_manager self;
     _loaded_models := _loaded_models self;
     _model_configs := _model_configs self; _load_times := _load_times self;
     _loading_locks := _loading_locks self;
     _inference_stats := _inference_stats self; metrics := metrics self;
     parsing_cache := parsing_cache self;
     prioritization_cache := prioritization_cache self;
     insights_cache := c |}.

(** [_track_inference_time]: append, keep the last 100 measurements. *)
Definition _track_inference_time (model_key : string) (time_ms : Z)
  : M t unit :=
  modify (λ self,
    let times :=
      (default [] (_inference_stats self !! model_key) ++ [time_ms])%list in
    let times :=
      if bool_decide (100 < length times)%nat
      then drop (length times - 100) times else times in
    set_inference_stats (<[model_key := times]> (_inference_stats self)) self).

(** [version or "latest"] *)
Definition version_or_latest (version : option string) : string :=
  match version with
  | Some v => if String.eqb v "" then "latest" else v
  | None => "latest"
  end.

(** [text[:50] + "..." if len(text) > 50 else text] *)
Definition fallback_title (text : string) : string :=
  if bool_decide (50 < String.length text)%nat
  then String.substring 0 50 text +:+ "..." else text.

Definition parsing_fallback (text : string) : value :=
  VDict [("title", VStr (fallback_title text));
         ("description", VStr text);
         ("priority", VStr "medium");
         ("estimated_hours", VFloat 1);
         ("tags", VList [VStr "error"]);
         ("confidence", VFloat (1 # 10));
         ("category", VNone)].

(** [len(tasks)], which is also the number of turns of
    [for i, task in enumerate(tasks)]. *)
Definition len (tasks : value) : result nat :=
  match tasks with
  | VList l => inr (length l)
  | VDict d => inr (length d)
  | VStr s => inr (String.length s)
  | _ => type_error "object has no len()"
  end.

Definition fallback_task (i : nat) : value :=
  VDict [("task_id", VStr (pretty i));
         ("priority_score", VFloat (1 # 2));
         ("urgency", VStr "medium");
         ("importance", VStr "medium");
         ("reasoning", VStr "Fallback prioritization due to error");
         ("factors", VList [VStr "error"]);
         ("confidence", VFloat (1 # 10))].

Definition prioritization_fallback (n : nat) : value :=
  VDict [("prioritized_tasks", VList (fallback_task <$> seq 0 n));
         ("reasoning", VStr "Prioritization failed, using fallback ordering");
         ("confidence", VFloat (1 # 10));
         ("factors_considered", VList [VStr "error"]);
         ("total_tasks", VInt (Z.of_nat n));
         ("processing_time_ms", VFloat 0)].

Definition prioritization_fallback_unparsed : value :=
  VDict [("prioritized_tasks", VList []);
         ("reasoning", VStr "Failed to parse tasks");
         ("confidence", VFloat 0);
         ("factors_considered", VList [VStr "error"]);
         ("total_tasks", VInt 0);
         ("processing_time_ms", VFloat 0)].

Definition insights_fallback (e : exn) : value :=
  VDict [("insights", VList
            [VStr "Focus on completing one task at a time to build momentum";
             VStr "Break large tasks into smaller, manageable pieces";
             VStr "Set specific time blocks for different types of work"]);
         ("recommendations", VList
            [VStr "Track your tasks consistently to enable better insights";
             VStr "Note completion times to improve future planning";
             VStr "Categorize tasks to identify patterns over time"]);
         ("patterns", VDict [("total_patterns", VInt 0);
                             ("pattern_types", VList []);
                             ("strongest_pattern", VNone);
                             ("average_confidence", VFloat 0)]);
         ("confidence", VFloat (3 # 10));
         ("analysis_period", VStr "Unknown");
         ("data_quality", VStr ("Analysis failed: " +:+ message e));
         ("detailed_insights", VList []);
         ("detected_patterns", VList [])].

Section WithAnalyzers.
Context `{Analyzers}.
Variable settings_cache_size : nat.

(** The part shared by the three [try] blocks after the analyzer returned:
    track the time, record the success. *)
Definition record_success (model_type : ModelType) (model_name : string)
    (version : option string) (start_time : Z) : M t unit :=
  end_time ← clock_now;
  let processing_time := end_time - start_time in
  let model_key :=
    get_model_key model_type model_name (version_or_latest version) in
  _ ← _track_inference_time model_key processing_time;
  emit (record_model_inference (ModelType_value model_type)
          (version_or_latest version) processing_time "success").

Definition record_error (model_type : ModelType) (version : option string)
    (start_time : Z) : M t unit :=
  end_time ← clock_now;
  emit (record_model_inference (ModelType_value model_type)
          (version_or_latest version) (end_time - start_time) "error").

Definition process_task_parsing_body (k : call_key) : M t value :=
  let '(text, model_name, version) := k in
  start_time ← clock_now;
  try_except
    (result_dict ← lift (parse_task text);
     _ ← record_success TASK_PARSER model_name version start_time;
     ret result_dict)
    (λ e,
       _ ← record_error TASK_PARSER version start_time;
       ret (parsing_fallback text)).

Definition process_task_parsing (text model_name : string)
    (version : option string) : M t value :=
  lru_cache settings_cache_size parsing_cache set_parsing_cache
    process_task_parsing_body (text, model_name, version).

Definition process_task_prioritization_body (k : call_key) : M t value :=
  let '(tasks_json, model_name, version) := k in
  start_time ← clock_now;
  try_except
    (tasks ← lift (json_loads tasks_json);
     result_dict ← lift (prioritize_tasks tasks);
     _ ← record_success PRIORITIZER model_name version start_time;
     ret result_dict)
    (λ e,
       _ ← record_error PRIORITIZER version start_time;
       try_except
         (tasks ← lift (json_loads tasks_json);
          n ← lift (len tasks);
          ret (prioritization_fallback n))
         (λ _, ret prioritization_fallback_unparsed)).

Definition process_task_prioritization (tasks_json model_name : string)
    (version : option string) : M t value :=
  lru_cache settings_cache_size prioritization_cache set_prioritization_cache
    process_task_prioritization_body (tasks_json, model_name, version).

Definition process_insights_generation_body (k : call_key) : M t value :=
  let '(data_json, model_name, version) := k in
  start_time ← clock_now;
  try_except
    (task_data ← lift (json_loads data_json);
     result_dict ← lift (generate_insights task_data);
     _ ← record_success INSIGHTS model_name version start_time;
     ret result_dict)
    (λ e,
       _ ← record_error INSIGHTS version start_time;
       ret (insights_fallback e)).

Definition process_insights_generation (data_json model_name : string)
    (version : option string) : M t value :=
  lru_cache settings_cache_size insights_cache set_insights_cache
    process_insights_generation_body (data_json, model_name, version).

End WithAnalyzers.

(** ** Registering from a file, unloading, reports *)

Section Lifecycle.
Context `{Externals}.


End Lifecycle.

(** The four [del] statements of [unload_model]; the last three are guarded
    by a test of membership. *)
Definition remove_loaded (key : string) (self : t) : t :=
  {| version_manager := version_manager self;
     _loaded_models := delete key (_loaded_models self);
     _model_configs := delete key (_model_configs self);
     _load_times := delete key (_load_times self);
     _loading_locks := _loading_locks self;
     _inference_stats := delete key (_inference_stats self);
     metrics := metrics self;
     parsing_cache := parsing_cache self;
     prioritization_cache := prioritization_cache self;
     insights_cache := insights_cache self |}.

Definition unload_model (model_type : ModelType) (name version : string)
  : M t bool :=
  let model_key := get_model_key model_type name version in
  self ← gets id;
  if negb (bool_decide (is_Some (_loaded_models self !! model_key)))
  then ret false
  else
    try_except
      (_ ← modify (remove_loaded model_key);
       self ← gets id;
       _ ← emit (set_active_models (size (_loaded_models self)));
       ret true)
      (λ e, ret false).

(** [s.rsplit(":", 1)] when it has two parts. *)
Fixpoint rsplit_once (s : string) : option (string * string) :=
  match s with
  | EmptyString => None
  | String c rest =>
      match rsplit_once rest with
      | Some (a, b) => Some (String c a, b)
      | None =>
          if Ascii.eqb c ":"%char then Some (EmptyString, rest) else None
      end
  end.

(** The two unpacking assignments that [get_loaded_models],
    [cleanup_old_models] and [shutdown] make for a key:
    [model_type, name_version = model_key.split(":", 1)] and
    [name, version = name_version.rsplit(":", 1)]. *)
Definition unpack_model_key (model_key : string)
  : result (string * string * string) :=
  match VersionManager.split_once model_key with
  | None =>
      inl (Exn ValueError "not enough values to unpack (expected 2, got 1)")
  | Some (model_type, name_version) =>
      match rsplit_once name_version with
      | None =>
          inl (Exn ValueError "not enough values to unpack (expected 2, got 1)")
      | Some (name, version) => inr (model_type, name, version)
      end
  end.

(** One entry of the list [get_loaded_models] returns. *)
Record LoadedInfo : Type := {
  li_model_type : string;
  li_name : string;
  li_version : string;
  li_loaded_at : option Z;
  li_memory_usage_mb : Z
}.

Fixpoint loaded_infos (load_times : gmap string Z)
    (models : list (string * LoadedModel)) : result (list LoadedInfo) :=
  match models with
  | [] => inr []
  | (model_key, model) :: models' =>
      match unpack_model_key model_key with
      | inl e => inl e
      | inr (model_type, name, version) =>
          match loaded_infos load_times models' with
          | inl e => inl e
          | inr loaded =>
              inr ({| li_model_type := model_type; li_name := name;
                      li_version := version;
                      li_loaded_at := load_times !! model_key;
                      li_memory_usage_mb :=
                        memory_requirement_mb (lm_metadata model) |}
                     :: loaded)
          end
      end
  end.

(** [get_loaded_models]; an entry of the table of loaded models always has
    its metadata. *)
Definition get_loaded_models : M t (list LoadedInfo) :=
  self ← gets id;
  lift (loaded_infos (_load_times self) (map_to_list (_loaded_models self))).

(** The body of the loops of [cleanup_old_models] and [shutdown]. *)
Definition unload_key (model_key : string) : M t unit :=
  '(model_type_str, name, version) ← lift (unpack_model_key model_key);
  model_type ← lift (ModelType_of_value model_type_str);
  _ ← unload_model model_type name version;
  ret tt.

Section Cleanup.
(** [now - timedelta(days=n)]: the reading of the clock [n] days before
    [now], or what the library raises for a date out of its range. *)
Variable days_before : Z → Z → result Z.

Definition cleanup_old_models (max_age_days : Z) : M t unit :=
  t ← clock_now;
  cutoff_date ← lift (days_before t max_age_days);
  self ← gets id;
  let old_models :=
    (filter (λ kv, kv.2 < cutoff_date) (map_to_list (_load_times self))).*1 in
  for_each old_models unload_key.

End Cleanup.

(** What [get_memory_usage] returns; the average is a float, or the integer
    0 when nothing is loaded. *)
Record MemoryUsage : Type := {
  loaded_models_count : nat;
  total_memory_mb : Z;
  average_memory_per_model_mb : value
}.

Section Reports.
(** [a / b] on integers with [b] not zero: a float. *)
Variable truediv : Z → Z → Q.

Definition get_memory_usage : M t MemoryUsage :=
  gets (λ self,
    let model_count := size (_loaded_models self) in
    let total_memory_mb :=
      fold_left (λ total model,
                   total + memory_requirement_mb (lm_metadata model.2))
        (map_to_list (_loaded_models self)) 0 in
    {| loaded_models_count := model_count;
       total_memory_mb := total_memory_mb;
       average_memory_per_model_mb :=
         if bool_decide (0 < model_count)%nat
         then VFloat (truediv total_memory_mb (Z.of_nat model_count))
         else VInt 0 |}).

End Reports.

(** [shutdown]: every loaded model is unloaded; the thread pool holds no
    state of the model. *)
Definition shutdown : M t unit :=
  self ← gets id;
  for_each (map_to_list (_loaded_models self)).*1 unload_key.

End ModelManager.

(* ===================================================================== *)
(** * config_loader.py *)
(* ===================================================================== *)

Module ConfigLoader.
Import Py Metadata.

(** [_create_default_config] *)
Definition default_config : value :=
  VDict
    [("model_definitions", VDict
        [("task_parser", VDict
            [("default", VDict
                [("versions", VDict
                    [("v1", VDict
                        [("model_source", VStr "mock");
                         ("description", VStr "Mock task parsing model");
                         ("memory_requirement_mb", VInt 128);
                         ("config", VDict [("max_length", VInt 512);
                                           ("temperature", VFloat (7 # 10))])])]);
                 ("default_version", VStr "v1")])])]);
     ("global_config", VDict [("cache_enabled", VBool true);
                              ("cache_size", VInt 100);
                              ("timeout_seconds", VInt 30)])].

(** The state of [initialize_models_from_config]: the [results] dictionary
    and the version manager it was given. *)
Record init_state : Type := {
  results : gmap string bool;
  manager : VersionManager.t
}.

Definition set_manager (v : VersionManager.t) (s : init_state) : init_state :=
  {| results := results s; manager := v |}.

Definition set_result (key : string) (b : bool) : M init_state unit :=
  modify (λ s, {| results := <[key := b]> (results s); manager := manager s |}).

Definition vm {A} (m : M VersionManager.t A) : M init_state A :=
  zoom manager set_manager m.

Section WithExternals.
Context `{Externals}.

Definition mock_data (model_type : ModelType) (name version : string) : value :=
  VDict [("type", VStr "mock_model");
         ("name", VStr name);
         ("version", VStr version);
         ("model_type", VStr (ModelType_value model_type));
         ("created_at", VStr "2024-01-01T00:00:00")].

Definition _create_mock_model (model_type : ModelType) (name version : string)
    (version_def : value) : M VersionManager.t bool :=
  try_except
    (self ← gets id;
     let model_dir :=
       VersionManager.get_model_directory self model_type name version in
     let mock_file := model_dir +:+ "/model.json" in
     _ ← VersionManager.sys
           (write_file mock_file
              (json_dump (mock_data model_type name version)));
     model_source ← lift (get_default version_def "model_source" (VStr "mock"));
     description ←
       lift (get_default version_def "description"
               (VStr ("Mock " +:+ ModelType_value model_type +:+ " model")));
     memory_requirement_mb ←
       lift (get_default version_def "memory_requirement_mb" (VInt 128));
     config ← lift (get_default version_def "config" (VDict []));
     metadata ← VersionManager.sys
                  (create_model_metadata name version model_type mock_file
                     model_source memory_requirement_mb description VNone
                     config);
     VersionManager.register_model metadata)
    (λ e, ret false).

(** The body of the innermost loop of [initialize_models_from_config]. *)
Definition initialize_version (model_type_str : string)
    (model_type : ModelType) (model_name version : string)
    (version_def : value) : M init_state unit :=
  let model_key := model_type_str +:+ ":" +:+ model_name +:+ ":" +:+ version in
  try_except
    (existing ← vm (VersionManager.get_model_metadata
                      model_type model_name version);
     match existing with
     | Some _ => set_result model_key true
     | None =>
         model_source ← lift (get_default version_def "model_source" VNone);
         if py_eq model_source (VStr "mock") then
           success ← vm (_create_mock_model model_type model_name version
                           version_def);
           set_result model_key success
         else set_result model_key false
     end)
    (λ e, set_result model_key false).

Definition initialize_models_from_config_loop (config_data : value)
  : M init_state unit :=
  definitions ← lift (get_default config_data "model_definitions" (VDict []));
  definitions ← lift (items definitions);
  for_each definitions (λ '(model_type_str, models),
    match ModelType_of_value model_type_str with
    | inl _ => ret tt
    | inr model_type =>
        models ← lift (items models);
        for_each models (λ '(model_name, model_def),
          versions ← lift (get_default model_def "versions" (VDict []));
          versions ← lift (items versions);
          for_each versions (λ '(version, version_def),
            initialize_version model_type_str model_type model_name version
              version_def))
    end).

(** [initialize_models_from_config(version_manager)] of a loader whose
    [config_data] is the given value. *)
Definition initialize_models_from_config (config_data : value)
  : M VersionManager.t (gmap string bool) :=
  λ version_manager,
    match initialize_models_from_config_loop config_data
            {| results := ∅; manager := version_manager |} with
    | (inr _, s) => (inr (results s), manager s)
    | (inl e, s) => (inl e, manager s)
    end.

(** [errors.append(msg)] *)
Definition append_error (msg : string) : M (list string) unit :=
  modify (λ errors, (errors ++ [msg])%list).

Definition validate_version (model_type_str model_name version : string)
    (version_def : value) : M (list string) unit :=
  has_source ← lift (contains (VStr "model_source") version_def);
  _ ← (if negb has_source
       then append_error ("Missing model_source for " +:+ model_type_str
                            +:+ "/" +:+ model_name +:+ ":" +:+ version)
       else ret tt);
  has_memory ← lift (contains (VStr "memory_requirement_mb") version_def);
  if negb has_memory
  then append_error ("Missing memory_requirement_mb for " +:+ model_type_str
                       +:+ "/" +:+ model_name +:+ ":" +:+ version)
  else ret tt.

Definition validate_model (model_type_str model_name : string)
    (model_def : value) : M (list string) unit :=
  has_versions ← lift (contains (VStr "versions") model_def);
  if negb has_versions
  then append_error ("Missing versions for " +:+ model_type_str +:+ "/"
                       +:+ model_name)
  else
    has_default ← lift (contains (VStr "default_version") model_def);
    _ ← (if negb has_default
         then append_error ("Missing default_version for " +:+ model_type_str
                              +:+ "/" +:+ model_name)
         else ret tt);
    default_version ← lift (get_default model_def "default_version" VNone);
    _ ← (if truthy default_version then
           versions ← lift (getitem model_def "versions");
           found ← lift (contains default_version versions);
           if negb found
           then append_error ("Default version '" +:+ py_str default_version
                                +:+ "' not found in versions for "
                                +:+ model_type_str +:+ "/" +:+ model_name)
           else ret tt
         else ret tt);
    versions ← lift (getitem model_def "versions");
    versions ← lift (items versions);
    for_each versions (λ '(version, version_def),
      validate_version model_type_str model_name version version_def).

Definition validate_config_body (config_data : value) : M (list string) unit :=
  if negb (truthy config_data)
  then append_error "No configuration data loaded"
  else
    has_definitions ← lift (contains (VStr "model_definitions") config_data);
    if negb has_definitions
    then append_error "Missing 'model_definitions' section"
    else
      definitions ← lift (getitem config_data "model_definitions");
      definitions ← lift (items definitions);
      for_each definitions (λ '(model_type_str, models),
        match ModelType_of_value model_type_str with
        | inl _ => append_error ("Invalid model type: " +:+ model_type_str)
        | inr _ =>
            models ← lift (items models);
            for_each models (λ '(model_name, model_def),
              validate_model model_type_str model_name model_def)
        end).

(** [validate_config()] of a loader whose [config_data] is the given value:
    the list of errors, or the exception that escapes. *)
Definition validate_config (config_data : value) : result (list string) :=
  match validate_config_body config_data [] with
  | (inr _, errors) => inr errors
  | (inl e, _) => inl e
  end.

End WithExternals.

(** ** Loading the file and reading definitions *)

(** What [load_config] finds at [config_path]: no file; a file that cannot
    be opened or parsed; a file that parses to a document. *)
Inductive config_file : Type :=
| Missing
| Unloadable (e : exn)
| Document (config_data : value).

(** [load_config]: the [config_data] it leaves and the boolean it returns. *)
Definition load_config (f : config_file) : value * bool :=
  match f with
  | Missing => (default_config, false)
  | Unloadable _ => (default_config, false)
  | Document config_data => (config_data, true)
  end.

(** [try: r  except KeyError: return None] *)
Definition except_KeyError (r : result value) : result value :=
  match r with
  | inl (Exn KeyError _) => inr VNone
  | _ => r
  end.

(** The accessors of a loader whose [config_data] is the given value; the
    Python [None] is [VNone]. *)
Definition get_model_definition (config_data : value)
    (model_type : ModelType) (name : string) : result value :=
  except_KeyError
    match getitem config_data "model_definitions" with
    | inl e => inl e
    | inr definitions =>
        match getitem definitions (ModelType_value model_type) with
        | inl e => inl e
        | inr models => getitem models name
        end
    end.

Definition get_version_definition (config_data : value)
    (model_type : ModelType) (name version : string) : result value :=
  match get_model_definition config_data model_type name with
  | inl e => inl e
  | inr model_def =>
      if negb (truthy model_def) then inr VNone
      else
        except_KeyError
          match getitem model_def "versions" with
          | inl e => inl e
          | inr versions => getitem versions version
          end
  end.

Definition get_default_version (config_data : value)
    (model_type : ModelType) (name : string) : result value :=
  match get_model_definition config_data model_type name with
  | inl e => inl e
  | inr model_def =>
      if negb (truthy model_def) then inr VNone
      else get_default model_def "default_version" VNone
  end.

Definition get_global_config (config_data : value) : result value :=
  get_default config_data "global_config" (VDict []).

(** [list(c.keys())] *)
Definition keys (c : value) : result (list string) :=
  match c with
  | VDict d => inr d.*1
  | _ => attribute_error "keys"
  end.

(** The inner loop of [list_available_models] over the models of one
    type. *)
Fixpoint available_models (models : list (string * value))
  : result (list value) :=
  match models with
  | [] => inr []
  | (model_name, model_def) :: models' =>
      match get_default model_def "versions" (VDict []) with
      | inl e => inl e
      | inr versions =>
          match keys versions with
          | inl e => inl e
          | inr versions =>
              match get_default model_def "default_version" VNone with
              | inl e => inl e
              | inr default_version =>
                  match available_models models' with
                  | inl e => inl e
                  | inr available =>
                      inr (VDict [("name", VStr model_name);
                                  ("versions", VList (VStr <$> versions));
                                  ("default_version", default_version)]
                             :: available)
                  end
              end
          end
      end
  end.

Fixpoint available_types (config_data : value) (model_types : list ModelType)
  : result (list (string * value)) :=
  match model_types with
  | [] => inr []
  | mt :: rest =>
      match get_default config_data "model_definitions" (VDict []) with
      | inl e => inl e
      | inr definitions =>
          match contains (VStr (ModelType_value mt)) definitions with
          | inl e => inl e
          | inr present =>
              match
                (if present then
                   match getitem config_data "model_definitions" with
                   | inl e => inl e
                   | inr definitions =>
                       match getitem definitions (ModelType_value mt) with
                       | inl e => inl e
                       | inr models =>
                           match items models with
                           | inl e => inl e
                           | inr models => available_models models
                           end
                       end
                   end
                 else inr [])
              with
              | inl e => inl e
              | inr entries =>
                  match available_types config_data rest with
                  | inl e => inl e
                  | inr available =>
                      inr ((ModelType_value mt, VList entries) :: available)
                  end
              end
          end
      end
  end.

(** [list_available_models(model_type)]: the dictionary it returns, one key
    for each type asked for. *)
Definition list_available_models (config_data : value)
    (model_type : option ModelType) : result value :=
  match
    available_types config_data
      match model_type with
      | Some mt => [mt]
      | None => [TASK_PARSER; PRIORITIZER; INSIGHTS]
      end
  with
  | inl e => inl e
  | inr available => inr (VDict available)
  end.

(** [d.update(other)] as far as [create_model_config] can tell: the
    dictionary afterwards, or nothing when the call raises or leaves a key
    that is not a string (the constructor then raises on the keywords).  A
    dictionary is merged key by key; a list must hold pairs, each a list of
    two, a string of two characters or a dictionary of two keys; the empty
    string changes nothing; any other value is not iterable or has elements
    that are no pairs. *)
Definition pair_of (element : value) : option (string * value) :=
  match element with
  | VList [VStr k; v] => Some (k, v)
  | VStr (String a (String b EmptyString)) =>
      Some (String a EmptyString, VStr (String b EmptyString))
  | VDict [(k, _); (v, _)] => Some (k, VStr v)
  | _ => None
  end.

Fixpoint update_pairs (d : list (string * value)) (elements : list value)
  : option (list (string * value)) :=
  match elements with
  | [] => Some d
  | element :: elements' =>
      match pair_of element with
      | Some (k, v) => update_pairs (dict_set k v d) elements'
      | None => None
      end
  end.

Definition update_from (d : list (string * value)) (other : value)
  : option (list (string * value)) :=
  match other with
  | VDict e => Some (dict_update d e)
  | VList l => update_pairs d l
  | VStr EmptyString => Some d
  | _ => None
  end.

Section WithExternals.
Context `{Externals}.

(** [create_model_config]: what is raised inside the [try] block gives
    [None], what [get_version_definition] raises before it escapes. *)
Definition create_model_config (config_data : value) (model_type : ModelType)
    (name version : string) : result (option ModelConfig) :=
  match get_version_definition config_data model_type name version with
  | inl e => inl e
  | inr version_def =>
      if negb (truthy version_def) then inr None
      else
        inr
          match get_default config_data "global_config" (VDict []) with
          | inr (VDict global_config) =>
              match contains (VStr "config") version_def with
              | inr has_config =>
                  match
                    (if has_config then
                       match getitem version_def "config" with
                       | inr config => update_from global_config config
                       | inl _ => None
                       end
                     else Some global_config)
                  with
                  | Some kw =>
                      match
                        ModelConfig_init
                          (dict_update kw
                             [("model_type",
                               VStr (ModelType_value model_type));
                              ("name", VStr name);
                              ("version", VStr version)])
                      with
                      | inr c => Some c
                      | inl _ => None
                      end
                  | None => None
                  end
              | inl _ => None
              end
          | _ => None
          end
  end.

End WithExternals.

End ConfigLoader.

(* ===================================================================== *)
(** * Concrete libraries and states for the examples *)
(* ===================================================================== *)

Module Examples.
Import Py Metadata.

Fixpoint repeat_ascii (n : nat) (c : ascii) : string :=
  match n with
  | O => EmptyString
  | S n' => String c (repeat_ascii n' c)
  end.

(** A stand-in for SHA-256: 64 copies of one hexadecimal digit, chosen by the
    bytes. *)
Definition digest (b : list Byte.byte) : string :=
  let n := (foldr (λ x acc, Byte.to_N x + acc)%N 0%N b + N.of_nat (length b))%N in
  repeat_ascii 64
    (default "0"%char
       (String.list_ascii_of_string "0123456789abcdef" !! N.to_nat (n mod 16)%N)).

(** A stand-in for [json.dump]: keys and leaves in order. *)
Fixpoint render (v : value) : string :=
  match v with
  | VNone => "null"
  | VBool b => if b then "true" else "false"
  | VInt z => pretty z
  | VFloat q => pretty (Qnum q) +:+ "/" +:+ pretty (Zpos (Qden q))
  | VStr s => s
  | VList l =>
      (fix go (l : list value) : string :=
         match l with
         | [] => "]"
         | x :: l' => render x +:+ "," +:+ go l'
         end) l
  | VDict d =>
      (fix go (d : list (string * value)) : string :=
         match d with
         | [] => "}"
         | (k, x) :: d' => k +:+ ":" +:+ render x +:+ "," +:+ go d'
         end) d
  end.

Definition as_str (v : value) : option string :=
  match v with
  | VStr s => Some s
  | VInt z => Some (pretty z)
  | _ => None
  end.

Definition as_int (v : value) : option Z :=
  match v with
  | VInt z => Some z
  | VBool b => Some (if b then 1 else 0)
  | _ => None
  end.

Definition as_dict (v : value) : option (list (string * value)) :=
  match v with VDict d => Some d | _ => None end.

Definition as_bool (v : value) : option bool :=
  match v with VBool b => Some b | _ => None end.

(** A field with a default: absent gives the default, present is converted. *)
Definition field {A} (conv : value → option A) (kw : list (string * value))
    (k : string) (dflt : A) : option A :=
  match dict_lookup k kw with
  | None => Some dflt
  | Some v => conv v
  end.

Definition as_ModelType (v : value) : option ModelType :=
  match v with
  | VStr s => match ModelType_of_value s with inr t => Some t | inl _ => None end
  | _ => None
  end.

(** A stand-in for pydantic's conversion of the arguments of [ModelConfig]:
    no conversion between strings and numbers, unknown keys ignored. *)
Definition parse_ModelConfig (kw : list (string * value)) : option ModelConfig :=
  model_type ← dict_lookup "model_type" kw ≫= as_ModelType;
  name ← dict_lookup "name" kw ≫= as_str;
  version ← dict_lookup "version" kw ≫= as_str;
  device ← field as_str kw "device" "cpu";
  precision ← field as_str kw "precision" "float32";
  max_memory_mb ← field (λ v, match v with VNone => Some None
                              | _ => Some <$> as_int v end)
                     kw "max_memory_mb" None;
  max_length ← field as_int kw "max_length" 512;
  temperature ← field as_number kw "temperature" (7 # 10)%Q;
  top_p ← field as_number kw "top_p" (9 # 10)%Q;
  top_k ← field as_int kw "top_k" 50;
  cache_enabled ← field as_bool kw "cache_enabled" true;
  cache_size ← field as_int kw "cache_size" 100;
  cache_ttl_seconds ← field as_int kw "cache_ttl_seconds" 3600;
  batch_size ← field as_int kw "batch_size" 1;
  timeout_seconds ← field as_int kw "timeout_seconds" 30;
  custom_params ← field as_dict kw "custom_params" [];
  Some {| cfg_model_type := model_type; cfg_name := name;
          cfg_version := version; device := device; precision := precision;
          max_memory_mb := max_memory_mb; max_length := max_length;
          temperature := Finite temperature; top_p := Finite top_p;
          top_k := top_k;
          cache_enabled := cache_enabled; cache_size := cache_size;
          cache_ttl_seconds := cache_ttl_seconds; batch_size := batch_size;
          timeout_seconds := timeout_seconds; custom_params := custom_params |}.

Definition libraries : Externals.
Proof.
  refine {| sha256_hexdigest := digest;
            json_dump := λ v, String.list_byte_of_string (render v);
            builtin_str := render;
            coerce_str := as_str;
            coerce_int := as_int;
            coerce_dict := as_dict;
            coerce_ModelConfig := parse_ModelConfig |}; reflexivity.
Defined.

(** An empty disk and a manager created on it. *)
Definition empty_disk : os :=
  {| files := ∅; metadata_files := ∅; registry_files := ∅; unwritable := ∅;
     clock := [] |}.

Definition fresh_manager : VersionManager.t :=
  match VersionManager.__init__ "models" empty_disk with
  | (inr self, _) => self
  | (inl _, _) =>
      {| VersionManager.models_base_path := "models";
         VersionManager._metadata_cache := ∅;
         VersionManager.disk := empty_disk |}
  end.

(** A valid metadata record for a file of four bytes at [path]. *)
Definition sample_content : list Byte.byte := [x01; x02; x03; x04]%byte.

Definition sample_metadata (model_type : ModelType) (name version path : string)
    (config : list (string * value)) : ModelMetadata :=
  {| name := name; version := version; model_type := model_type;
     description := None; file_path := path; file_size_bytes := 4;
     file_hash := digest sample_content; model_source := "local";
     model_id := None; memory_requirement_mb := 256;
     inference_time_ms := None; accuracy_score := None;
     created_at := 0; updated_at := 0; status := AVAILABLE;
     dependencies := []; python_version := None; framework_version := None;
     config := config |}.

(** The manager after [register_model] of a sample record. *)
Definition register_sample (model_type : ModelType) (name version : string)
    (self : VersionManager.t) : VersionManager.t :=
  (VersionManager.register_model
     (sample_metadata model_type name version "model.bin" []) self).2.

Definition three_versions : VersionManager.t :=
  register_sample TASK_PARSER "m" "v10"
    (register_sample TASK_PARSER "m" "v1"
       (register_sample TASK_PARSER "m" "v2" fresh_manager)).

Definition colon_name : VersionManager.t :=
  register_sample TASK_PARSER "a:b" "v1" fresh_manager.

(** A disk with the sample file, a manager on it with the task parser
    default/v1 registered for that file, and a model manager around it. *)
Definition sample_disk : os :=
  {| files := {[ "model.bin" := {| content := sample_content;
                                   readable := true |} ]};
     metadata_files := ∅; registry_files := ∅; unwritable := ∅;
     clock := [10; 20; 30; 40; 50; 60; 70; 80] |}.

Definition manager_on (d : os) : VersionManager.t :=
  match VersionManager.__init__ "models" d with
  | (inr self, _) => self
  | (inl _, _) =>
      {| VersionManager.models_base_path := "models";
         VersionManager._metadata_cache := ∅;
         VersionManager.disk := d |}
  end.

Definition model_manager_on (v : VersionManager.t) : ModelManager.t :=
  {| ModelManager.version_manager := v;
     ModelManager._loaded_models := ∅;
     ModelManager._model_configs := ∅;
     ModelManager._load_times := ∅;
     ModelManager._loading_locks := ∅;
     ModelManager._inference_stats := ∅;
     ModelManager.metrics := [];
     ModelManager.parsing_cache := [];
     ModelManager.prioritization_cache := [];
     ModelManager.insights_cache := [] |}.

Definition sample_manager : ModelManager.t :=
  model_manager_on
    (register_sample TASK_PARSER "default" "v1" (manager_on sample_disk)).

(** The same after [load_model] of default/v1. *)
Definition sample_loaded : ModelManager.t :=
  (ModelManager.load_model (H := libraries) TASK_PARSER "default" (Some "v1")
     sample_manager).2.




(** A version whose stored configuration has a temperature out of range. *)
Definition hot_manager : ModelManager.t :=
  model_manager_on
    ((VersionManager.register_model
        (sample_metadata TASK_PARSER "default" "v1" "model.bin"
           [("temperature", VFloat 5)])
        (manager_on sample_disk)).2).

(** A model under an unknown model type whose default version v2 is not
    among its versions. *)
Definition unknown_type_config : value :=
  VDict
    [("model_definitions", VDict
        [("speech", VDict
            [("m", VDict
                [("versions", VDict
                    [("v1", VDict [("model_source", VStr "mock");
                                   ("memory_requirement_mb", VInt 128)])]);
                 ("default_version", VStr "v2")])])])].

(** A model definition that is a number. *)
Definition number_config : value :=
  VDict [("model_definitions", VDict
            [("task_parser", VDict [("m", VInt 5)])])].

(** A model whose default version is the empty string. *)
Definition empty_default_config : value :=
  VDict
    [("model_definitions", VDict
        [("task_parser", VDict
            [("m", VDict
                [("versions", VDict
                    [("v1", VDict [("model_source", VStr "mock");
                                   ("memory_requirement_mb", VInt 128)])]);
                 ("default_version", VStr "")])])])].

(** A task parser whose default version v2 is not among its versions. *)
Definition mismatch_config : value :=
  VDict
    [("model_definitions", VDict
        [("task_parser", VDict
            [("test_model", VDict
                [("versions", VDict
                    [("v1", VDict [("model_source", VStr "test");
                                   ("memory_requirement_mb", VInt 128)])]);
                 ("default_version", VStr "v2")])])])].


(** Two mocks of different types with the same name and version, as in the
    configuration of the test suite. *)
Definition shared_name_config : value :=
  VDict
    [("model_definitions", VDict
        [("task_parser", VDict
            [("default", VDict
                [("versions", VDict
                    [("v1", VDict [("model_source", VStr "mock");
                                   ("memory_requirement_mb", VInt 256)])]);
                 ("default_version", VStr "v1")])]);
         ("prioritizer", VDict
            [("default", VDict
                [("versions", VDict
                    [("v1", VDict [("model_source", VStr "mock");
                                   ("memory_requirement_mb", VInt 256)])]);
                 ("default_version", VStr "v1")])])])].

(** A mock and a version from another source, of one model. *)
Definition two_versions_config : value :=
  VDict
    [("model_definitions", VDict
        [("task_parser", VDict
            [("default", VDict
                [("versions", VDict
                    [("v1", VDict [("model_source", VStr "mock");
                                   ("description", VStr "Default task parser v1");
                                   ("memory_requirement_mb", VInt 256);
                                   ("config", VDict
                                      [("temperature", VFloat (7 # 10));
                                       ("max_length", VInt 512)])]);
                     ("v2", VDict [("model_source", VStr "huggingface");
                                   ("memory_requirement_mb", VInt 512)])]);
                 ("default_version", VStr "v2")])])])].

(** [chmod a-w path] from outside the service. *)
Definition protect (path : string) (self : VersionManager.t)
  : VersionManager.t :=
  let d := VersionManager.disk self in
  VersionManager.set_disk
    {| files := files d; metadata_files := metadata_files d;
       registry_files := registry_files d;
       unwritable := {[path]} ∪ unwritable d; clock := clock d |} self.

(** The sample version registered on the sample disk. *)
Definition sample_registered : VersionManager.t :=
  register_sample TASK_PARSER "default" "v1" (manager_on sample_disk).

(** A registry index of the task parsers written by other means, with a key
    that has no colon. *)
Definition malformed_registry : VersionManager.t :=
  let d := VersionManager.disk fresh_manager in
  VersionManager.set_disk
    {| files := files d; metadata_files := metadata_files d;
       registry_files :=
         <["models/task_parser/registry.json" :=
             {[ "default" :=
                  VersionManager.registry_entry
                    (sample_metadata TASK_PARSER "default" "v1" "model.bin"
                       []) ]}]> (registry_files d);
       unwritable := unwritable d; clock := clock d |} fresh_manager.

(** A version whose stored configuration names another model. *)
Definition renamed_manager : VersionManager.t :=
  (VersionManager.register_model
     (sample_metadata TASK_PARSER "default" "v1" "model.bin"
        [("name", VStr "other")])
     (manager_on sample_disk)).2.

(** A version with a colon, loaded. *)
Definition colon_version_loaded : ModelManager.t :=
  (ModelManager.load_model (H := libraries) TASK_PARSER "m" (Some "v:1")
     (model_manager_on
        (register_sample TASK_PARSER "m" "v:1" (manager_on sample_disk)))).2.

(** [now - timedelta(days=n)] with no bound on dates. *)
Definition days_before (t n : Z) : result Z := inr (t - n * 86400000).

End Examples.

(* ===================================================================== *)
(** * What the properties speak about *)
(* ===================================================================== *)

Module Observe.
Import Py Metadata.

(** The registry index of a type, as [_load_registry] reads it. *)
Definition registry (self : VersionManager.t) (model_type : ModelType)
  : gmap string RegistryEntry :=
  default ∅ (registry_files (VersionManager.disk self)
               !! VersionManager.get_registry_file self model_type).

(** The key [name:version] is in the registry index of the type: the test
    [delete_model_version] makes. *)
Definition registered (self : VersionManager.t) (model_type : ModelType)
    (name version : string) : Prop :=
  is_Some (registry self model_type !! VersionManager.model_key name version).

(** The version was registered under the name: the registry index of the
    type holds, under the key [name:version], an entry that records this name
    and this version. *)
Definition registered_under (self : VersionManager.t)
    (model_type : ModelType) (name version : string) : Prop :=
  ∃ e, registry self model_type !! VersionManager.model_key name version
       = Some e ∧ re_name e = name ∧ re_version e = version.

Fixpoint has_colon (s : string) : bool :=
  match s with
  | EmptyString => false
  | String c rest => Ascii.eqb c ":" || has_colon rest
  end.

(** Every key of the registry index of the type has the form
    [name:version], as the keys that [register_model] writes do. *)
Definition registry_wf (self : VersionManager.t) (model_type : ModelType)
  : Prop :=
  map_Forall (λ key _, has_colon key = true) (registry self model_type).

(** Every entry of the registry index of the type stands under the key
    [name:version] of the name and the version it records, as the entries
    that [register_model] writes do, and no recorded name holds a colon. *)
Definition registry_plain (self : VersionManager.t) (model_type : ModelType)
  : Prop :=
  map_Forall
    (λ key e, key = VersionManager.model_key (re_name e) (re_version e)
              ∧ has_colon (re_name e) = false)
    (registry self model_type).

(** The float is NaN or lies in the interval from [lo], excluded, to [hi],
    included. *)
Definition nan_or_within (lo hi : Q) (v : pyfloat) : Prop :=
  v = NaN ∨ ∃ q, v = Finite q ∧ (lo < q)%Q ∧ (q <= hi)%Q.

(** What [get_model_metadata] answers. *)
Definition resolve (self : VersionManager.t) (model_type : ModelType)
    (name version : string) : option ModelMetadata :=
  match VersionManager.get_model_metadata model_type name version self with
  | (inr r, _) => r
  | (inl _, _) => None
  end.

(** The manager once [get_model_metadata] has answered: a record read from
    disk is now in the cache. *)
Definition after_resolve (self : VersionManager.t) (model_type : ModelType)
    (name version : string) : VersionManager.t :=
  (VersionManager.get_model_metadata model_type name version self).2.

(** The status the version manager reports for a version. *)
Definition status_of (self : VersionManager.t) (model_type : ModelType)
    (name version : string) : option ModelStatus :=
  status <$> resolve self model_type name version.

(** What [validate_model_integrity] and [get_model_config] answer. *)
Definition integrity `{Externals} (self : VersionManager.t)
    (model_type : ModelType) (name version : string) : bool * string :=
  match VersionManager.validate_model_integrity model_type name version self
  with
  | (inr r, _) => r
  | (inl e, _) => (false, message e)
  end.

Definition config_of `{Externals} (self : VersionManager.t)
    (model_type : ModelType) (name version : string) : option ModelConfig :=
  match VersionManager.get_model_config model_type name version self with
  | (inr r, _) => r
  | (inl _, _) => None
  end.

(** The record stored on disk for a version, when it can be read. *)
Definition stored (self : VersionManager.t) (model_type : ModelType)
    (name version : string) : option ModelMetadata :=
  mjoin (metadata_files (VersionManager.disk self)
           !! VersionManager.metadata_file self model_type name version).

(** The call is not in the store of an [lru_cache] (or nothing is stored
    because [maxsize] is 0), so the body of the method runs. *)
Definition not_cached (maxsize : nat)
    (store : list (ModelManager.call_key * value))
    (k : ModelManager.call_key) : Prop :=
  maxsize = 0%nat ∨ ∀ e, e ∈ store → e.1 ≠ k.

(** The value under ["confidence"] in a result dictionary. *)
Definition confidence (d : value) : option value :=
  match d with
  | VDict items => dict_lookup "confidence" items
  | _ => None
  end.

(** The shape of a configuration document that the loader's methods walk
    without a type error: the document is a dictionary; [model_definitions],
    when present, is a dictionary; under a recognised model type stands a
    dictionary of model definitions; a model definition is a dictionary
    whose [versions], when present, is a dictionary of dictionaries and whose
    [default_version], when present, is a string or null. *)
Definition is_dict (v : value) : bool :=
  match v with VDict _ => true | _ => false end.

Definition model_def_shape (model_def : value) : bool :=
  match model_def with
  | VDict md =>
      match dict_lookup "versions" md with
      | None => true
      | Some (VDict vs) =>
          forallb (λ kv, is_dict kv.2) vs &&
          match dict_lookup "default_version" md with
          | None | Some VNone | Some (VStr _) => true
          | Some _ => false
          end
      | Some _ => false
      end
  | _ => false
  end.

Definition models_shape (model_type_str : string) (models : value) : bool :=
  match ModelType_of_value model_type_str with
  | inl _ => true
  | inr _ =>
      match models with
      | VDict ms => forallb (λ kv, model_def_shape kv.2) ms
      | _ => false
      end
  end.

Definition declared_shape (config_data : value) : bool :=
  match config_data with
  | VDict d =>
      match dict_lookup "model_definitions" d with
      | None => true
      | Some (VDict defs) => forallb (λ kv, models_shape kv.1 kv.2) defs
      | Some _ => false
      end
  | _ => false
  end.

(** A version declared by a configuration document under a recognised
    model type: the type as written and as recognised, the name, the version
    and the version's definition. *)
Record declared : Type := {
  d_type_str : string;
  d_type : ModelType;
  d_name : string;
  d_version : string;
  d_def : value
}.

Definition declared_of_model (model_type_str : string)
    (model_type : ModelType) (model : string * value) : list declared :=
  match model.2 with
  | VDict md =>
      match dict_lookup "versions" md with
      | Some (VDict vs) =>
          (λ v, {| d_type_str := model_type_str; d_type := model_type;
                   d_name := model.1; d_version := v.1; d_def := v.2 |}) <$> vs
      | _ => []
      end
  | _ => []
  end.

Definition declared_of_type (models : string * value) : list declared :=
  match ModelType_of_value models.1, models.2 with
  | inr model_type, VDict ms =>
      ms ≫= declared_of_model models.1 model_type
  | _, _ => []
  end.

(** The declared versions in the order in which
    [initialize_models_from_config] meets them. *)
Definition declared_versions (config_data : value) : list declared :=
  match config_data with
  | VDict d =>
      match dict_lookup "model_definitions" d with
      | Some (VDict defs) => defs ≫= declared_of_type
      | _ => []
      end
  | _ => []
  end.

(** The key of a declared version in the result of
    [initialize_models_from_config], its key in the metadata cache and in the
    registry index, and its directory. *)
Definition result_key (d : declared) : string :=
  d_type_str d +:+ ":" +:+ d_name d +:+ ":" +:+ d_version d.

Definition cache_key (d : declared) : string :=
  VersionManager.model_key (d_name d) (d_version d).

Definition directory (self : VersionManager.t) (d : declared) : string :=
  VersionManager.get_model_directory self (d_type d) (d_name d) (d_version d).

(** The definition is a dictionary whose [model_source] is the string
    mock. *)
Definition is_mock (version_def : value) : bool :=
  match version_def with
  | VDict vd => py_eq (default VNone (dict_lookup "model_source" vd)) (VStr "mock")
  | _ => false
  end.

(** The placeholder file [_create_mock_model] writes. *)
Definition mock_file `{Externals} (d : declared) : file :=
  {| content := json_dump (ConfigLoader.mock_data (d_type d) (d_name d)
                             (d_version d));
     readable := true |}.

(** The fields of a version definition that the metadata constructor has to
    convert are convertible. *)
Definition fields_convertible `{Externals} (d : declared) : Prop :=
  match d_def d with
  | VDict vd =>
      is_Some (coerce_int (default (VInt 128)
                             (dict_lookup "memory_requirement_mb" vd))) ∧
      is_Some (coerce_opt_str
                 (default (VStr ("Mock " +:+ ModelType_value (d_type d)
                                   +:+ " model"))
                    (dict_lookup "description" vd))) ∧
      is_Some (coerce_dict
                 (let config := default (VDict []) (dict_lookup "config" vd) in
                  if truthy config then config else VDict []))
  | _ => False
  end.

(** The two files of a declared version. *)
Definition metadata_path (self : VersionManager.t) (d : declared) : string :=
  directory self d +:+ "/metadata.json".

Definition mock_path (self : VersionManager.t) (d : declared) : string :=
  directory self d +:+ "/model.json".

(** Between [self] and [self'] nothing was written on disk for the declared
    version: not its metadata file, not its registry entry, not its
    placeholder file. *)
Definition nothing_written (self self' : VersionManager.t) (d : declared)
  : Prop :=
  metadata_files (VersionManager.disk self') !! metadata_path self d
  = metadata_files (VersionManager.disk self) !! metadata_path self d ∧
  registry self' (d_type d) !! cache_key d
  = registry self (d_type d) !! cache_key d ∧
  files (VersionManager.disk self') !! mock_path self d
  = files (VersionManager.disk self) !! mock_path self d.

(** Between [self] and [self'] nothing changed but what belongs to the
    declared version: its cache entry, its metadata file, its placeholder
    file, its registry entry (and the clock). *)
Definition changes_only (self self' : VersionManager.t) (d : declared)
  : Prop :=
  VersionManager.models_base_path self' = VersionManager.models_base_path self ∧
  unwritable (VersionManager.disk self')
  = unwritable (VersionManager.disk self) ∧
  (∀ k, k ≠ cache_key d →
        VersionManager._metadata_cache self' !! k
        = VersionManager._metadata_cache self !! k) ∧
  (∀ p, p ≠ metadata_path self d →
        metadata_files (VersionManager.disk self') !! p
        = metadata_files (VersionManager.disk self) !! p) ∧
  (∀ p, p ≠ mock_path self d →
        files (VersionManager.disk self') !! p
        = files (VersionManager.disk self) !! p) ∧
  (∀ model_type k, model_type ≠ d_type d ∨ k ≠ cache_key d →
        registry self' model_type !! k = registry self model_type !! k).

(** What the result dictionary and the version manager hold for a declared
    version: its result, its cache entry, its metadata file, its placeholder
    file and its registry entry, with the base path and the unwritable
    paths. *)
Definition held (s : ConfigLoader.init_state) (d : declared) :=
  let self := ConfigLoader.manager s in
  (VersionManager.models_base_path self,
   unwritable (VersionManager.disk self),
   ConfigLoader.results s !! result_key d,
   VersionManager._metadata_cache self !! cache_key d,
   metadata_files (VersionManager.disk self) !! metadata_path self d,
   files (VersionManager.disk self) !! mock_path self d,
   registry self (d_type d) !! cache_key d).

(** The turn of the innermost loop of [initialize_models_from_config] for a
    declared version. *)
Definition turn `{Externals} (d : declared) : M ConfigLoader.init_state unit :=
  ConfigLoader.initialize_version (d_type_str d) (d_type d) (d_name d)
    (d_version d) (d_def d).

(** What [initialize_models_from_config] has done for a declared version
    between the manager [self] it was given and the manager [self'] it
    leaves, [r] being the entry of the result under the version's key.
    - The version resolved: the entry is true and nothing was written.
    - It did not resolve and is no mock: the entry is false and nothing was
      written.
    - It did not resolve and is a mock: the placeholder file was written if
      its path is writable; the entry is the outcome of the registration;
      when that is true the version resolves to a record that is stored in
      its metadata file and entered in the registry index, describing the
      placeholder file; and the outcome is true when the three paths are
      writable and the fields of the definition are convertible. *)
Definition reconciled `{Externals} (self self' : VersionManager.t)
    (r : option bool) (d : declared) : Prop :=
  let T := d_type d in
  let n := d_name d in
  let v := d_version d in
  (is_Some (resolve self T n v) →
   r = Some true ∧ nothing_written self self' d) ∧
  (resolve self T n v = None → is_mock (d_def d) = false →
   r = Some false ∧ nothing_written self self' d) ∧
  (resolve self T n v = None → is_mock (d_def d) = true →
   ∃ ok,
     r = Some ok ∧
     (mock_path self d ∉ unwritable (VersionManager.disk self) →
      files (VersionManager.disk self') !! mock_path self d
      = Some (mock_file d)) ∧
     (ok = true →
      ∃ metadata,
        resolve self' T n v = Some metadata ∧
        stored self' T n v = Some metadata ∧
        registry self' T !! cache_key d
        = Some (VersionManager.registry_entry metadata) ∧
        files (VersionManager.disk self') !! mock_path self d
        = Some (mock_file d) ∧
        name metadata = n ∧ version metadata = v ∧
        model_type metadata = T ∧
        file_path metadata = mock_path self d ∧
        model_source metadata = "mock" ∧ status metadata = AVAILABLE ∧
        file_size_bytes metadata = getsize (mock_file d) ∧
        file_hash metadata = sha256_hexdigest (content (mock_file d))) ∧
     (mock_path self d ∉ unwritable (VersionManager.disk self) →
      metadata_path self d ∉ unwritable (VersionManager.disk self) →
      VersionManager.get_registry_file self T
        ∉ unwritable (VersionManager.disk self) →
      fields_convertible d → ok = true)).

(** [p] occurs in [s]. *)
Definition occurs_in (p s : string) : Prop :=
  ∃ before after, s = before +:+ p +:+ after.


(** The sum of [f] over a list. *)
Definition sum_of {A} (f : A → Z) (l : list A) : Z :=
  foldr (λ x acc, f x + acc) 0 l.



(** The key was built by [get_model_key], as the keys that [load_model]
    enters in its tables are. *)
Definition key_built (key : string) : Prop :=
  ∃ T n w, key = ModelManager.get_model_key T n w.

(** The model manager once the model under a key, if loaded, is unloaded. *)
Definition unloaded (key : string) (self : ModelManager.t) : ModelManager.t :=
  if bool_decide (is_Some (ModelManager._loaded_models self !! key))
  then (ModelManager.emit
          (ModelManager.set_active_models
             (size (delete key (ModelManager._loaded_models self))))
          (ModelManager.remove_loaded key self)).2
  else self.

(** What the tables of configurations, load times and inference statistics
    hold under a key. *)
Definition side_tables (self : ModelManager.t) (key : string)
  : option ModelConfig * option Z * option (list Z) :=
  (ModelManager._model_configs self !! key,
   ModelManager._load_times self !! key,
   ModelManager._inference_stats self !! key).

(** Every dictionary in the value has each key once, as the dictionaries
    that [json.load] builds do. *)
Fixpoint keys_unique (v : value) : bool :=
  match v with
  | VDict d =>
      bool_decide (NoDup d.*1) &&
      (fix all (d : list (string * value)) : bool :=
         match d with
         | [] => true
         | (_, x) :: d' => keys_unique x && all d'
         end) d
  | VList l =>
      (fix all (l : list value) : bool :=
         match l with
         | [] => true
         | x :: l' => keys_unique x && all l'
         end) l
  | _ => true
  end.

End Observe.

(* ===================================================================== *)
(** * Properties *)
(* ===================================================================== *)

Import Py Metadata Observe.

(** Unfolds the monad's operations in the goal and in the hypotheses. *)
Ltac run :=
  unfold mbind, M_bind, mret, M_ret, bind, ret, raise, try_except, gets,
    modify, lift, VersionManager.sys, ModelManager.vm, ConfigLoader.vm, zoom
    in *;
  simpl in *.

(** ** metadata.py *)

Section MetadataFacts.

Lemma repeat_ascii_length n c : String.length (Examples.repeat_ascii n c) = n.
Proof. induction n as [|n IH]; simpl; [reflexivity | by rewrite IH]. Qed.

Lemma validate_file_hash_ok v :
  String.length v = 64%nat → validate_file_hash v = inr v.
Proof. intros Hlen. unfold validate_file_hash. by rewrite Hlen. Qed.

Lemma validate_file_hash_rejects v :
  String.length v ≠ 64%nat →
  validate_file_hash v
  = inl (Exn ValidationError "File hash must be a valid SHA-256 hash").
Proof.
  intros Hlen. unfold validate_file_hash.
  destruct (Nat.eqb_spec (String.length v) 64) as [Heq | _]; [done | reflexivity].
Qed.

(** C10.  The [file_hash] validator of [ModelMetadata] accepts a string
    exactly when it has 64 characters, whatever the characters are: it returns
    the string unchanged when the length is 64 and raises a validation error
    otherwise; so the constructor, given an acceptable [accuracy_score],
    succeeds exactly when [file_hash] has 64 characters.  Sixty-four letters
    [z], which are no hexadecimal digest, are accepted. *)
Theorem file_hash_accepted_iff_length_64 :
  (∀ v, validate_file_hash v = inr v ↔ String.length v = 64%nat) ∧
  (∀ v, String.length v ≠ 64%nat ↔
        ∃ e, validate_file_hash v = inl e ∧ kind e = ValidationError) ∧
  (∀ m, is_ok (validate_accuracy_score (accuracy_score m)) = true →
        (ModelMetadata_init m = inr m ↔ String.length (file_hash m) = 64%nat) ∧
        (String.length (file_hash m) ≠ 64%nat ↔
         ∃ e, ModelMetadata_init m = inl e ∧ kind e = ValidationError)) ∧
  validate_file_hash (Examples.repeat_ascii 64 "z")
  = inr (Examples.repeat_ascii 64 "z").
Proof.
  assert (Hiff : ∀ v, validate_file_hash v = inr v ↔ String.length v = 64%nat).
  { intros v. split; [| apply validate_file_hash_ok].
    intros Hv. destruct (decide (String.length v = 64%nat)) as [|Hne]; [done|].
    rewrite (validate_file_hash_rejects v Hne) in Hv. discriminate. }
  assert (Hrej : ∀ v, String.length v ≠ 64%nat ↔
                      ∃ e, validate_file_hash v = inl e ∧ kind e = ValidationError).
  { intros v. split.
    - intros Hne. eexists. split; [by apply validate_file_hash_rejects | done].
    - intros (e & He & _) Hlen. rewrite (validate_file_hash_ok v Hlen) in He.
      discriminate. }
  split; [exact Hiff|]. split; [exact Hrej|]. split; [|reflexivity].
  intros m Hacc. unfold ModelMetadata_init.
  destruct (validate_accuracy_score (accuracy_score m)) as [e|a] eqn:Ha;
    [discriminate|].
  destruct (decide (String.length (file_hash m) = 64%nat)) as [Hlen|Hne].
  - rewrite (validate_file_hash_ok _ Hlen). split; [done|].
    split; [done|]. intros (e & He & _). discriminate.
  - rewrite (validate_file_hash_rejects _ Hne). split.
    + split; [discriminate | done].
    + split; [|done]. intros _. eexists. split; [reflexivity | done].
Qed.

End MetadataFacts.

(** ** version_manager.py *)

Section OrderFacts.

#[local] Instance desc_total : Total VersionManager.desc.
Proof. intros a b. unfold VersionManager.desc. destruct (total String.le a b); auto. Qed.

#[local] Instance desc_trans : Transitive VersionManager.desc.
Proof. intros a b c Hab Hbc. unfold VersionManager.desc in *. by etrans. Qed.

#[local] Instance desc_antisymm : AntiSymm (=) VersionManager.desc.
Proof.
  intros a b Hab Hba. unfold VersionManager.desc in *.
  by apply (anti_symm String.le).
Qed.

Lemma sorted_reverse_sorted l :
  StronglySorted VersionManager.desc (VersionManager.sorted_reverse l).
Proof. apply StronglySorted_merge_sort; apply _. Qed.

Lemma sorted_reverse_perm l : VersionManager.sorted_reverse l ≡ₚ l.
Proof. apply merge_sort_Permutation. Qed.

(** [sorted] is determined by its specification: the descending
    rearrangement of a list of strings is unique. *)
Lemma sorted_reverse_unique l l' :
  l' ≡ₚ l → StronglySorted VersionManager.desc l' →
  VersionManager.sorted_reverse l = l'.
Proof.
  intros Hperm Hsorted. apply (StronglySorted_unique VersionManager.desc).
  - apply sorted_reverse_sorted.
  - exact Hsorted.
  - by rewrite sorted_reverse_perm.
Qed.

End OrderFacts.

Section RegistryKeys.

Lemma split_once_model_key name version :
  has_colon name = false →
  VersionManager.split_once (VersionManager.model_key name version)
  = Some (name, version).
Proof.
  unfold VersionManager.model_key.
  induction name as [|c name IH]; simpl; intros Hname; [reflexivity|].
  apply orb_false_elim in Hname as [Hc Hname].
  rewrite Hc, (IH Hname). reflexivity.
Qed.

Lemma split_once_Some key name version :
  VersionManager.split_once key = Some (name, version) →
  key = VersionManager.model_key name version ∧ has_colon name = false.
Proof.
  unfold VersionManager.model_key.
  revert name. induction key as [|c key IH]; simpl; intros name Hsplit;
    [discriminate|].
  destruct (Ascii.eqb_spec c ":") as [-> | Hc].
  - by simplify_eq.
  - destruct (VersionManager.split_once key) as [[a b]|] eqn:Hkey;
      [|discriminate].
    simplify_eq. destruct (IH a eq_refl) as [-> Ha]. simpl. split; [done|].
    rewrite Ha. by destruct (Ascii.eqb_spec c ":").
Qed.

Lemma split_once_is_Some key :
  has_colon key = true → is_Some (VersionManager.split_once key).
Proof.
  induction key as [|c key IH]; simpl; [discriminate|].
  destruct (Ascii.eqb c ":"); simpl; [eauto|].
  intros Hkey. destruct (IH Hkey) as [[a b] ->]. eauto.
Qed.

Lemma has_colon_model_key name version :
  has_colon (VersionManager.model_key name version) = true.
Proof.
  unfold VersionManager.model_key.
  induction name as [|c name IH]; simpl; [reflexivity|].
  rewrite IH. apply orb_true_r.
Qed.

(** The loop of [list_versions] on keys that all have a colon: it returns
    the second parts of the keys whose first part is the name, once each. *)
Lemma versions_of_split name keys :
  (∀ key, key ∈ keys → has_colon key = true) →
  ∃ versions,
    VersionManager.versions_of name keys = inr versions ∧
    (∀ v, v ∈ versions
          ↔ ∃ key, key ∈ keys
                   ∧ VersionManager.split_once key = Some (name, v)) ∧
    (NoDup keys → NoDup versions).
Proof.
  induction keys as [|key keys IH]; intros Hkeys.
  - exists []. split; [reflexivity|]. split; [|constructor].
    intros v. split; [inversion 1|]. by intros (? & ?%elem_of_nil & _).
  - destruct IH as (versions & Hrun & Hmem & Hnodup).
    { intros k Hk. apply Hkeys. by right. }
    destruct (split_once_is_Some key) as [[n v] Hsplit].
    { apply Hkeys. by left. }
    simpl. rewrite Hsplit, Hrun.
    destruct (String.eqb_spec n name) as [-> | Hne].
    + exists (v :: versions). split; [reflexivity|]. split.
      * intros w. rewrite elem_of_cons, Hmem. split.
        -- intros [-> | (k & Hk & Hw)].
           ++ exists key. split; [by left | done].
           ++ exists k. split; [by right | done].
        -- intros (k & [-> | Hk]%elem_of_cons & Hw).
           ++ left. congruence.
           ++ right. eauto.
      * rewrite !NoDup_cons. intros [Hnotin Hnd]. split; [|auto].
        rewrite Hmem. intros (k & Hk & Hw). apply Hnotin.
        apply split_once_Some in Hsplit as [-> _].
        by apply split_once_Some in Hw as [-> _].
    + exists versions. split; [reflexivity|]. split.
      * intros w. rewrite Hmem. split.
        -- intros (k & Hk & Hw). exists k. split; [by right | done].
        -- intros (k & [-> | Hk]%elem_of_cons & Hw); [congruence | eauto].
      * rewrite NoDup_cons. intros [_ Hnd]. auto.
Qed.

End RegistryKeys.

Section ListVersions.

Lemma list_versions_run self T name versions :
  VersionManager.versions_of name (map_to_list (registry self T)).*1
  = inr versions →
  VersionManager.list_versions T name self
  = (inr (VersionManager.sorted_reverse versions), self) ∧
  VersionManager.get_latest_version T name self
  = (inr (head (VersionManager.sorted_reverse versions)), self).
Proof.
  intros Hrun.
  unfold VersionManager.get_latest_version, VersionManager.list_versions,
    VersionManager._load_registry.
  run. unfold registry in Hrun. by rewrite Hrun.
Qed.

Lemma registry_plain_wf self T : registry_plain self T → registry_wf self T.
Proof.
  intros Hplain k e Hk. destruct (Hplain k e Hk) as [-> _].
  apply has_colon_model_key.
Qed.

(** [list_versions] and [get_latest_version] on a registry index whose
    entries stand under the keys of the names and versions they record, no
    recorded name holding a colon. *)
Lemma list_versions_registered_under self T name :
  registry_plain self T →
  ∃ versions,
    VersionManager.list_versions T name self = (inr versions, self) ∧
    VersionManager.get_latest_version T name self
    = (inr (head versions), self) ∧
    StronglySorted VersionManager.desc versions ∧
    NoDup versions ∧
    ∀ v, v ∈ versions ↔ registered_under self T name v.
Proof.
  intros Hplain.
  destruct (versions_of_split name (map_to_list (registry self T)).*1)
    as (versions & Hrun & Hmem & Hnodup).
  { intros key [[k e] [-> Hin]]%list_elem_of_fmap.
    apply elem_of_map_to_list in Hin.
    exact (registry_plain_wf self T Hplain k e Hin). }
  destruct (list_versions_run self T name versions Hrun) as [Hlist Hlatest].
  exists (VersionManager.sorted_reverse versions).
  split; [exact Hlist|]. split; [exact Hlatest|].
  split; [apply sorted_reverse_sorted|].
  split. { rewrite sorted_reverse_perm. apply Hnodup, NoDup_fst_map_to_list. }
  intros v. rewrite sorted_reverse_perm, Hmem. split.
  - intros (key & [[k e] [Hk Hin]]%list_elem_of_fmap & Hsplit).
    simpl in Hk. subst k. apply elem_of_map_to_list in Hin.
    pose proof (Hplain key e Hin) as [Hkey Hname]. simpl in Hkey, Hname.
    rewrite Hkey in Hsplit.
    rewrite (split_once_model_key _ _ Hname) in Hsplit.
    injection Hsplit as Hn Hv. exists e. by rewrite <- Hn, <- Hv, <- Hkey.
  - intros (e & He & Hn & Hv).
    destruct (Hplain _ e He) as [_ Hname]. rewrite Hn in Hname.
    exists (VersionManager.model_key name v). split.
    + apply list_elem_of_fmap.
      exists (VersionManager.model_key name v, e). split; [done|].
      by apply elem_of_map_to_list.
    + by apply split_once_model_key.
Qed.

(** C1, amended.  For every model type and every name, on a registry index
    in which every entry stands under the key name:version of the name and
    the version it records, as [register_model] writes it, and no recorded
    name holds a colon, [list_versions] returns the versions registered
    under the name, each once, in descending lexicographic order, and
    [get_latest_version] returns the first of them (nothing when there is
    none); when the registered versions are v1, v2 and v10 the list is v2,
    v10, v1 and the latest version is v2. *)
Theorem list_versions_descending self T name :
  registry_plain self T →
  ∃ versions,
    VersionManager.list_versions T name self = (inr versions, self) ∧
    VersionManager.get_latest_version T name self
    = (inr (head versions), self) ∧
    StronglySorted VersionManager.desc versions ∧
    NoDup versions ∧
    (∀ v, v ∈ versions ↔ registered_under self T name v) ∧
    ((∀ v, registered_under self T name v ↔ v ∈ ["v1"; "v2"; "v10"]) →
     versions = ["v2"; "v10"; "v1"] ∧ head versions = Some "v2").
Proof.
  intros Hplain.
  destruct (list_versions_registered_under self T name Hplain)
    as (versions & Hlist & Hlatest & Hsorted & Hnd & Hreg).
  exists versions.
  split; [exact Hlist|]. split; [exact Hlatest|].
  split; [exact Hsorted|]. split; [exact Hnd|]. split; [exact Hreg|].
  intros Hthree.
  assert (Hsame : VersionManager.sorted_reverse versions = versions)
    by (by apply sorted_reverse_unique).
  assert (Heq : VersionManager.sorted_reverse versions = ["v2"; "v10"; "v1"]).
  { apply sorted_reverse_unique.
    - apply NoDup_Permutation; [|exact Hnd|].
      + apply (bool_decide_unpack _). by vm_compute.
      + intros v. rewrite Hreg, Hthree, !elem_of_cons, !elem_of_nil. tauto.
    - repeat constructor; by vm_compute. }
  rewrite <- Hsame, Heq. done.
Qed.

Lemma list_versions_descending_witness :
  ∃ versions,
    VersionManager.list_versions TASK_PARSER "m" Examples.three_versions
    = (inr versions, Examples.three_versions) ∧
    VersionManager.get_latest_version TASK_PARSER "m" Examples.three_versions
    = (inr (head versions), Examples.three_versions) ∧
    StronglySorted VersionManager.desc versions ∧
    NoDup versions ∧
    (∀ v, v ∈ versions
          ↔ registered_under Examples.three_versions TASK_PARSER "m" v) ∧
    ((∀ v, registered_under Examples.three_versions TASK_PARSER "m" v
           ↔ v ∈ ["v1"; "v2"; "v10"]) →
     versions = ["v2"; "v10"; "v1"] ∧ head versions = Some "v2").
Proof.
  apply (list_versions_descending Examples.three_versions TASK_PARSER "m").
  apply (bool_decide_unpack _). by vm_compute.
Defined.

(** Whatever the order in which v1, v2 and v10 are registered, the list is
    v2, v10, v1. *)
Example list_versions_any_order :
  ∀ a b c, (a, b, c) ∈ [("v1", "v2", "v10"); ("v1", "v10", "v2");
                        ("v2", "v1", "v10"); ("v2", "v10", "v1");
                        ("v10", "v1", "v2"); ("v10", "v2", "v1")] →
  let self :=
    Examples.register_sample TASK_PARSER "m" c
      (Examples.register_sample TASK_PARSER "m" b
         (Examples.register_sample TASK_PARSER "m" a Examples.fresh_manager)) in
  (VersionManager.list_versions TASK_PARSER "m" self).1
  = inr ["v2"; "v10"; "v1"] ∧
  (VersionManager.get_latest_version TASK_PARSER "m" self).1 = inr (Some "v2").
Proof.
  intros a b c Hin.
  repeat (apply elem_of_cons in Hin as [Heq | Hin];
          [injection Heq as -> -> ->; by vm_compute|]).
  inversion Hin.
Qed.

(** C1 as stated fails for a name with a colon: after registering version v1
    of the name a:b, the version is registered under that name, but
    [list_versions] for a:b returns the empty list and [get_latest_version]
    returns nothing; and [list_versions] for the name a lists b:v1, which
    was not registered under a. *)
Lemma list_versions_colon_name_counterexample :
  registered_under Examples.colon_name TASK_PARSER "a:b" "v1" ∧
  VersionManager.list_versions TASK_PARSER "a:b" Examples.colon_name
  = (inr [], Examples.colon_name) ∧
  VersionManager.get_latest_version TASK_PARSER "a:b" Examples.colon_name
  = (inr None, Examples.colon_name) ∧
  VersionManager.list_versions TASK_PARSER "a" Examples.colon_name
  = (inr ["b:v1"], Examples.colon_name) ∧
  ¬ registered_under Examples.colon_name TASK_PARSER "a" "b:v1".
Proof.
  split.
  { exists (VersionManager.registry_entry
              (Examples.sample_metadata TASK_PARSER "a:b" "v1" "model.bin"
                 [])).
    split; [by vm_compute|]. split; reflexivity. }
  split; [by vm_compute|]. split; [by vm_compute|]. split; [by vm_compute|].
  intros (e & He & Hn & _). vm_compute in He. injection He as <-.
  discriminate Hn.
Qed.

End ListVersions.

Section MetadataCache.

(** [register_model] returns a boolean, never raises, and when it returns
    true the record is in the cache under [name:version]. *)
Lemma register_model_run metadata self :
  ∃ ok self',
    VersionManager.register_model metadata self = (inr ok, self') ∧
    VersionManager.models_base_path self'
    = VersionManager.models_base_path self ∧
    (ok = true →
     VersionManager._metadata_cache self'
     = <[VersionManager.model_key (name metadata) (version metadata)
         := metadata]> (VersionManager._metadata_cache self)).
Proof.
  unfold VersionManager.register_model, VersionManager._load_registry,
    write_metadata_file, write_registry_file, open_w.
  run. repeat (case_bool_decide; simpl);
    (do 2 eexists; split; [reflexivity|]; split; [reflexivity|]; by intros).
Qed.

Lemma get_model_metadata_cached model_type name version self metadata :
  VersionManager._metadata_cache self
    !! VersionManager.model_key name version = Some metadata →
  VersionManager.get_model_metadata model_type name version self
  = (inr (Some metadata), self).
Proof.
  intros Hhit. unfold VersionManager.get_model_metadata. run.
  by rewrite Hhit.
Qed.

(** C9.  The metadata cache is keyed by [name:version] alone: once
    [register_model] has succeeded for a record, [get_model_metadata] for the
    record's name and version answers that very record for every model type,
    also a type other than the record's, whatever is on disk for that other
    type. *)
Theorem get_model_metadata_ignores_type metadata self self' model_type :
  VersionManager.register_model metadata self = (inr true, self') →
  VersionManager.get_model_metadata model_type (name metadata)
    (version metadata) self'
  = (inr (Some metadata), self').
Proof.
  intros Hreg. apply get_model_metadata_cached.
  destruct (register_model_run metadata self) as (ok & s & Hrun & _ & Hcache).
  rewrite Hrun in Hreg. injection Hreg as -> ->.
  rewrite (Hcache eq_refl). apply lookup_insert_eq.
Qed.

(** After registering a task parser default/v1 on a fresh manager, the
    prioritizer default/v1, of which nothing is on disk, resolves to the task
    parser's record. *)
Lemma get_model_metadata_ignores_type_witness :
  let metadata :=
    Examples.sample_metadata TASK_PARSER "default" "v1" "model.bin" [] in
  let self' := Examples.register_sample TASK_PARSER "default" "v1"
                 Examples.fresh_manager in
  VersionManager.get_model_metadata PRIORITIZER "default" "v1" self'
  = (inr (Some metadata), self') ∧
  model_type metadata = TASK_PARSER ∧
  metadata_files (VersionManager.disk self')
    !! VersionManager.metadata_file self' PRIORITIZER "default" "v1" = None ∧
  registry self' PRIORITIZER !! VersionManager.model_key "default" "v1" = None.
Proof.
  split; [|by vm_compute].
  apply (get_model_metadata_ignores_type
           (Examples.sample_metadata TASK_PARSER "default" "v1" "model.bin" [])
           Examples.fresh_manager).
  by vm_compute.
Defined.

End MetadataCache.

Section Resolve.

Lemma get_model_metadata_run model_type name version self :
  VersionManager.get_model_metadata model_type name version self
  = (inr (resolve self model_type name version),
     after_resolve self model_type name version).
Proof.
  unfold resolve, after_resolve, VersionManager.get_model_metadata. run.
  destruct (VersionManager._metadata_cache self !! _); [reflexivity|].
  destruct (metadata_files (VersionManager.disk self) !! _) as [[m|]|];
    reflexivity.
Qed.

Lemma after_resolve_None model_type name version self :
  resolve self model_type name version = None →
  after_resolve self model_type name version = self.
Proof.
  unfold resolve, after_resolve, VersionManager.get_model_metadata. run.
  destruct (VersionManager._metadata_cache self !! _); [discriminate|].
  destruct (metadata_files (VersionManager.disk self) !! _) as [[m|]|];
    [discriminate | reflexivity | reflexivity].
Qed.

(** Resolving changes nothing but the cache, where it puts the record under
    [name:version]. *)
Lemma after_resolve_Some model_type name version self metadata :
  resolve self model_type name version = Some metadata →
  after_resolve self model_type name version
  = VersionManager.set_cache
      (<[VersionManager.model_key name version := metadata]>
         (VersionManager._metadata_cache self)) self.
Proof.
  unfold resolve, after_resolve, VersionManager.get_model_metadata. run.
  destruct (VersionManager._metadata_cache self !! _) as [m|] eqn:Hhit.
  - intros [= ->]. destruct self as [base cache d]. unfold VersionManager.set_cache.
    simpl in *. by rewrite insert_id.
  - destruct (metadata_files (VersionManager.disk self) !! _) as [[m|]|];
      [by intros [= ->] | discriminate | discriminate].
Qed.

Lemma after_resolve_disk model_type name version self :
  VersionManager.disk (after_resolve self model_type name version)
  = VersionManager.disk self.
Proof.
  destruct (resolve self model_type name version) as [m|] eqn:Hres.
  - by rewrite (after_resolve_Some _ _ _ _ _ Hres).
  - by rewrite (after_resolve_None _ _ _ _ Hres).
Qed.

Lemma set_disk_after_resolve model_type name version self :
  VersionManager.set_disk (VersionManager.disk self)
    (after_resolve self model_type name version)
  = after_resolve self model_type name version.
Proof.
  rewrite <- (after_resolve_disk model_type name version self) at 1.
  by destruct (after_resolve self model_type name version).
Qed.

Lemma after_resolve_base model_type name version self :
  VersionManager.models_base_path (after_resolve self model_type name version)
  = VersionManager.models_base_path self.
Proof.
  destruct (resolve self model_type name version) as [m|] eqn:Hres.
  - by rewrite (after_resolve_Some _ _ _ _ _ Hres).
  - by rewrite (after_resolve_None _ _ _ _ Hres).
Qed.

(** Once resolved, a version resolves to the same record from the cache, for
    every model type. *)
Lemma resolve_after_resolve model_type name version self metadata :
  resolve self model_type name version = Some metadata →
  VersionManager._metadata_cache (after_resolve self model_type name version)
    !! VersionManager.model_key name version = Some metadata.
Proof.
  intros Hres. rewrite (after_resolve_Some _ _ _ _ _ Hres). simpl.
  apply lookup_insert_eq.
Qed.

Lemma resolve_cached model_type name version self metadata :
  VersionManager._metadata_cache self
    !! VersionManager.model_key name version = Some metadata →
  resolve self model_type name version = Some metadata ∧
  after_resolve self model_type name version = self.
Proof.
  intros Hhit. unfold resolve, after_resolve.
  by rewrite (get_model_metadata_cached _ _ _ _ _ Hhit).
Qed.

End Resolve.

Section Integrity.
Context `{Externals}.

(** The answer of [validate_model_integrity], case by case. *)
Lemma validate_model_integrity_run self model_type name version :
  VersionManager.validate_model_integrity model_type name version self
  = (inr
       match resolve self model_type name version with
       | None => (false, "Model metadata not found")
       | Some metadata =>
           match files (VersionManager.disk self) !! file_path metadata with
           | None => (false, "Model file not found: " +:+ file_path metadata)
           | Some f =>
               if negb (getsize f =? file_size_bytes metadata)
               then (false, "File size mismatch: expected "
                              +:+ pretty (file_size_bytes metadata)
                              +:+ ", got " +:+ pretty (getsize f))
               else if readable f
               then if negb (sha256_hexdigest (content f)
                             =? file_hash metadata)%string
                    then (false, "File hash mismatch: expected "
                                   +:+ file_hash metadata +:+ ", got "
                                   +:+ sha256_hexdigest (content f))
                    else (true, "Model integrity validated")
               else (false, "Error calculating hash: "
                              +:+ ("Error calculating hash for "
                                     +:+ file_path metadata
                                     +:+ ": [Errno 13] Permission denied: '"
                                     +:+ file_path metadata +:+ "'"))
           end
       end,
     after_resolve self model_type name version).
Proof.
  unfold VersionManager.validate_model_integrity, calculate_file_hash. run.
  rewrite get_model_metadata_run.
  destruct (resolve self model_type name version) as [metadata|];
    [|reflexivity].
  rewrite !after_resolve_disk.
  destruct (files (VersionManager.disk self) !! file_path metadata)
    as [f|] eqn:Hfile; [|reflexivity].
  destruct (negb (getsize f =? file_size_bytes metadata)); [reflexivity|].
  simpl. rewrite ?after_resolve_disk, ?Hfile.
  destruct (readable f); simpl; rewrite set_disk_after_resolve;
    [|reflexivity].
  by destruct (negb (sha256_hexdigest (content f) =? file_hash metadata)%string).
Qed.

Lemma validate_model_integrity_integrity self model_type name version :
  VersionManager.validate_model_integrity model_type name version self
  = (inr (integrity self model_type name version),
     after_resolve self model_type name version).
Proof.
  unfold integrity. by rewrite validate_model_integrity_run.
Qed.

(** The answer depends on the record resolved and on the files only. *)
Lemma integrity_congr self1 self2 model_type name version :
  resolve self1 model_type name version = resolve self2 model_type name version →
  files (VersionManager.disk self1) = files (VersionManager.disk self2) →
  integrity self1 model_type name version
  = integrity self2 model_type name version.
Proof.
  intros Hres Hfiles. unfold integrity.
  rewrite !validate_model_integrity_run. by rewrite Hres, Hfiles.
Qed.



(** The stored configuration decides the answer of [get_model_config]. *)
Lemma get_model_config_run self model_type name version :
  VersionManager.get_model_config model_type name version self
  = (inr (config_of self model_type name version),
     after_resolve self model_type name version).
Proof.
  unfold config_of, VersionManager.get_model_config. run.
  rewrite get_model_metadata_run.
  destruct (resolve self model_type name version) as [metadata|];
    [|reflexivity].
  by destruct (ModelConfig_init _).
Qed.

Lemma config_of_congr self1 self2 model_type name version m1 m2 :
  resolve self1 model_type name version = Some m1 →
  resolve self2 model_type name version = Some m2 →
  config m1 = config m2 →
  config_of self1 model_type name version
  = config_of self2 model_type name version.
Proof.
  intros Hres1 Hres2 Hconfig.
  unfold config_of, VersionManager.get_model_config. run.
  rewrite !get_model_metadata_run, Hres1, Hres2, Hconfig.
  by destruct (ModelConfig_init _).
Qed.

End Integrity.

Section StatusUpdate.

Lemma update_model_status_unresolved model_type name version st self :
  resolve self model_type name version = None →
  VersionManager.update_model_status model_type name version st self
  = (inr false, self).
Proof.
  intros Hres. unfold VersionManager.update_model_status. run.
  by rewrite get_model_metadata_run, Hres, (after_resolve_None _ _ _ _ Hres).
Qed.

(** [update_model_status] on a version that resolves: it never raises; the
    cache holds the record with the new status whether or not the files could
    be written; the artifact files are untouched; the record is on disk when
    its file could be written. *)
Lemma update_model_status_run model_type name version st self metadata :
  resolve self model_type name version = Some metadata →
  ∃ ok self' t,
    VersionManager.update_model_status model_type name version st self
    = (inr ok, self') ∧
    VersionManager._metadata_cache self'
    = <[VersionManager.model_key name version := set_status st t metadata]>
        (VersionManager._metadata_cache self) ∧
    VersionManager.models_base_path self'
    = VersionManager.models_base_path self ∧
    files (VersionManager.disk self') = files (VersionManager.disk self) ∧
    unwritable (VersionManager.disk self')
    = unwritable (VersionManager.disk self) ∧
    (VersionManager.metadata_file self model_type name version
       ∉ unwritable (VersionManager.disk self) →
     stored self' model_type name version = Some (set_status st t metadata)).
Proof.
  intros Hres.
  unfold VersionManager.update_model_status, VersionManager._load_registry,
    write_metadata_file, write_registry_file, open_w, now, stored.
  run. rewrite get_model_metadata_run, Hres, (after_resolve_Some _ _ _ _ _ Hres).
  simpl.
  destruct (clock (VersionManager.disk self)) as [|t rest]; simpl;
    (case_bool_decide as Hw; simpl;
     [| destruct (default ∅ _ !! VersionManager.model_key name version);
        simpl; [case_bool_decide; simpl|] ]);
    do 3 eexists;
    (split; [reflexivity|]); simpl;
    rewrite ?insert_insert_eq;
    (split; [reflexivity|]); (split; [reflexivity|]);
    (split; [reflexivity|]); (split; [reflexivity|]);
    intros Hok; try done;
    unfold VersionManager.metadata_file, VersionManager.get_model_directory;
    simpl; by rewrite ?lookup_insert_eq.
Qed.

End StatusUpdate.

(** ** model_manager.py *)

Arguments VersionManager.get_model_metadata : simpl never.
Arguments VersionManager.validate_model_integrity : simpl never.
Arguments VersionManager.update_model_status : simpl never.
Arguments VersionManager.get_model_config : simpl never.
Arguments VersionManager.get_latest_version : simpl never.
Arguments VersionManager.list_versions : simpl never.

Section LoadModel.
Context `{Externals}.

Lemma set_version_manager_same (self : ModelManager.t) :
  ModelManager.set_version_manager (ModelManager.version_manager self) self
  = self.
Proof. by destruct self. Qed.

(** A version that resolves keeps resolving, from the cache, once its status
    was updated. *)
Lemma status_after_update model_type name version st self metadata :
  resolve self model_type name version = Some metadata →
  ∃ ok self' t,
    VersionManager.update_model_status model_type name version st self
    = (inr ok, self') ∧
    resolve self' model_type name version = Some (set_status st t metadata) ∧
    after_resolve self' model_type name version = self' ∧
    files (VersionManager.disk self') = files (VersionManager.disk self) ∧
    (VersionManager.metadata_file self model_type name version
       ∉ unwritable (VersionManager.disk self) →
     stored self' model_type name version = Some (set_status st t metadata)).
Proof.
  intros Hres.
  destruct (update_model_status_run model_type name version st self metadata
              Hres) as (ok & self' & t & Hrun & Hcache & _ & Hfiles & _ & Hdisk).
  exists ok, self', t. split; [exact Hrun|].
  destruct (resolve_cached model_type name version self'
              (set_status st t metadata)) as [Hres' Hsame].
  { rewrite Hcache. apply lookup_insert_eq. }
  auto.
Qed.


(** C4.  [load_model] for a key that is in the table of loaded models
    returns true at once and changes nothing: not the tables of the model
    manager, not the cache or the disk of the version manager, so no metadata
    is fetched, no integrity check is run and no status is written.  The same
    holds when the version is left out and the latest version is the loaded
    one. *)
Theorem load_model_already_loaded self model_type name version :
  is_Some (ModelManager._loaded_models self
             !! ModelManager.get_model_key model_type name version) →
  ModelManager.load_model model_type name (Some version) self
  = (inr true, self) ∧
  (VersionManager.get_latest_version model_type name
     (ModelManager.version_manager self)
   = (inr (Some version), ModelManager.version_manager self) →
   ModelManager.load_model model_type name None self = (inr true, self)).
Proof.
  intros Hloaded. unfold ModelManager.load_model. run. split.
  - by rewrite bool_decide_eq_true_2.
  - intros ->. rewrite set_version_manager_same.
    by rewrite bool_decide_eq_true_2.
Qed.

(** C3, as the code behaves.  When the version resolves, is not loaded, its
    file passes the integrity check and no configuration can be built from
    the stored one, [load_model] returns false and adds nothing to the table
    of loaded models, and the status the version manager reports is LOADING,
    the one written before the configuration was asked for. *)
Theorem load_model_config_failure_leaves_loading self model_type name version
    metadata :
  let v := ModelManager.version_manager self in
  resolve v model_type name version = Some metadata →
  (integrity v model_type name version).1 = true →
  config_of v model_type name version = None →
  ModelManager._loaded_models self
    !! ModelManager.get_model_key model_type name version = None →
  ∃ self',
    ModelManager.load_model model_type name (Some version) self
    = (inr false, self') ∧
    ModelManager._loaded_models self' = ModelManager._loaded_models self ∧
    status_of (ModelManager.version_manager self') model_type name version
    = Some LOADING.
Proof.
  intros v Hres Hvalid Hconfig Hunloaded.
  set (v1 := after_resolve v model_type name version).
  assert (Hres1 : resolve v1 model_type name version = Some metadata
                  ∧ after_resolve v1 model_type name version = v1).
  { apply resolve_cached, resolve_after_resolve, Hres. }
  destruct Hres1 as [Hres1 Hsame1].
  assert (Hvalid1 : (integrity v1 model_type name version).1 = true).
  { rewrite (integrity_congr v1 v); [done | by rewrite Hres1 |].
    unfold v1. by rewrite after_resolve_disk. }
  destruct (status_after_update model_type name version LOADING v1 metadata
              Hres1) as (ok & v2 & t & Hupd & Hres2 & Hsame2 & _ & _).
  assert (Hconfig2 : config_of v2 model_type name version = None).
  { by rewrite (config_of_congr v2 v model_type name version _ _ Hres2 Hres). }
  unfold ModelManager.load_model. run.
  repeat (case_bool_decide as Hl;
          [exfalso; destruct Hl as [? Hl]; simpl in Hl; congruence
          |clear Hl]).
  simpl. fold v. rewrite get_model_metadata_run, Hres. fold v1. simpl.
  rewrite validate_model_integrity_integrity, Hsame1.
  destruct (integrity v1 model_type name version) as [valid reason].
  simpl in Hvalid1. subst valid. simpl. rewrite Hupd. simpl.
  rewrite get_model_config_run, Hconfig2, Hsame2. simpl.
  eexists. split; [reflexivity|]. simpl. split; [reflexivity|].
  unfold status_of. by rewrite Hres2.
Qed.

End LoadModel.

Section LoadModelExamples.
#[local] Existing Instance Examples.libraries.



Lemma load_model_already_loaded_witness :
  ModelManager.load_model TASK_PARSER "default" (Some "v1")
    Examples.sample_loaded
  = (inr true, Examples.sample_loaded) ∧
  (VersionManager.get_latest_version TASK_PARSER "default"
     (ModelManager.version_manager Examples.sample_loaded)
   = (inr (Some "v1"), ModelManager.version_manager Examples.sample_loaded) →
   ModelManager.load_model TASK_PARSER "default" None Examples.sample_loaded
   = (inr true, Examples.sample_loaded)).
Proof.
  apply (load_model_already_loaded Examples.sample_loaded TASK_PARSER
           "default" "v1").
  vm_compute. eauto.
Defined.

(** The failing input of C3: task parser default/v1 registered with the
    stored configuration temperature = 5.0 for an intact file.  The load
    fails and the status is left at LOADING, not ERROR. *)
Lemma load_model_config_failure_leaves_loading_witness :
  ∃ self',
    ModelManager.load_model TASK_PARSER "default" (Some "v1")
      Examples.hot_manager
    = (inr false, self') ∧
    ModelManager._loaded_models self'
    = ModelManager._loaded_models Examples.hot_manager ∧
    status_of (ModelManager.version_manager self') TASK_PARSER "default" "v1"
    = Some LOADING.
Proof.
  apply (load_model_config_failure_leaves_loading Examples.hot_manager
           TASK_PARSER "default" "v1"
           (Examples.sample_metadata TASK_PARSER "default" "v1" "model.bin"
              [("temperature", VFloat 5)])); by vm_compute.
Defined.

End LoadModelExamples.

Section Processing.
Context `{ModelManager.Analyzers}.
Variable settings_cache_size : nat.

Lemma clock_now_run self :
  ∃ t self', ModelManager.clock_now self = (inr t, self').
Proof.
  unfold ModelManager.clock_now, now. run.
  destruct (clock _); eauto.
Qed.

Lemma record_success_run model_type model_name version start self :
  ∃ self',
    ModelManager.record_success model_type model_name version start self
    = (inr tt, self').
Proof.
  unfold ModelManager.record_success, ModelManager._track_inference_time,
    ModelManager.emit.
  destruct (clock_now_run self) as (t & s & Hnow).
  unfold mbind, M_bind, bind. rewrite Hnow. run. eauto.
Qed.

Lemma record_error_run model_type version start self :
  ∃ self',
    ModelManager.record_error model_type version start self = (inr tt, self').
Proof.
  unfold ModelManager.record_error, ModelManager.emit.
  destruct (clock_now_run self) as (t & s & Hnow).
  unfold mbind, M_bind, bind. rewrite Hnow. run. eauto.
Qed.

(** The body of [process_task_parsing]: the analyzer's dictionary, or the
    fallback when the analyzer raised. *)
Lemma process_task_parsing_body_run text model_name version self :
  ∃ self',
    ModelManager.process_task_parsing_body (text, model_name, version) self
    = (inr match ModelManager.parse_task text with
           | inr d => d
           | inl _ => ModelManager.parsing_fallback text
           end, self').
Proof.
  unfold ModelManager.process_task_parsing_body.
  destruct (clock_now_run self) as (t & s & Hnow).
  unfold mbind, M_bind, bind, try_except, lift. rewrite Hnow.
  destruct (ModelManager.parse_task text) as [e|d].
  - destruct (record_error_run TASK_PARSER version t s) as (s' & ->).
    run. eauto.
  - destruct (record_success_run TASK_PARSER model_name version t s)
      as (s' & ->).
    run. eauto.
Qed.

Lemma process_task_prioritization_body_run tasks_json model_name version self :
  ∃ self',
    ModelManager.process_task_prioritization_body
      (tasks_json, model_name, version) self
    = (inr match ModelManager.json_loads tasks_json with
           | inl _ => ModelManager.prioritization_fallback_unparsed
           | inr tasks =>
               match ModelManager.prioritize_tasks tasks with
               | inr d => d
               | inl _ =>
                   match ModelManager.len tasks with
                   | inr n => ModelManager.prioritization_fallback n
                   | inl _ => ModelManager.prioritization_fallback_unparsed
                   end
               end
           end, self').
Proof.
  unfold ModelManager.process_task_prioritization_body.
  destruct (clock_now_run self) as (t & s & Hnow).
  unfold mbind, M_bind, bind, try_except, lift. rewrite Hnow.
  destruct (ModelManager.json_loads tasks_json) as [e|tasks].
  - destruct (record_error_run PRIORITIZER version t s) as (s' & ->).
    run. eauto.
  - destruct (ModelManager.prioritize_tasks tasks) as [e|d].
    + destruct (record_error_run PRIORITIZER version t s) as (s' & ->).
      run. destruct (ModelManager.len tasks); eauto.
    + destruct (record_success_run PRIORITIZER model_name version t s)
        as (s' & ->).
      run. eauto.
Qed.

Lemma process_insights_generation_body_run data_json model_name version self :
  ∃ self',
    ModelManager.process_insights_generation_body
      (data_json, model_name, version) self
    = (inr match ModelManager.json_loads data_json with
           | inl e => ModelManager.insights_fallback e
           | inr task_data =>
               match ModelManager.generate_insights task_data with
               | inr d => d
               | inl e => ModelManager.insights_fallback e
               end
           end, self').
Proof.
  unfold ModelManager.process_insights_generation_body.
  destruct (clock_now_run self) as (t & s & Hnow).
  unfold mbind, M_bind, bind, try_except, lift. rewrite Hnow.
  destruct (ModelManager.json_loads data_json) as [e|task_data].
  - destruct (record_error_run INSIGHTS version t s) as (s' & ->).
    run. eauto.
  - destruct (ModelManager.generate_insights task_data) as [e|d].
    + destruct (record_error_run INSIGHTS version t s) as (s' & ->).
      run. eauto.
    + destruct (record_success_run INSIGHTS model_name version t s)
        as (s' & ->).
      run. eauto.
Qed.

(** A cached method whose body never raises never raises, and when the call
    is not in the store it returns what the body returns. *)
Lemma lru_cache_run {S} maxsize (store : S → list (ModelManager.call_key * value))
    set_store (body : ModelManager.call_key → M S value) k s (d : value) :
  (∃ s', body k s = (inr d, s')) →
  (∃ d' s', ModelManager.lru_cache maxsize store set_store body k s
            = (inr d', s')) ∧
  (not_cached maxsize (store s) k →
   ∃ s', ModelManager.lru_cache maxsize store set_store body k s = (inr d, s')).
Proof.
  intros (s' & Hbody). unfold ModelManager.lru_cache, not_cached.
  destruct (Nat.eqb_spec maxsize 0) as [Hzero|Hpos].
  { rewrite Hbody. eauto. }
  run. destruct (list_find _ (store s)) as [[i [k' v]]|] eqn:Hfind.
  - split; [eauto|]. intros [Hzero | Hfresh]; [done|].
    apply list_find_Some in Hfind as (Hi & Hk & _). simpl in Hk. exfalso.
    apply (Hfresh (k', v)); [|done]. by eapply list_elem_of_lookup_2.
  - rewrite Hbody. eauto.
Qed.

(** C6.  The three processing entry points return a dictionary for every
    input and never raise, whatever the analyzers and [json.loads] do.  When
    the call is not answered from the cache and the analyzer raises, or, for
    prioritization and insights, the input is no JSON, the dictionary is the
    fallback: for parsing the one built from the text, confidence 0.1; for
    prioritization one entry per task, confidence 0.1, or the empty one,
    confidence 0.0, when the tasks cannot be parsed or counted; for insights
    the fixed advice, confidence 0.3. *)
Theorem processing_never_raises self text model_name version :
  (∃ d self',
     ModelManager.process_task_parsing settings_cache_size text model_name
       version self = (inr d, self')) ∧
  (∃ d self',
     ModelManager.process_task_prioritization settings_cache_size text
       model_name version self = (inr d, self')) ∧
  (∃ d self',
     ModelManager.process_insights_generation settings_cache_size text
       model_name version self = (inr d, self')) ∧
  (not_cached settings_cache_size (ModelManager.parsing_cache self)
     (text, model_name, version) →
   ∀ e, ModelManager.parse_task text = inl e →
   ∃ self',
     ModelManager.process_task_parsing settings_cache_size text model_name
       version self = (inr (ModelManager.parsing_fallback text), self')) ∧
  (not_cached settings_cache_size (ModelManager.prioritization_cache self)
     (text, model_name, version) →
   (∀ e, ModelManager.json_loads text = inl e →
    ∃ self',
      ModelManager.process_task_prioritization settings_cache_size text
        model_name version self
      = (inr ModelManager.prioritization_fallback_unparsed, self')) ∧
   (∀ tasks e, ModelManager.json_loads text = inr tasks →
    ModelManager.prioritize_tasks tasks = inl e →
    ∃ self',
      ModelManager.process_task_prioritization settings_cache_size text
        model_name version self
      = (inr match ModelManager.len tasks with
             | inr n => ModelManager.prioritization_fallback n
             | inl _ => ModelManager.prioritization_fallback_unparsed
             end, self'))) ∧
  (not_cached settings_cache_size (ModelManager.insights_cache self)
     (text, model_name, version) →
   (∀ e, ModelManager.json_loads text = inl e →
    ∃ self',
      ModelManager.process_insights_generation settings_cache_size text
        model_name version self
      = (inr (ModelManager.insights_fallback e), self')) ∧
   (∀ task_data e, ModelManager.json_loads text = inr task_data →
    ModelManager.generate_insights task_data = inl e →
    ∃ self',
      ModelManager.process_insights_generation settings_cache_size text
        model_name version self
      = (inr (ModelManager.insights_fallback e), self'))) ∧
  confidence (ModelManager.parsing_fallback text) = Some (VFloat (1 # 10)) ∧
  (∀ n, confidence (ModelManager.prioritization_fallback n)
        = Some (VFloat (1 # 10))) ∧
  confidence ModelManager.prioritization_fallback_unparsed = Some (VFloat 0) ∧
  (∀ e, confidence (ModelManager.insights_fallback e) = Some (VFloat (3 # 10))).
Proof.
  pose proof (lru_cache_run settings_cache_size ModelManager.parsing_cache
                ModelManager.set_parsing_cache
                ModelManager.process_task_parsing_body
                (text, model_name, version) self _
                (process_task_parsing_body_run text model_name version self))
    as [Hparse Hparse'].
  pose proof (lru_cache_run settings_cache_size
                ModelManager.prioritization_cache
                ModelManager.set_prioritization_cache
                ModelManager.process_task_prioritization_body
                (text, model_name, version) self _
                (process_task_prioritization_body_run text model_name version
                   self))
    as [Hprio Hprio'].
  pose proof (lru_cache_run settings_cache_size ModelManager.insights_cache
                ModelManager.set_insights_cache
                ModelManager.process_insights_generation_body
                (text, model_name, version) self _
                (process_insights_generation_body_run text model_name version
                   self))
    as [Hins Hins'].
  split; [exact Hparse|]. split; [exact Hprio|]. split; [exact Hins|].
  split.
  { intros Hfresh e He. specialize (Hparse' Hfresh). by rewrite He in Hparse'. }
  split.
  { intros Hfresh. specialize (Hprio' Hfresh). split.
    - intros e He. by rewrite He in Hprio'.
    - intros tasks e Htasks He. by rewrite Htasks, He in Hprio'. }
  split.
  { intros Hfresh. specialize (Hins' Hfresh). split.
    - intros e He. by rewrite He in Hins'.
    - intros task_data e Hdata He. by rewrite Hdata, He in Hins'. }
  repeat split; reflexivity.
Qed.

End Processing.

(** ** Loops *)

Section ForEach.
Context {S A : Type}.
Implicit Types (l : list A) (body : A → M S unit).

(** A loop whose turns all complete, while an invariant holds, completes and
    keeps the invariant. *)
Lemma for_each_invariant (I : S → Prop) l body :
  (∀ x s, x ∈ l → I s → ∃ s', body x s = (inr tt, s') ∧ I s') →
  ∀ s, I s → ∃ s', for_each l body s = (inr tt, s') ∧ I s'.
Proof.
  induction l as [|x l IH]; intros Hbody s Hs; simpl.
  - by exists s.
  - destruct (Hbody x s) as (s1 & Hx & Hs1); [by left | done |].
    unfold bind. rewrite Hx. apply IH; [|done].
    intros y t Hy. apply Hbody. by right.
Qed.

(** In a loop that completed, every turn completed. *)
Lemma for_each_cons_inv x l body s s' :
  for_each (x :: l) body s = (inr tt, s') →
  ∃ s1, body x s = (inr tt, s1) ∧ for_each l body s1 = (inr tt, s').
Proof.
  simpl. unfold bind. destruct (body x s) as [[e|[]] s1]; [discriminate|].
  eauto.
Qed.

(** When each turn moves the state along a preorder, a completed loop moved
    it along the preorder, and each element had its turn in between. *)
Lemma for_each_visit (R : relation S) `{!PreOrder R} l body :
  (∀ x s s', x ∈ l → body x s = (inr tt, s') → R s s') →
  ∀ s s', for_each l body s = (inr tt, s') →
    R s s' ∧
    ∀ x, x ∈ l → ∃ t t', R s t ∧ body x t = (inr tt, t') ∧ R t' s'.
Proof.
  induction l as [|x l IH]; intros Hbody s s' Hrun.
  - simpl in Hrun. injection Hrun as <-. split; [done|]. intros x Hx.
    inversion Hx.
  - apply for_each_cons_inv in Hrun as (s1 & Hx & Hrest).
    assert (Hstep : R s s1) by (eapply Hbody; [by left | done]).
    destruct (IH (λ y t t' Hy, Hbody y t t' (list_elem_of_further _ _ _ Hy))
                s1 s' Hrest) as [Hmono Hvisit].
    split; [by etrans|].
    intros y [-> | Hy]%elem_of_cons.
    + exists s, s1. done.
    + destruct (Hvisit y Hy) as (t & t' & Ht & Hbody' & Ht').
      exists t, t'. split; [by etrans | done].
Qed.

Lemma for_each_ext l body body' s :
  (∀ x t, x ∈ l → body x t = body' x t) →
  for_each l body s = for_each l body' s.
Proof.
  revert s. induction l as [|x l IH]; intros s Hext; simpl; [done|].
  unfold bind. rewrite (Hext x s) by by left.
  destruct (body' x s) as [[e|[]] t]; [done|].
  apply IH. intros y t' Hy. apply Hext. by right.
Qed.

Lemma for_each_app l1 l2 body s :
  for_each (l1 ++ l2) body s
  = bind (for_each l1 body) (λ _, for_each l2 body) s.
Proof.
  revert s. induction l1 as [|x l1 IH]; intros s; simpl; [done|].
  unfold bind in *. destruct (body x s) as [[e|[]] t]; [done|].
  by rewrite IH.
Qed.

End ForEach.

Section ForEachNested.
Context {S A B : Type}.

(** A loop inside a loop is one loop over the concatenation. *)
Lemma for_each_bind (f : A → list B) (l : list A) (body : B → M S unit) s :
  for_each (l ≫= f) body s = for_each l (λ x, for_each (f x) body) s.
Proof.
  revert s. induction l as [|x l IH]; intros s; simpl; [done|].
  rewrite for_each_app. unfold bind.
  destruct (for_each (f x) body s) as [[e|[]] t]; [done|]. apply IH.
Qed.

Lemma for_each_fmap (f : A → B) (l : list A) (body : B → M S unit) s :
  for_each (f <$> l) body s = for_each l (λ x, body (f x)) s.
Proof.
  revert s. induction l as [|x l IH]; intros s; simpl; [done|].
  unfold bind. destruct (body (f x) s) as [[e|[]] t]; [done|]. apply IH.
Qed.

End ForEachNested.

(** ** config_loader.py: validate_config *)

Section ValidateConfig.
Context `{Externals}.

Lemma append_error_prefix (e : list string) msg : e `prefix_of` (e ++ [msg])%list.
Proof. by apply prefix_app_r. Qed.

Lemma validate_version_mono model_type_str model_name version version_def
    (e e' : list string) :
  ConfigLoader.validate_version model_type_str model_name version version_def e
  = (inr tt, e') →
  e `prefix_of` e'.
Proof.
  unfold ConfigLoader.validate_version, ConfigLoader.append_error. run.
  destruct (contains (VStr "model_source") version_def) as [?|[]];
    destruct (contains (VStr "memory_requirement_mb") version_def) as [?|[]];
    simpl; intros [= <-]; try done;
    repeat (etrans; [|apply append_error_prefix]); done.
Qed.

Lemma validate_version_run model_type_str model_name version version_def
    (e : list string) :
  is_dict version_def = true →
  ∃ e', ConfigLoader.validate_version model_type_str model_name version
          version_def e = (inr tt, e').
Proof.
  destruct version_def; try discriminate. intros _.
  unfold ConfigLoader.validate_version, ConfigLoader.append_error. run.
  repeat (destruct (dict_mem _ _); simpl); eauto.
Qed.

Lemma validate_versions_mono model_type_str model_name versions
    (e e' : list string) :
  for_each versions
    (λ '(version, version_def),
       ConfigLoader.validate_version model_type_str model_name version
         version_def) e = (inr tt, e') →
  e `prefix_of` e'.
Proof.
  intros Hrun. eapply (for_each_visit prefix); [|exact Hrun].
  intros [version version_def] s s' _. apply validate_version_mono.
Qed.

Lemma validate_model_mono model_type_str model_name model_def
    (e e' : list string) :
  ConfigLoader.validate_model model_type_str model_name model_def e
  = (inr tt, e') →
  e `prefix_of` e'.
Proof.
  unfold ConfigLoader.validate_model, ConfigLoader.append_error. run.
  destruct (contains (VStr "versions") model_def) as [?|[]]; simpl;
    [discriminate | | by intros [= <-]; apply append_error_prefix].
  destruct (contains (VStr "default_version") model_def) as [?|has_default];
    simpl; [discriminate|].
  destruct has_default; simpl;
    (destruct (get_default model_def "default_version" VNone) as [?|dv];
     [discriminate|]);
    (destruct (truthy dv); simpl;
     (destruct (getitem model_def "versions") as [?|versions];
      [discriminate|]);
     [destruct (contains dv versions) as [?|[]]; simpl; [discriminate|..]|]);
    (destruct (items versions) as [?|vs]; [discriminate|]);
    intros Hrun%validate_versions_mono;
    (etrans; [|exact Hrun]);
    repeat (etrans; [|apply append_error_prefix]); done.
Qed.

(** A model definition of the declared shape is checked without an
    exception. *)
Lemma validate_model_run model_type_str model_name model_def
    (e : list string) :
  model_def_shape model_def = true →
  ∃ e', ConfigLoader.validate_model model_type_str model_name model_def e
        = (inr tt, e').
Proof.
  destruct model_def as [| | | | | |md]; try discriminate. simpl.
  unfold ConfigLoader.validate_model, ConfigLoader.append_error. run.
  unfold dict_mem.
  destruct (dict_lookup "versions" md) as [versions|]; simpl; [|eauto].
  destruct versions as [| | | | | |vs]; try discriminate.
  intros [Hvs Hdv]%andb_prop. simpl.
  assert (Hloop : ∀ e0 : list string, ∃ e',
            for_each vs
              (λ '(version, version_def),
                 ConfigLoader.validate_version model_type_str model_name
                   version version_def) e0 = (inr tt, e')).
  { intros e0.
    destruct (for_each_invariant (λ _, True) vs
                (λ '(version, version_def),
                   ConfigLoader.validate_version model_type_str model_name
                     version version_def)) with (s := e0)
      as (e' & Hrun & _); [|done|eauto].
    intros [version version_def] s Hin _.
    rewrite forallb_forall in Hvs.
    destruct (validate_version_run model_type_str model_name version
                version_def s) as (s' & Hs').
    { apply (Hvs (version, version_def)). by apply list_elem_of_In. }
    eauto. }
  destruct (dict_lookup "default_version" md) as [dv|]; simpl;
    [destruct dv as [| | | |dv| |]; try discriminate; simpl|];
    try apply Hloop.
  destruct (negb (dv =? "")%string); simpl; [|apply Hloop].
  destruct (dict_mem dv vs); simpl; apply Hloop.
Qed.

(** A default version that is a non-empty string and no key of [versions]
    is reported by name. *)
Lemma validate_model_mismatch model_type_str model_name md vs dv
    (e e' : list string) :
  dict_lookup "versions" md = Some (VDict vs) →
  dict_lookup "default_version" md = Some (VStr dv) →
  dv ≠ "" →
  dict_lookup dv vs = None →
  ConfigLoader.validate_model model_type_str model_name (VDict md) e
  = (inr tt, e') →
  ("Default version '" +:+ dv +:+ "' not found in versions for "
     +:+ model_type_str +:+ "/" +:+ model_name) ∈ e'.
Proof.
  intros Hvs Hdv Hne Hmiss.
  unfold ConfigLoader.validate_model, ConfigLoader.append_error. run.
  unfold dict_mem. rewrite Hvs, Hdv. simpl.
  destruct (String.eqb_spec dv "") as [|_]; [done|]. simpl.
  unfold dict_mem. rewrite Hmiss. simpl.
  intros [suffix ->]%validate_versions_mono.
  apply elem_of_app. left. apply elem_of_app. right. by left.
Qed.


(** The turn of the outer loop of [validate_config] for one model type. *)
Lemma validate_models_mono model_type_str models (e e' : list string) :
  for_each models
    (λ '(model_name, model_def),
       ConfigLoader.validate_model model_type_str model_name model_def) e
  = (inr tt, e') →
  e `prefix_of` e'.
Proof.
  intros Hrun. eapply (for_each_visit prefix); [|exact Hrun].
  intros [model_name model_def] s s' _. apply validate_model_mono.
Qed.

Arguments dict_lookup : simpl never.

Lemma validate_config_body_run config_data :
  declared_shape config_data = true →
  ∃ errors, ConfigLoader.validate_config_body config_data [] = (inr tt, errors).
Proof.
  destruct config_data as [| | | | | |d]; try discriminate. simpl.
  unfold ConfigLoader.validate_config_body, ConfigLoader.append_error. run.
  destruct d as [|kv d']; simpl; [eauto|]. set (d := kv :: d').
  unfold dict_mem.
  destruct (dict_lookup "model_definitions" d) as [defs|]; simpl; [|eauto].
  destruct defs as [| | | | | |defs]; try discriminate. simpl.
  intros Hdefs. rewrite forallb_forall in Hdefs.
  destruct (for_each_invariant (λ _ : list string, True) defs
              (λ '(model_type_str, models),
                 match ModelType_of_value model_type_str with
                 | inl _ =>
                     ConfigLoader.append_error
                       ("Invalid model type: " +:+ model_type_str)
                 | inr _ =>
                     models ← lift (items models);
                     for_each models
                       (λ '(model_name, model_def),
                          ConfigLoader.validate_model model_type_str
                            model_name model_def)
                 end)) with (s := @nil string) as (errors & Hrun & _);
    [|done|eauto].
  intros [model_type_str models] s Hin _.
  specialize (Hdefs (model_type_str, models)). unfold models_shape in Hdefs.
  simpl in Hdefs.
  destruct (ModelType_of_value model_type_str) as [?|T].
  { unfold ConfigLoader.append_error. run. eauto. }
  destruct models as [| | | | | |ms];
    try (by discriminate Hdefs; apply list_elem_of_In).
  run.
  assert (Hms : forallb (λ kv, model_def_shape kv.2) ms = true).
  { apply Hdefs. by apply list_elem_of_In. }
  rewrite forallb_forall in Hms.
  destruct (for_each_invariant (λ _ : list string, True) ms
              (λ '(model_name, model_def),
                 ConfigLoader.validate_model model_type_str model_name
                   model_def)) with (s := s) as (s' & Hrun & _);
    [|done|eauto].
  intros [model_name model_def] s0 Hin0 _.
  destruct (validate_model_run model_type_str model_name model_def s0)
    as (s1 & Hs1); [|eauto].
  apply (Hms (model_name, model_def)). by apply list_elem_of_In.
Qed.

Lemma validate_config_body_mismatch d defs model_type_str T ms model_name md
    vs dv errors :
  dict_lookup "model_definitions" d = Some (VDict defs) →
  (model_type_str, VDict ms) ∈ defs →
  ModelType_of_value model_type_str = inr T →
  (model_name, VDict md) ∈ ms →
  dict_lookup "versions" md = Some (VDict vs) →
  dict_lookup "default_version" md = Some (VStr dv) →
  dv ≠ "" →
  dict_lookup dv vs = None →
  ConfigLoader.validate_config_body (VDict d) [] = (inr tt, errors) →
  ("Default version '" +:+ dv +:+ "' not found in versions for "
     +:+ model_type_str +:+ "/" +:+ model_name) ∈ errors.
Proof.
  intros Hdefs Htype HT Hmodel Hvs Hdv Hne Hmiss.
  unfold ConfigLoader.validate_config_body, ConfigLoader.append_error. run.
  destruct d as [|kv d']; [discriminate|]. set (d := kv :: d') in *.
  unfold dict_mem. rewrite Hdefs. simpl. intros Hrun.
  apply (for_each_visit prefix) in Hrun as [_ Hvisit].
  2: { intros [t models] s s' _. destruct (ModelType_of_value t).
       - unfold ConfigLoader.append_error. run. intros [= <-].
         apply append_error_prefix.
       - run. destruct (items models); [discriminate|].
         apply validate_models_mono. }
  destruct (Hvisit _ Htype) as (e1 & e2 & _ & Hturn & [suffix ->]).
  rewrite HT in Hturn. run.
  apply (for_each_visit prefix) in Hturn as [_ Hvisit'].
  2: { intros [n model_def] s s' _. apply validate_model_mono. }
  destruct (Hvisit' _ Hmodel) as (e3 & e4 & _ & Hturn' & [suffix' ->]).
  apply elem_of_app. left. apply elem_of_app. left.
  by eapply validate_model_mismatch.
Qed.

Lemma is_prefix_append p after : is_prefix p (p +:+ after) = true.
Proof.
  induction p as [|c p IH]; simpl; [reflexivity|].
  by rewrite Ascii.eqb_refl, IH.
Qed.

Lemma is_substring_of_prefix p s : is_prefix p s = true → is_substring p s = true.
Proof. destruct s; simpl; by intros ->. Qed.

Lemma occurs_in_is_substring p s : occurs_in p s → is_substring p s = true.
Proof.
  intros (before & after & ->).
  induction before as [|c before IH]; simpl.
  - apply is_substring_of_prefix, (is_prefix_append p after).
  - rewrite IH. apply orb_true_r.
Qed.

(** C8, amended.  On a configuration document of the declared shape
    [validate_config] returns a list of error strings and does not raise; for
    a document (a dictionary) without [model_definitions] the list is not
    empty; and whenever it returns, for every model under a recognised model
    type whose [versions] is a dictionary and whose [default_version] is a
    non-empty string that is no key of [versions], one of the errors contains
    that version string. *)
Theorem validate_config_findings :
  (∀ config_data, declared_shape config_data = true →
     ∃ errors, ConfigLoader.validate_config config_data = inr errors) ∧
  (∀ d, dict_lookup "model_definitions" d = None →
     ∃ errors, ConfigLoader.validate_config (VDict d) = inr errors
               ∧ errors ≠ []) ∧
  (∀ d defs model_type_str T ms model_name md vs dv errors,
     dict_lookup "model_definitions" d = Some (VDict defs) →
     (model_type_str, VDict ms) ∈ defs →
     ModelType_of_value model_type_str = inr T →
     (model_name, VDict md) ∈ ms →
     dict_lookup "versions" md = Some (VDict vs) →
     dict_lookup "default_version" md = Some (VStr dv) →
     dv ≠ "" →
     dict_lookup dv vs = None →
     ConfigLoader.validate_config (VDict d) = inr errors →
     ∃ e, e ∈ errors ∧ occurs_in dv e).
Proof.
  split; [|split].
  - intros config_data Hshape. unfold ConfigLoader.validate_config.
    destruct (validate_config_body_run config_data Hshape) as (errors & ->).
    eauto.
  - intros d Hnone.
    unfold ConfigLoader.validate_config, ConfigLoader.validate_config_body,
      ConfigLoader.append_error.
    run. destruct d as [|kv d']; simpl; [by eexists|].
    unfold dict_mem. rewrite Hnone. simpl. by eexists.
  - intros d defs model_type_str T ms model_name md vs dv errors
      Hdefs Htype HT Hmodel Hvs Hdv Hne Hmiss.
    unfold ConfigLoader.validate_config.
    destruct (ConfigLoader.validate_config_body (VDict d) [])
      as [[e|[]] errors'] eqn:Hrun; [discriminate|].
    intros [= <-]. eexists. split.
    + eapply validate_config_body_mismatch; eauto.
    + by exists "Default version '",
        ("' not found in versions for " +:+ model_type_str +:+ "/"
           +:+ model_name).
Qed.

End ValidateConfig.

Section ValidateConfigExamples.
#[local] Existing Instance Examples.libraries.

(** The case of the test suite: the default version v2 is reported. *)
Example validate_config_mismatch :
  ConfigLoader.validate_config Examples.mismatch_config
  = inr ["Default version 'v2' not found in versions for task_parser/test_model"]
  ∧ declared_shape Examples.mismatch_config = true.
Proof. split; by vm_compute. Qed.

Lemma validate_config_findings_witness :
  ∃ e,
    e ∈ ["Default version 'v2' not found in versions for task_parser/test_model"]
    ∧ occurs_in "v2" e.
Proof.
  pose (vs := [("v1", VDict [("model_source", VStr "test");
                             ("memory_requirement_mb", VInt 128)])]).
  pose (md := [("versions", VDict vs); ("default_version", VStr "v2")]).
  pose (ms := [("test_model", VDict md)]).
  pose (defs := [("task_parser", VDict ms)]).
  apply (proj2 (proj2 validate_config_findings)
           [("model_definitions", VDict defs)]
           defs "task_parser" TASK_PARSER ms "test_model" md vs "v2").
  - reflexivity.
  - by left.
  - reflexivity.
  - by left.
  - reflexivity.
  - reflexivity.
  - discriminate.
  - reflexivity.
  - by vm_compute.
Defined.

(** C8 as stated fails in three ways.  Under a model type that is not
    recognised the models are skipped, the only error names the type and does
    not contain the default version v2 that is missing from the versions; a
    default version that is the empty string is not reported at all; and a
    model definition that is a number makes [validate_config] raise. *)
Lemma validate_config_counterexample :
  ConfigLoader.validate_config Examples.unknown_type_config
  = inr ["Invalid model type: speech"] ∧
  ¬ occurs_in "v2" "Invalid model type: speech" ∧
  ConfigLoader.validate_config Examples.empty_default_config = inr [] ∧
  ConfigLoader.validate_config Examples.number_config
  = inl (Exn TypeError "argument is not iterable").
Proof.
  split; [by vm_compute|]. split; [|split; by vm_compute].
  intros Hin%occurs_in_is_substring. by vm_compute in Hin.
Qed.

End ValidateConfigExamples.

(** ** config_loader.py: initialize_models_from_config *)

Section Footprints.

Lemma ModelType_value_inj : Inj (=) (=) ModelType_value.
Proof. intros [] []; simpl; intros Heq; by try discriminate. Qed.

Lemma get_registry_file_inj self T T' :
  VersionManager.get_registry_file self T
  = VersionManager.get_registry_file self T' →
  T = T'.
Proof.
  unfold VersionManager.get_registry_file. intros Heq.
  apply (inj _), (inj (String.append "/")) in Heq.
  destruct T, T'; simpl in Heq; by try discriminate.
Qed.

(** The registry index of a type after the registry file of a type was
    rewritten. *)
Lemma registry_insert self self' T r T' :
  VersionManager.models_base_path self' = VersionManager.models_base_path self →
  registry_files (VersionManager.disk self')
  = <[VersionManager.get_registry_file self T := r]>
      (registry_files (VersionManager.disk self)) →
  registry self' T' = if decide (T' = T) then r else registry self T'.
Proof.
  intros Hbase Hfiles. unfold registry, VersionManager.get_registry_file.
  rewrite Hfiles, Hbase. fold (VersionManager.get_registry_file self T').
  fold (VersionManager.get_registry_file self T).
  destruct (decide (T' = T)) as [->|Hne].
  - by rewrite lookup_insert_eq.
  - rewrite lookup_insert_ne; [done|].
    intros Heq%get_registry_file_inj. congruence.
Qed.

Lemma registry_same self self' T :
  VersionManager.models_base_path self' = VersionManager.models_base_path self →
  registry_files (VersionManager.disk self')
  = registry_files (VersionManager.disk self) →
  registry self' T = registry self T.
Proof.
  intros Hbase Hfiles. unfold registry, VersionManager.get_registry_file.
  by rewrite Hfiles, Hbase.
Qed.

End Footprints.

Section Reconcile.
Context `{Externals}.

Lemma register_model_effect metadata self :
  let key := VersionManager.model_key (name metadata) (version metadata) in
  let mp := VersionManager.metadata_file self (model_type metadata)
              (name metadata) (version metadata) in
  let rp := VersionManager.get_registry_file self (model_type metadata) in
  ∃ ok self',
    VersionManager.register_model metadata self = (inr ok, self') ∧
    VersionManager.models_base_path self'
    = VersionManager.models_base_path self ∧
    unwritable (VersionManager.disk self')
    = unwritable (VersionManager.disk self) ∧
    files (VersionManager.disk self') = files (VersionManager.disk self) ∧
    (∀ k, k ≠ key →
          VersionManager._metadata_cache self' !! k
          = VersionManager._metadata_cache self !! k) ∧
    (∀ p, p ≠ mp →
          metadata_files (VersionManager.disk self') !! p
          = metadata_files (VersionManager.disk self) !! p) ∧
    (∀ T k, T ≠ model_type metadata ∨ k ≠ key →
            registry self' T !! k = registry self T !! k) ∧
    (ok = true →
     VersionManager._metadata_cache self' !! key = Some metadata ∧
     metadata_files (VersionManager.disk self') !! mp = Some (Some metadata) ∧
     registry self' (model_type metadata) !! key
     = Some (VersionManager.registry_entry metadata)) ∧
    (mp ∉ unwritable (VersionManager.disk self) →
     rp ∉ unwritable (VersionManager.disk self) → ok = true).
Proof.
  intros key mp rp.
  unfold VersionManager.register_model, VersionManager._load_registry,
    write_metadata_file, write_registry_file, open_w.
  run. fold mp. fold rp. fold key.
  case_bool_decide as Hmp; simpl.
  { do 2 eexists. split; [reflexivity|]. simpl.
    repeat split; try done. }
  case_bool_decide as Hrp; simpl.
  { do 2 eexists. split; [reflexivity|]. simpl.
    split; [done|]. split; [done|]. split; [done|]. split; [done|].
    split. { intros p Hp. by rewrite lookup_insert_ne. }
    split. { intros T k _. by apply (f_equal (.!! k)), registry_same. }
    split; [done|]. done. }
  do 2 eexists. split; [reflexivity|]. simpl.
  split; [done|]. split; [done|]. split; [done|].
  split. { intros k Hk. by rewrite lookup_insert_ne. }
  split. { intros p Hp. by rewrite lookup_insert_ne. }
  match goal with
  | |- context [<[rp := ?r]> _] => set (r' := r)
  end.
  assert (Hreg : ∀ T,
    registry
      (VersionManager.set_cache
         (<[key := metadata]> (VersionManager._metadata_cache self))
         (VersionManager.set_disk
            {| files := files (VersionManager.disk self);
               metadata_files :=
                 <[mp := Some metadata]>
                   (metadata_files (VersionManager.disk self));
               registry_files :=
                 <[rp := r']> (registry_files (VersionManager.disk self));
               unwritable := unwritable (VersionManager.disk self);
               clock := clock (VersionManager.disk self) |}
            (VersionManager.set_disk
               {| files := files (VersionManager.disk self);
                  metadata_files :=
                    <[mp := Some metadata]>
                      (metadata_files (VersionManager.disk self));
                  registry_files := registry_files (VersionManager.disk self);
                  unwritable := unwritable (VersionManager.disk self);
                  clock := clock (VersionManager.disk self) |} self))) T
    = if decide (T = model_type metadata) then r' else registry self T).
  { intros T. by apply registry_insert. }
  split.
  { intros T k Hne. rewrite Hreg. destruct (decide (T = model_type metadata))
      as [->|]; [|done].
    destruct Hne as [|Hk]; [done|]. subst r'. rewrite lookup_insert_ne; done. }
  split; [|done].
  intros _. split; [by rewrite lookup_insert_eq|].
  split; [by rewrite lookup_insert_eq|].
  rewrite Hreg, decide_True by done. subst r'. by rewrite lookup_insert_eq.
Qed.

Lemma py_eq_str x s : py_eq x (VStr s) = true → x = VStr s.
Proof.
  destruct x; simpl; try discriminate. by intros ->%String.eqb_eq.
Qed.

Lemma is_mock_source version_def :
  is_mock version_def = true →
  ∃ vd, version_def = VDict vd ∧
        dict_lookup "model_source" vd = Some (VStr "mock").
Proof.
  destruct version_def as [| | | | | |vd]; try discriminate. simpl.
  intros Heq%py_eq_str. exists vd. split; [done|].
  by destruct (dict_lookup "model_source" vd); simplify_eq/=.
Qed.

Arguments VersionManager.register_model : simpl never.

(** [create_model_metadata] for a readable file: only the clock moves; the
    record, when one is returned, describes the file; one is returned when
    the arguments are convertible. *)
Lemma create_model_metadata_run n v T path src mem descr mid cfg (o : os) f :
  files o !! path = Some f →
  readable f = true →
  ∃ r o',
    create_model_metadata n v T path src mem descr mid cfg o = (r, o') ∧
    files o' = files o ∧ metadata_files o' = metadata_files o ∧
    registry_files o' = registry_files o ∧ unwritable o' = unwritable o ∧
    (∀ metadata, r = inr metadata →
       name metadata = n ∧ version metadata = v ∧ model_type metadata = T ∧
       file_path metadata = path ∧ status metadata = AVAILABLE ∧
       coerce_str src = Some (model_source metadata) ∧
       file_size_bytes metadata = getsize f ∧
       file_hash metadata = sha256_hexdigest (content f)) ∧
    (is_Some (coerce_str src) → is_Some (coerce_int mem) →
     is_Some (coerce_opt_str descr) → is_Some (coerce_opt_str mid) →
     is_Some (coerce_dict (if truthy cfg then cfg else VDict [])) →
     is_ok r = true).
Proof.
  intros Hfile Hread.
  unfold create_model_metadata, calculate_file_hash, now, ModelMetadata_init,
    validate_file_hash.
  run. rewrite Hfile. simpl. rewrite ?Hfile. simpl. rewrite Hread. simpl.
  set (o' := match clock o with
             | [] => o
             | _ :: rest =>
                 {| files := files o; metadata_files := metadata_files o;
                    registry_files := registry_files o;
                    unwritable := unwritable o; clock := rest |}
             end).
  assert (Hframe : files o' = files o ∧ metadata_files o' = metadata_files o ∧
                   registry_files o' = registry_files o ∧
                   unwritable o' = unwritable o).
  { subst o'. by destruct (clock o). }
  destruct Hframe as (Hf & Hm & Hr & Hu).
  destruct (coerce_str src) as [src'|] eqn:Hsrc;
    destruct (coerce_int mem) as [mem'|] eqn:Hmem;
    destruct (coerce_opt_str descr) as [descr'|] eqn:Hdescr;
    destruct (coerce_opt_str mid) as [mid'|] eqn:Hmid;
    destruct (coerce_dict (if truthy cfg then cfg else VDict []))
      as [cfg'|] eqn:Hcfg;
    destruct (clock o) as [|t rest] eqn:Hclock; simpl;
    rewrite ?sha256_hexdigest_length; simpl;
    (do 2 eexists; split; [reflexivity|]);
    (split; [exact Hf|]); (split; [exact Hm|]); (split; [exact Hr|]);
    (split; [exact Hu|]);
    (split; [intros metadata [= <-]; by simpl
            |intros [? ?] [? ?] [? ?] [? ?] [? ?]; by simplify_eq/=]).
Qed.

Arguments create_model_metadata : simpl never.

(** [_create_mock_model] for a definition whose source is mock. *)
Lemma create_mock_model_run d self :
  is_mock (d_def d) = true →
  ∃ ok self',
    ConfigLoader._create_mock_model (d_type d) (d_name d) (d_version d)
      (d_def d) self = (inr ok, self') ∧
    changes_only self self' d ∧
    (mock_path self d ∉ unwritable (VersionManager.disk self) →
     files (VersionManager.disk self') !! mock_path self d
     = Some (mock_file d)) ∧
    (ok = true →
     ∃ metadata,
       VersionManager._metadata_cache self' !! cache_key d = Some metadata ∧
       metadata_files (VersionManager.disk self') !! metadata_path self d
       = Some (Some metadata) ∧
       registry self' (d_type d) !! cache_key d
       = Some (VersionManager.registry_entry metadata) ∧
       files (VersionManager.disk self') !! mock_path self d
       = Some (mock_file d) ∧
       name metadata = d_name d ∧ version metadata = d_version d ∧
       model_type metadata = d_type d ∧
       file_path metadata = mock_path self d ∧
       model_source metadata = "mock" ∧ status metadata = AVAILABLE ∧
       file_size_bytes metadata = getsize (mock_file d) ∧
       file_hash metadata = sha256_hexdigest (content (mock_file d))) ∧
    (mock_path self d ∉ unwritable (VersionManager.disk self) →
     metadata_path self d ∉ unwritable (VersionManager.disk self) →
     VersionManager.get_registry_file self (d_type d)
       ∉ unwritable (VersionManager.disk self) →
     fields_convertible d → ok = true).
Proof.
  intros (vd & Hdef & Hsource)%is_mock_source.
  destruct d as [t T n v version_def]. simpl in Hdef. subst version_def.
  unfold changes_only, mock_path, metadata_path, directory, cache_key,
    fields_convertible, mock_file. simpl.
  unfold ConfigLoader._create_mock_model, write_file, open_w.
  run. rewrite Hsource. simpl.
  set (fp := VersionManager.get_model_directory self T n v +:+ "/model.json").
  set (mp := VersionManager.get_model_directory self T n v +:+ "/metadata.json").
  set (bytes := json_dump (ConfigLoader.mock_data T n v)).
  case_bool_decide as Hfp; simpl.
  { do 2 eexists. split; [reflexivity|]. simpl. repeat split; done. }
  match goal with
  | |- context [create_model_metadata _ _ _ _ _ ?mem ?descr _ ?cfg ?o] =>
      set (o1 := o);
      destruct (create_model_metadata_run n v T fp (VStr "mock") mem descr
                  VNone cfg o1 {| content := bytes; readable := true |})
        as (r & o2 & Hc & Hf2 & Hm2 & Hr2 & Hu2 & Hfields & Hok);
      [subst o1; simpl; apply lookup_insert_eq | reflexivity |]
  end.
  rewrite Hc. simpl.
  set (self2 := VersionManager.set_disk o2 (VersionManager.set_disk o1 self)).
  assert (Hfiles2 : files (VersionManager.disk self2)
                    = <[fp := {| content := bytes; readable := true |}]>
                        (files (VersionManager.disk self))) by exact Hf2.
  assert (Hmeta2 : metadata_files (VersionManager.disk self2)
                   = metadata_files (VersionManager.disk self)) by exact Hm2.
  assert (Hunw2 : unwritable (VersionManager.disk self2)
                  = unwritable (VersionManager.disk self)) by exact Hu2.
  assert (Hreg2 : ∀ T', registry self2 T' = registry self T').
  { intros T'. by apply registry_same. }
  assert (Hstr : is_Some (coerce_str (VStr "mock")))
    by (rewrite coerce_str_str; eauto).
  assert (Hnone : is_Some (coerce_opt_str VNone)) by (simpl; eauto).
  destruct r as [e|metadata]; simpl.
  { exists false, self2. split; [reflexivity|].
    split.
    { split; [done|]. split; [exact Hu2|]. split; [done|].
      split; [intros p _; by rewrite Hmeta2|].
      split; [intros p Hp; by rewrite Hfiles2, lookup_insert_ne|].
      intros T' k _. by rewrite Hreg2. }
    split; [intros _; by rewrite Hfiles2, lookup_insert_eq|].
    split; [done|].
    intros _ _ _ (Hmem & Hdescr & Hcfg).
    by specialize (Hok Hstr Hmem Hdescr Hnone Hcfg). }
  destruct (Hfields metadata eq_refl)
    as (Hn & Hv & HT & Hpath & Hstatus & Hsrc & Hsize & Hhash).
  rewrite coerce_str_str in Hsrc. injection Hsrc as Hsrc.
  destruct (register_model_effect metadata self2)
    as (ok & self' & Hrun & Hbase & Hunw & Hfiles & Hcache & Hmeta & Hregf
        & Hsucc & Hpos).
  rewrite Hn, Hv, HT in *. change
    (VersionManager.metadata_file self2 T n v) with mp in *.
  change (VersionManager.get_registry_file self2 T)
    with (VersionManager.get_registry_file self T) in *.
  rewrite Hrun. exists ok, self'. split; [reflexivity|].
  split.
  { split; [done|]. split; [by rewrite Hunw|]. split; [exact Hcache|].
    split; [intros p Hp; by rewrite (Hmeta p Hp), Hmeta2|].
    split; [intros p Hp; by rewrite Hfiles, Hfiles2, lookup_insert_ne|].
    intros T' k Hne. by rewrite (Hregf T' k Hne), Hreg2. }
  split; [intros _; by rewrite Hfiles, Hfiles2, lookup_insert_eq|].
  split.
  { intros Hok'. destruct (Hsucc Hok') as (Hc1 & Hc2 & Hc3).
    exists metadata. rewrite Hfiles, Hfiles2, lookup_insert_eq.
    repeat split; done. }
  intros _ Hmp Hrp _. apply Hpos; by rewrite Hunw2.
Qed.

Arguments ConfigLoader._create_mock_model : simpl never.

(** One turn of the innermost loop never raises.  A version that resolves
    gets the result true and only the cache may change; one that does not
    resolve and is no mock gets false and nothing changes; for a mock that
    does not resolve the result is what [_create_mock_model] returns. *)
Lemma turn_run d s :
  let self := ConfigLoader.manager s in
  ∃ s', turn d s = (inr tt, s') ∧
    match resolve self (d_type d) (d_name d) (d_version d) with
    | Some _ =>
        ConfigLoader.results s'
        = <[result_key d := true]> (ConfigLoader.results s) ∧
        ConfigLoader.manager s'
        = after_resolve self (d_type d) (d_name d) (d_version d)
    | None =>
        if is_mock (d_def d) then
          ∃ ok,
            ConfigLoader.results s'
            = <[result_key d := ok]> (ConfigLoader.results s) ∧
            ConfigLoader._create_mock_model (d_type d) (d_name d)
              (d_version d) (d_def d) self
            = (inr ok, ConfigLoader.manager s')
        else
          ConfigLoader.results s'
          = <[result_key d := false]> (ConfigLoader.results s) ∧
          ConfigLoader.manager s' = self
    end.
Proof.
  intros self. unfold turn, ConfigLoader.initialize_version,
    ConfigLoader.set_result, result_key.
  run. rewrite get_model_metadata_run. fold self.
  destruct (resolve self (d_type d) (d_name d) (d_version d))
    as [metadata|] eqn:Hres; simpl.
  { eexists. split; [reflexivity|]. done. }
  rewrite (after_resolve_None _ _ _ _ Hres).
  destruct (is_mock (d_def d)) eqn:Hmock.
  - destruct (create_mock_model_run d self Hmock)
      as (ok & self' & Hrun & _).
    destruct (is_mock_source _ Hmock) as (vd & Hdef & Hsource).
    rewrite Hdef in *. simpl. rewrite Hsource. simpl.
    rewrite Hrun. simpl. eexists. split; [reflexivity|]. simpl.
    exists ok. done.
  - destruct (d_def d) as [| | | | | |vd]; simpl;
      try (eexists; split; [reflexivity|]; split; [done | by destruct s]).
    simpl in Hmock. rewrite Hmock.
    eexists; split; [reflexivity|]; split; [done | by destruct s].
Qed.

(** On a document of the declared shape the three nested loops are one
    loop over the declared versions. *)
Lemma loop_flatten config_data s :
  declared_shape config_data = true →
  ConfigLoader.initialize_models_from_config_loop config_data s
  = for_each (declared_versions config_data) turn s.
Proof.
  destruct config_data as [| | | | | |d]; try discriminate.
  unfold declared_shape, declared_versions,
    ConfigLoader.initialize_models_from_config_loop.
  run.
  destruct (dict_lookup "model_definitions" d) as [defs|]; simpl; [|done].
  destruct defs as [| | | | | |defs]; try discriminate. simpl.
  intros Hdefs. rewrite forallb_forall in Hdefs.
  rewrite for_each_bind. apply for_each_ext.
  intros [t models] s1 Hin. unfold declared_of_type. simpl.
  specialize (Hdefs (t, models)). unfold models_shape in Hdefs.
  simpl in Hdefs.
  destruct (ModelType_of_value t) as [?|T]; [done|].
  destruct models as [| | | | | |ms];
    try (by discriminate Hdefs; apply list_elem_of_In).
  assert (Hms : forallb (λ kv, model_def_shape kv.2) ms = true).
  { apply Hdefs. by apply list_elem_of_In. }
  rewrite forallb_forall in Hms. run.
  rewrite for_each_bind. apply for_each_ext.
  intros [n model_def] s2 Hin2. unfold declared_of_model. simpl.
  specialize (Hms (n, model_def)). simpl in Hms.
  destruct model_def as [| | | | | |md];
    try (by discriminate Hms; apply list_elem_of_In).
  simpl in Hms. run.
  destruct (dict_lookup "versions" md) as [versions|]; simpl; [|done].
  destruct versions as [| | | | | |vs];
    try (by discriminate Hms; apply list_elem_of_In).
  simpl. rewrite for_each_fmap. apply for_each_ext.
  by intros [v vd] s3 _.
Qed.

Lemma ModelType_of_value_inr t T :
  ModelType_of_value t = inr T → t = ModelType_value T.
Proof.
  unfold ModelType_of_value.
  destruct (String.eqb_spec t "task_parser") as [->|_]; [by intros [= <-]|].
  destruct (String.eqb_spec t "prioritizer") as [->|_]; [by intros [= <-]|].
  destruct (String.eqb_spec t "insights") as [->|_]; [by intros [= <-]|].
  discriminate.
Qed.

(** A declared version stands under a recognised model type. *)
Lemma declared_versions_type config_data d :
  d ∈ declared_versions config_data →
  d_type_str d = ModelType_value (d_type d).
Proof.
  unfold declared_versions.
  destruct config_data as [| | | | | |cd]; try by inversion 1.
  destruct (dict_lookup "model_definitions" cd) as [[| | | | | |defs]|];
    try by inversion 1.
  intros ([t models] & Hd & _)%list_elem_of_bind.
  unfold declared_of_type in Hd. simpl in Hd.
  destruct (ModelType_of_value t) as [?|T] eqn:HT; [by inversion Hd|].
  destruct models as [| | | | | |ms]; try by inversion Hd.
  apply list_elem_of_bind in Hd as ([n model_def] & Hd & _).
  unfold declared_of_model in Hd. simpl in Hd.
  destruct model_def as [| | | | | |md]; try by inversion Hd.
  destruct (dict_lookup "versions" md) as [[| | | | | |vs]|];
    try by inversion Hd.
  apply list_elem_of_fmap in Hd as ([v vd] & -> & _). simpl.
  by apply ModelType_of_value_inr.
Qed.

Lemma string_length_app (a b : string) :
  String.length (a +:+ b) = (String.length a + String.length b)%nat.
Proof. induction a as [|c a IH]; simpl; [done | by rewrite IH]. Qed.

Lemma string_app_inj_r (a b suffix : string) :
  a +:+ suffix = b +:+ suffix → a = b.
Proof.
  revert b. induction a as [|c a IH]; intros [|c' b] Heq; simpl in Heq.
  - done.
  - apply (f_equal String.length) in Heq.
    rewrite !string_length_app in Heq. simpl in Heq. lia.
  - apply (f_equal String.length) in Heq.
    rewrite !string_length_app in Heq. simpl in Heq. lia.
  - injection Heq as -> Heq. by rewrite (IH b Heq).
Qed.

(** Versions of recognised types with one result key have one cache key. *)
Lemma result_key_cache_key d d' :
  d_type_str d = ModelType_value (d_type d) →
  d_type_str d' = ModelType_value (d_type d') →
  result_key d = result_key d' → cache_key d = cache_key d'.
Proof.
  unfold result_key, cache_key, VersionManager.model_key.
  intros -> ->.
  destruct (d_type d), (d_type d'); simpl; intros Heq;
    try discriminate; by simplify_eq.
Qed.

Lemma changes_only_refl self d : changes_only self self d.
Proof. by repeat split. Qed.

Lemma changes_only_after_resolve self d :
  changes_only self
    (after_resolve self (d_type d) (d_name d) (d_version d)) d.
Proof.
  destruct (resolve self (d_type d) (d_name d) (d_version d))
    as [metadata|] eqn:Hres.
  - rewrite (after_resolve_Some _ _ _ _ _ Hres).
    unfold changes_only, cache_key. simpl.
    repeat split; try done. intros k Hk. by rewrite lookup_insert_ne.
  - rewrite (after_resolve_None _ _ _ _ Hres). apply changes_only_refl.
Qed.

(** A turn changes only what belongs to its version. *)
Lemma turn_changes_only d s s' :
  turn d s = (inr tt, s') →
  changes_only (ConfigLoader.manager s) (ConfigLoader.manager s') d ∧
  ∀ k, k ≠ result_key d →
       ConfigLoader.results s' !! k = ConfigLoader.results s !! k.
Proof.
  intros Hturn. destruct (turn_run d s) as (s1 & Hrun & Heffect).
  rewrite Hturn in Hrun. injection Hrun as <-.
  destruct (resolve (ConfigLoader.manager s) (d_type d) (d_name d)
              (d_version d)) as [metadata|].
  { destruct Heffect as [-> ->]. split; [apply changes_only_after_resolve|].
    intros k Hk. by rewrite lookup_insert_ne. }
  destruct (is_mock (d_def d)) eqn:Hmock.
  - destruct Heffect as (ok & -> & Hcreate).
    destruct (create_mock_model_run d (ConfigLoader.manager s) Hmock)
      as (ok' & self' & Hrun & Hchanges & _).
    rewrite Hcreate in Hrun. injection Hrun as <- <-.
    split; [done|]. intros k Hk. by rewrite lookup_insert_ne.
  - destruct Heffect as [-> ->]. split; [apply changes_only_refl|].
    intros k Hk. by rewrite lookup_insert_ne.
Qed.

(** What is held for a version separate from the one whose turn it is does
    not change. *)
Lemma turn_held_other d d' s s' :
  turn d s = (inr tt, s') →
  result_key d' ≠ result_key d →
  cache_key d' ≠ cache_key d →
  directory (ConfigLoader.manager s) d' ≠ directory (ConfigLoader.manager s) d →
  held s' d' = held s d'.
Proof.
  intros (Hchanges & Hresults)%turn_changes_only Hrk Hck Hdir.
  destruct Hchanges as (Hbase & Hunw & Hcache & Hmeta & Hfiles & Hreg).
  unfold held, metadata_path, mock_path, directory,
    VersionManager.get_model_directory in *.
  rewrite Hbase, Hunw, (Hresults _ Hrk), (Hcache _ Hck).
  rewrite Hmeta, Hfiles, Hreg; [done | by right | |].
  - intros Heq%string_app_inj_r. done.
  - intros Heq%string_app_inj_r. done.
Qed.

Lemma directory_base self self' d :
  VersionManager.models_base_path self' = VersionManager.models_base_path self →
  directory self' d = directory self d.
Proof.
  unfold directory, VersionManager.get_model_directory. by intros ->.
Qed.

(** The loop over declared versions that are pairwise separate: it never
    raises; what is held for a version outside the list does not change; and
    every version of the list had its turn in a state that held for it what
    the first state held, leaving what the last state holds. *)
Lemma turns_run decls :
  ∀ s,
    NoDup (result_key <$> decls) →
    NoDup (cache_key <$> decls) →
    NoDup (directory (ConfigLoader.manager s) <$> decls) →
    ∃ s',
      for_each decls turn s = (inr tt, s') ∧
      (∀ d', result_key d' ∉ result_key <$> decls →
             cache_key d' ∉ cache_key <$> decls →
             directory (ConfigLoader.manager s) d'
               ∉ directory (ConfigLoader.manager s) <$> decls →
             held s' d' = held s d') ∧
      (∀ d, d ∈ decls →
            ∃ t t', turn d t = (inr tt, t') ∧ held t d = held s d
                    ∧ held s' d = held t' d).
Proof.
  induction decls as [|d decls IH]; intros s Hrk Hck Hdir.
  { exists s. split; [done|]. split; [done|]. intros d Hd. inversion Hd. }
  rewrite fmap_cons in Hrk, Hck, Hdir.
  apply NoDup_cons in Hrk as [Hrk1 Hrk], Hck as [Hck1 Hck],
    Hdir as [Hdir1 Hdir].
  destruct (turn_run d s) as (s1 & Hturn & _).
  destruct (turn_changes_only d s s1 Hturn) as [(Hbase & _) _].
  assert (Hdirs : directory (ConfigLoader.manager s1) <$> decls
                  = directory (ConfigLoader.manager s) <$> decls).
  { apply list_fmap_ext. intros _ x _. by apply directory_base. }
  destruct (IH s1 Hrk Hck) as (s' & Hrun & Hframe & Hvisit).
  { by rewrite Hdirs. }
  assert (Hother : ∀ d0, d0 ∈ decls → held s1 d0 = held s d0).
  { intros d0 Hd0. apply (turn_held_other d d0 s s1 Hturn).
    - intros Heq. apply Hrk1. rewrite <- Heq. by apply list_elem_of_fmap_2.
    - intros Heq. apply Hck1. rewrite <- Heq. by apply list_elem_of_fmap_2.
    - intros Heq. apply Hdir1. rewrite <- Heq. by apply list_elem_of_fmap_2. }
  exists s'. split. { simpl. unfold bind. by rewrite Hturn. }
  split.
  { intros d' [Hrk' Hrk'']%not_elem_of_cons [Hck' Hck'']%not_elem_of_cons
      [Hdir' Hdir'']%not_elem_of_cons.
    rewrite Hframe; [by apply (turn_held_other d d' s s1 Hturn) | done | done |].
    by rewrite Hdirs, (directory_base _ _ d' Hbase). }
  intros d0 [->|Hd0]%elem_of_cons.
  - exists s, s1. split; [done|]. split; [done|].
    apply Hframe; [done | done |].
    by rewrite Hdirs, (directory_base _ _ d Hbase).
  - destruct (Hvisit d0 Hd0) as (t & t' & Ht & Hheld & Hheld').
    exists t, t'. split; [done|]. split; [|done].
    by rewrite Hheld, Hother.
Qed.

Lemma resolve_unfold self T n v :
  resolve self T n v
  = match VersionManager._metadata_cache self
            !! VersionManager.model_key n v with
    | Some metadata => Some metadata
    | None =>
        mjoin (metadata_files (VersionManager.disk self)
                 !! VersionManager.metadata_file self T n v)
    end.
Proof.
  unfold resolve, VersionManager.get_model_metadata. run.
  destruct (VersionManager._metadata_cache self !! _); [done|].
  by destruct (metadata_files (VersionManager.disk self) !! _) as [[m|]|].
Qed.

(** The parts of what is held. *)
Lemma held_inv s t d :
  held s d = held t d →
  let self := ConfigLoader.manager s in
  let self' := ConfigLoader.manager t in
  VersionManager.models_base_path self = VersionManager.models_base_path self' ∧
  unwritable (VersionManager.disk self)
  = unwritable (VersionManager.disk self') ∧
  ConfigLoader.results s !! result_key d
  = ConfigLoader.results t !! result_key d ∧
  VersionManager._metadata_cache self !! cache_key d
  = VersionManager._metadata_cache self' !! cache_key d ∧
  metadata_files (VersionManager.disk self) !! metadata_path self d
  = metadata_files (VersionManager.disk self') !! metadata_path self d ∧
  files (VersionManager.disk self) !! mock_path self d
  = files (VersionManager.disk self') !! mock_path self d ∧
  registry self (d_type d) !! cache_key d
  = registry self' (d_type d) !! cache_key d.
Proof.
  unfold held. intros [= Hbase Hunw Hres Hcache Hmeta Hfiles Hreg]. simpl.
  assert (Hdir : directory (ConfigLoader.manager t) d
                 = directory (ConfigLoader.manager s) d)
    by by apply directory_base.
  unfold metadata_path, mock_path in *. rewrite Hdir in Hmeta, Hfiles.
  done.
Qed.

Lemma resolve_held s t d :
  held s d = held t d →
  resolve (ConfigLoader.manager s) (d_type d) (d_name d) (d_version d)
  = resolve (ConfigLoader.manager t) (d_type d) (d_name d) (d_version d).
Proof.
  intros (Hbase & _ & _ & Hcache & Hmeta & _)%held_inv.
  rewrite !resolve_unfold.
  unfold cache_key, metadata_path, directory, VersionManager.metadata_file,
    VersionManager.get_model_directory in *.
  by rewrite Hcache, Hmeta, Hbase.
Qed.

Lemma nothing_written_refl self d : nothing_written self self d.
Proof. by repeat split. Qed.

Lemma nothing_written_after_resolve self d :
  nothing_written self
    (after_resolve self (d_type d) (d_name d) (d_version d)) d.
Proof.
  unfold nothing_written. rewrite after_resolve_disk.
  split; [done|]. split; [|done].
  apply (f_equal (.!! cache_key d)), registry_same;
    [apply after_resolve_base | by rewrite after_resolve_disk].
Qed.

(** What a turn does for its own version. *)
Lemma turn_reconciled d t t' :
  turn d t = (inr tt, t') →
  reconciled (ConfigLoader.manager t) (ConfigLoader.manager t')
    (ConfigLoader.results t' !! result_key d) d.
Proof.
  intros Hturn. destruct (turn_run d t) as (s1 & Hrun & Heffect).
  rewrite Hturn in Hrun. injection Hrun as <-.
  unfold reconciled.
  destruct (resolve (ConfigLoader.manager t) (d_type d) (d_name d)
              (d_version d)) as [metadata|] eqn:Hres.
  { destruct Heffect as [-> ->]. split; [|split; discriminate].
    intros _. rewrite lookup_insert_eq.
    split; [done | apply nothing_written_after_resolve]. }
  split; [by intros [? ?]|].
  destruct (is_mock (d_def d)) eqn:Hmock.
  2: { destruct Heffect as [-> ->]. split; [|discriminate].
       intros _ _. rewrite lookup_insert_eq.
       split; [done | apply nothing_written_refl]. }
  split; [discriminate|]. intros _ _.
  destruct Heffect as (ok & -> & Hcreate).
  destruct (create_mock_model_run d (ConfigLoader.manager t) Hmock)
    as (ok' & self' & Hrun & Hchanges & Hfile & Hok & Hpos).
  rewrite Hcreate in Hrun. injection Hrun as <- <-.
  exists ok. rewrite lookup_insert_eq. split; [done|]. split; [exact Hfile|].
  split; [|exact Hpos].
  intros Htrue. destruct (Hok Htrue) as (metadata & Hcache & Hmeta & Hrest).
  destruct Hchanges as (Hbase & _).
  exists metadata.
  destruct (resolve_cached (d_type d) (d_name d) (d_version d)
              (ConfigLoader.manager t') metadata Hcache) as [-> _].
  split; [done|]. split; [|exact Hrest].
  unfold stored, VersionManager.metadata_file,
    VersionManager.get_model_directory.
  rewrite Hbase. unfold metadata_path, directory,
    VersionManager.get_model_directory in Hmeta. by rewrite Hmeta.
Qed.

Lemma stored_metadata_path self d :
  stored self (d_type d) (d_name d) (d_version d)
  = mjoin (metadata_files (VersionManager.disk self) !! metadata_path self d).
Proof. reflexivity. Qed.

(** What was done for a version can be read off what is held for it. *)
Lemma reconciled_held s t s' t' d :
  held s d = held t d →
  held s' d = held t' d →
  VersionManager.models_base_path (ConfigLoader.manager t')
  = VersionManager.models_base_path (ConfigLoader.manager t) →
  reconciled (ConfigLoader.manager t) (ConfigLoader.manager t')
    (ConfigLoader.results t' !! result_key d) d →
  reconciled (ConfigLoader.manager s) (ConfigLoader.manager s')
    (ConfigLoader.results s' !! result_key d) d.
Proof.
  intros Hst Hst' Hbase Hrec.
  pose proof (resolve_held _ _ _ Hst) as Hr.
  pose proof (resolve_held _ _ _ Hst') as Hr'.
  destruct (held_inv _ _ _ Hst) as (Hb & Hu & _ & Hc & Hm & Hf & Hg).
  destruct (held_inv _ _ _ Hst') as (Hb' & Hu' & Hres' & Hc' & Hm' & Hf' & Hg').
  simpl in *.
  assert (Hd1 : directory (ConfigLoader.manager s) d
                = directory (ConfigLoader.manager t) d)
    by by apply directory_base.
  assert (Hd2 : directory (ConfigLoader.manager s') d
                = directory (ConfigLoader.manager t) d)
    by (apply directory_base; congruence).
  assert (Hd3 : directory (ConfigLoader.manager t') d
                = directory (ConfigLoader.manager t) d)
    by by apply directory_base.
  assert (Hreg : VersionManager.get_registry_file (ConfigLoader.manager s)
                   (d_type d)
                 = VersionManager.get_registry_file (ConfigLoader.manager t)
                     (d_type d)).
  { unfold VersionManager.get_registry_file. by rewrite Hb. }
  unfold reconciled, nothing_written in *.
  rewrite !stored_metadata_path in *.
  unfold metadata_path, mock_path in *.
  rewrite ?Hd1, ?Hd2, ?Hd3 in *.
  rewrite Hr, Hr', Hres', Hu, Hreg, Hm, Hm', Hf, Hf', Hg, Hg'.
  exact Hrec.
Qed.

Lemma result_keys_NoDup decls :
  (∀ d, d ∈ decls → d_type_str d = ModelType_value (d_type d)) →
  NoDup (cache_key <$> decls) →
  NoDup (result_key <$> decls).
Proof.
  induction decls as [|d decls IH]; intros Htypes; [constructor|].
  rewrite !fmap_cons, !NoDup_cons. intros [Hnotin Hnodup]. split.
  - intros (d0 & Heq & Hd0)%list_elem_of_fmap. apply Hnotin.
    rewrite (result_key_cache_key d d0); [by apply list_elem_of_fmap_2 | | |done].
    + apply Htypes. by left.
    + apply Htypes. by right.
  - apply IH; [|done]. intros d0 Hd0. apply Htypes. by right.
Qed.






End Reconcile.

Section ReconcileExamples.
#[local] Existing Instance Examples.libraries.


(** The run on the two versions of the example: the mock is registered with
    its placeholder file, the other version is not; a second run reports the
    mock as registered and leaves the disk as it was. *)
Example initialize_models_twice :
  let first :=
    ConfigLoader.initialize_models_from_config Examples.two_versions_config
      (Examples.manager_on Examples.sample_disk) in
  let second :=
    ConfigLoader.initialize_models_from_config Examples.two_versions_config
      first.2 in
  first.1 = inr {[ "task_parser:default:v1" := true;
                   "task_parser:default:v2" := false ]} ∧
  registered first.2 TASK_PARSER "default" "v1" ∧
  ¬ registered first.2 TASK_PARSER "default" "v2" ∧
  is_Some (files (VersionManager.disk first.2)
             !! "models/task_parser/default/v1/model.json") ∧
  second.1 = first.1 ∧
  VersionManager.disk second.2 = VersionManager.disk first.2.
Proof.
  repeat split; try by vm_compute.
  - vm_compute. eauto.
  - intros [e He]. by vm_compute in He.
  - vm_compute. eauto.
Qed.


(** The declared versions share name and version across types: after the
    task parser default/v1 is registered, the prioritizer default/v1 resolves
    from the cache to the task parser's record, is reported as registered,
    and neither its placeholder file nor its registry entry is written. *)
Example initialize_models_shared_name_version :
  let run :=
    ConfigLoader.initialize_models_from_config Examples.shared_name_config
      (Examples.manager_on Examples.sample_disk) in
  run.1 = inr {[ "task_parser:default:v1" := true;
                 "prioritizer:default:v1" := true ]} ∧
  registered run.2 TASK_PARSER "default" "v1" ∧
  ¬ registered run.2 PRIORITIZER "default" "v1" ∧
  files (VersionManager.disk run.2)
    !! "models/prioritizer/default/v1/model.json" = None ∧
  model_type <$> resolve run.2 PRIORITIZER "default" "v1" = Some TASK_PARSER.
Proof.
  repeat split; try by vm_compute.
  - vm_compute. eauto.
  - intros [e He]. by vm_compute in He.
Qed.

End ReconcileExamples.

(** * Further properties of the version manager, the model manager and the
    configuration loader *)

(** ** version_manager.py: construction *)

Section Construction.

#[local] Abbreviation registry_path base T :=
  (base +:+ "/" +:+ ModelType_value T +:+ "/registry.json").

#[local] Abbreviation manager base cache d :=
  {| VersionManager.models_base_path := base;
     VersionManager._metadata_cache := cache;
     VersionManager.disk := d |}.

(** One turn of the loop of [_initialize_directory_structure]. *)
#[local] Abbreviation init_turn T :=
  (self ← gets id;
   if bool_decide (is_Some (registry_files (VersionManager.disk self)
                              !! VersionManager.get_registry_file self T))
   then ret tt
   else VersionManager.sys
          (write_registry_file (VersionManager.get_registry_file self T) ∅)).

Lemma registry_path_inj base T T' :
  registry_path base T = registry_path base T' → T = T'.
Proof.
  intros Heq. apply (inj _), (inj (String.append "/")) in Heq.
  destruct T, T'; simpl in Heq; by try discriminate.
Qed.

Lemma init_turn_run base cache d T :
  (is_Some (registry_files d !! registry_path base T)
   ∨ registry_path base T ∉ unwritable d) ∧
  (∃ d',
     init_turn T (manager base cache d) = (inr tt, manager base cache d') ∧
     files d' = files d ∧ metadata_files d' = metadata_files d ∧
     unwritable d' = unwritable d ∧ clock d' = clock d ∧
     registry_files d' !! registry_path base T
     = Some (default ∅ (registry_files d !! registry_path base T)) ∧
     ∀ p, p ≠ registry_path base T →
          registry_files d' !! p = registry_files d !! p)
  ∨
  ¬ (is_Some (registry_files d !! registry_path base T)
     ∨ registry_path base T ∉ unwritable d) ∧
  (∃ e, init_turn T (manager base cache d) = (inl e, manager base cache d) ∧
        kind e = OSError).
Proof.
  unfold write_registry_file, open_w. run.
  change (VersionManager.get_registry_file (manager base cache d) T)
    with (registry_path base T).
  case_bool_decide as Hex.
  - left. split; [by left|]. exists d. destruct Hex as [r Hr]. rewrite Hr.
    simpl. by repeat split.
  - simpl. case_bool_decide as Hw; simpl.
    + right. split; [|eauto]. intros [?|?]; done.
    + left. split; [by right|]. eexists. split; [reflexivity|]. simpl.
      apply eq_None_not_Some in Hex. rewrite Hex. simpl.
      repeat split; [by rewrite lookup_insert_eq|].
      intros p Hp. by rewrite lookup_insert_ne.
Qed.

Lemma initialize_directory_structure_run base cache d :
  let usable T :=
    is_Some (registry_files d !! registry_path base T)
    ∨ registry_path base T ∉ unwritable d in
  ∃ r d',
    VersionManager._initialize_directory_structure (manager base cache d)
    = (r, manager base cache d') ∧
    ((∀ T, usable T) ∧ r = inr tt ∧
     files d' = files d ∧ metadata_files d' = metadata_files d ∧
     unwritable d' = unwritable d ∧ clock d' = clock d ∧
     (∀ T, registry_files d' !! registry_path base T
           = Some (default ∅ (registry_files d !! registry_path base T)))
     ∨
     (∃ T, ¬ usable T) ∧ ∃ e, r = inl e ∧ kind e = OSError).
Proof.
  intros usable. unfold VersionManager._initialize_directory_structure.
  cbn [for_each]. unfold bind.
  destruct (init_turn_run base cache d TASK_PARSER)
    as [[Hu1 (d1 & -> & Hf1 & Hm1 & Hw1 & Hc1 & Hr1 & Ho1)]
       |[Hu1 (e1 & -> & He1)]]; cycle 1.
  { do 2 eexists. split; [reflexivity|]. right.
    split; [by exists TASK_PARSER | eauto]. }
  destruct (init_turn_run base cache d1 PRIORITIZER)
    as [[Hu2 (d2 & -> & Hf2 & Hm2 & Hw2 & Hc2 & Hr2 & Ho2)]
       |[Hu2 (e2 & -> & He2)]]; cycle 1.
  { do 2 eexists. split; [reflexivity|]. right. split; [|eauto].
    exists PRIORITIZER. revert Hu2.
    by rewrite Ho1, Hw1 by (by intros ?%registry_path_inj). }
  destruct (init_turn_run base cache d2 INSIGHTS)
    as [[Hu3 (d3 & -> & Hf3 & Hm3 & Hw3 & Hc3 & Hr3 & Ho3)]
       |[Hu3 (e3 & -> & He3)]]; cycle 1.
  { do 2 eexists. split; [reflexivity|]. right. split; [|eauto].
    exists INSIGHTS. revert Hu3.
    by rewrite Ho2, Ho1, Hw2, Hw1 by (by intros ?%registry_path_inj). }
  do 2 eexists. split; [reflexivity|]. left. split.
  - intros T. unfold usable. destruct T; [done| |].
    + revert Hu2. by rewrite Ho1, Hw1 by (by intros ?%registry_path_inj).
    + revert Hu3.
      by rewrite Ho2, Ho1, Hw2, Hw1 by (by intros ?%registry_path_inj).
  - repeat split; try congruence.
    intros T. destruct T.
    + by rewrite Ho3, Ho2, Hr1 by (by intros ?%registry_path_inj).
    + by rewrite Ho3, Hr2, Ho1 by (by intros ?%registry_path_inj).
    + by rewrite Hr3, Ho2, Ho1 by (by intros ?%registry_path_inj).
Qed.

(** X1.  [ModelVersionManager(base)] returns a manager exactly when, for each
    of the three model types, the registry file is there or can be written;
    otherwise it raises [OSError].  The manager it returns has an empty
    cache; it reads every registry index as it was on disk, empty where
    there was none, and now each has its file; artifact and metadata files,
    the unwritable paths and the clock are untouched. *)
Theorem init_keeps_registries base d :
  let usable T :=
    is_Some (registry_files d !! registry_path base T)
    ∨ registry_path base T ∉ unwritable d in
  ((∀ T, usable T) →
   ∃ self,
     VersionManager.__init__ base d = (inr self, VersionManager.disk self) ∧
     VersionManager.models_base_path self = base ∧
     VersionManager._metadata_cache self = ∅ ∧
     files (VersionManager.disk self) = files d ∧
     metadata_files (VersionManager.disk self) = metadata_files d ∧
     unwritable (VersionManager.disk self) = unwritable d ∧
     clock (VersionManager.disk self) = clock d ∧
     ∀ T, registry_files (VersionManager.disk self)
            !! VersionManager.get_registry_file self T
          = Some (registry (manager base ∅ d) T)) ∧
  (∀ T, ¬ usable T →
     ∃ e d', VersionManager.__init__ base d = (inl e, d') ∧ kind e = OSError).
Proof.
  intros usable. unfold VersionManager.__init__.
  destruct (initialize_directory_structure_run base ∅ d)
    as (r & d' & -> & [(Hall & -> & Hf & Hm & Hw & Hc & Hr)
                      |([T Hbad] & e & -> & He)]).
  - split; [|intros T Hbad; destruct Hbad; apply Hall].
    intros _. eexists. split; [reflexivity|]. simpl.
    repeat split; try done; intros T; apply Hr.
  - split; [intros Hall; destruct Hbad; apply Hall|]. eauto.
Qed.

End Construction.
(** ** version_manager.py: registering, reading, listing *)

Section Registration.

Lemma model_key_inj name v w :
  VersionManager.model_key name v = VersionManager.model_key name w → v = w.
Proof.
  unfold VersionManager.model_key. intros Heq.
  by apply (inj _), (inj (String.append ":")) in Heq.
Qed.

(** X2.  After a successful [register_model] the record is what
    [get_model_metadata] answers and what is stored on disk, and, on a
    registry index in which every entry stands under the key of the name and
    version it records and no recorded name holds a colon, the name of the
    record holding none either, [list_versions] lists the version together
    with the versions that were registered under the name before, no
    other. *)
Theorem register_model_then_listed metadata self self' :
  VersionManager.register_model metadata self = (inr true, self') →
  has_colon (name metadata) = false →
  registry_plain self (model_type metadata) →
  resolve self' (model_type metadata) (name metadata) (version metadata)
  = Some metadata ∧
  stored self' (model_type metadata) (name metadata) (version metadata)
  = Some metadata ∧
  ∃ versions,
    VersionManager.list_versions (model_type metadata) (name metadata) self'
    = (inr versions, self') ∧
    ∀ v, v ∈ versions
         ↔ v = version metadata
           ∨ registered_under self (model_type metadata) (name metadata) v.
Proof.
  intros Hrun Hname Hplain.
  destruct (register_model_effect metadata self)
    as (ok & self1 & Hrun1 & Hbase & _ & _ & _ & _ & Hregs & Hok & _).
  rewrite Hrun in Hrun1. injection Hrun1 as <- <-.
  destruct (Hok eq_refl) as (Hcache & Hfile & Hreg).
  split; [by apply resolve_cached|]. split.
  { unfold stored, VersionManager.metadata_file,
      VersionManager.get_model_directory in *.
    rewrite Hbase. by rewrite Hfile. }
  destruct (list_versions_registered_under self' (model_type metadata)
              (name metadata)) as (versions & Hlist & _ & _ & _ & Hmem).
  { intros k e Hk.
    destruct (decide (k = VersionManager.model_key (name metadata)
                             (version metadata))) as [->|Hne].
    - rewrite Hreg in Hk. injection Hk as <-. by split.
    - rewrite Hregs in Hk by (by right). exact (Hplain k e Hk). }
  exists versions. split; [exact Hlist|]. intros v. rewrite Hmem.
  unfold registered_under.
  destruct (decide (v = version metadata)) as [->|Hne].
  - rewrite Hreg. split; [by left|]. intros _. by eexists.
  - rewrite Hregs by (right; by intros ?%model_key_inj). tauto.
Qed.


End Registration.
Section Unwritable.

(** X4.  [register_model] writes the metadata file first and the registry
    index second, and never raises.  When the metadata file cannot be
    written it returns false and changes nothing.  When only the registry
    file cannot be written it returns false too, but the metadata file stays
    written: every registry index and the cache are as before, and, the
    cache holding nothing under the key, [get_model_metadata] now finds the
    record of a version that no index lists. *)
Theorem register_model_unwritable metadata self :
  let T := model_type metadata in
  let n := name metadata in
  let v := version metadata in
  let mp := VersionManager.metadata_file self T n v in
  let rp := VersionManager.get_registry_file self T in
  (mp ∈ unwritable (VersionManager.disk self) →
   VersionManager.register_model metadata self = (inr false, self)) ∧
  (mp ∉ unwritable (VersionManager.disk self) →
   rp ∈ unwritable (VersionManager.disk self) →
   ∃ self',
     VersionManager.register_model metadata self = (inr false, self') ∧
     stored self' T n v = Some metadata ∧
     (∀ T', registry self' T' = registry self T') ∧
     VersionManager._metadata_cache self'
     = VersionManager._metadata_cache self ∧
     files (VersionManager.disk self') = files (VersionManager.disk self) ∧
     (VersionManager._metadata_cache self
        !! VersionManager.model_key n v = None →
      resolve self' T n v = Some metadata)).
Proof.
  intros T n v mp rp.
  unfold VersionManager.register_model, VersionManager._load_registry,
    write_metadata_file, write_registry_file, open_w.
  run. fold T n v. fold mp. fold rp. split.
  - intros Hmp. rewrite bool_decide_eq_true_2 by done. simpl.
    by destruct self.
  - intros Hmp Hrp. rewrite bool_decide_eq_false_2 by done. simpl.
    rewrite bool_decide_eq_true_2 by done. simpl.
    eexists. split; [reflexivity|].
    assert (Hstored :
      metadata_files
        (VersionManager.disk
           (VersionManager.set_disk
              {| files := files (VersionManager.disk self);
                 metadata_files :=
                   <[mp := Some metadata]>
                     (metadata_files (VersionManager.disk self));
                 registry_files := registry_files (VersionManager.disk self);
                 unwritable := unwritable (VersionManager.disk self);
                 clock := clock (VersionManager.disk self) |}
              (VersionManager.set_disk
                 {| files := files (VersionManager.disk self);
                    metadata_files :=
                      <[mp := Some metadata]>
                        (metadata_files (VersionManager.disk self));
                    registry_files :=
                      registry_files (VersionManager.disk self);
                    unwritable := unwritable (VersionManager.disk self);
                    clock := clock (VersionManager.disk self) |} self)))
        !! mp = Some (Some metadata)).
    { simpl. apply lookup_insert_eq. }
    split. { unfold stored. fold mp in Hstored |- *.
             change (VersionManager.metadata_file _ T n v) with mp.
             by rewrite Hstored. }
    split; [done|]. split; [done|]. split; [done|].
    intros Hmiss. unfold resolve, VersionManager.get_model_metadata. run.
    rewrite Hmiss.
    change (VersionManager.metadata_file _ T n v) with mp.
    by rewrite lookup_insert_eq.
Qed.

End Unwritable.
Section Status.

(** [update_model_status] on a version that resolves, in full: the reading
    of the clock, what is written, what is answered. *)
Lemma update_model_status_cases model_type name version st self metadata :
  let key := VersionManager.model_key name version in
  let mp := VersionManager.metadata_file self model_type name version in
  let rp := VersionManager.get_registry_file self model_type in
  let t := default 0 (head (clock (VersionManager.disk self))) in
  resolve self model_type name version = Some metadata →
  ∃ ok self',
    VersionManager.update_model_status model_type name version st self
    = (inr ok, self') ∧
    VersionManager._metadata_cache self'
    = <[key := set_status st t metadata]>
        (VersionManager._metadata_cache self) ∧
    VersionManager.models_base_path self'
    = VersionManager.models_base_path self ∧
    files (VersionManager.disk self') = files (VersionManager.disk self) ∧
    unwritable (VersionManager.disk self')
    = unwritable (VersionManager.disk self) ∧
    clock (VersionManager.disk self') = tail (clock (VersionManager.disk self)) ∧
    (mp ∈ unwritable (VersionManager.disk self) →
     ok = false ∧
     metadata_files (VersionManager.disk self')
     = metadata_files (VersionManager.disk self) ∧
     registry_files (VersionManager.disk self')
     = registry_files (VersionManager.disk self)) ∧
    (mp ∉ unwritable (VersionManager.disk self) →
     metadata_files (VersionManager.disk self')
     = <[mp := Some (set_status st t metadata)]>
         (metadata_files (VersionManager.disk self)) ∧
     match registry self model_type !! key with
     | None =>
         ok = true ∧
         registry_files (VersionManager.disk self')
         = registry_files (VersionManager.disk self)
     | Some e =>
         if bool_decide (rp ∈ unwritable (VersionManager.disk self))
         then ok = false ∧
              registry_files (VersionManager.disk self')
              = registry_files (VersionManager.disk self)
         else ok = true ∧
              registry_files (VersionManager.disk self')
              = <[rp := <[key := VersionManager.update_registry_entry st t e]>
                          (registry self model_type)]>
                  (registry_files (VersionManager.disk self))
     end).
Proof.
  intros key mp rp t Hres.
  unfold VersionManager.update_model_status, VersionManager._load_registry,
    write_metadata_file, write_registry_file, open_w, now.
  run. rewrite get_model_metadata_run, Hres, (after_resolve_Some _ _ _ _ _ Hres).
  simpl. fold key. unfold registry. fold rp. subst t.
  destruct (clock (VersionManager.disk self)) as [|t rest] eqn:Hclock; simpl;
    fold mp; fold rp;
    (case_bool_decide as Hw; simpl;
     [| destruct (default ∅ _ !! key) as [e|] eqn:He;
        simpl; [case_bool_decide as Hr; simpl|] ]);
    do 2 eexists;
    (split; [reflexivity|]); simpl;
    rewrite ?Hclock, ?insert_insert_eq;
    (split; [reflexivity|]); (split; [reflexivity|]);
    (split; [reflexivity|]); (split; [reflexivity|]);
    (split; [reflexivity|]);
    (split; [intros Hw'; try done|intros Hw'; try done]);
    try (split; [reflexivity|]);
    rewrite ?He; try done;
    try (rewrite bool_decide_eq_true_2 by done; done);
    try (rewrite bool_decide_eq_false_2 by done; done).
Qed.

(** X5.  [update_model_status] on a version that resolves, when its
    metadata file and the registry file can be written: it returns true; the
    record with the new status and the reading of the clock as its
    [updated_at], the other fields as they were, is what
    [get_model_metadata] answers from then on and what is stored on disk;
    the entry of the version in the registry index, when there is one, gets
    the same status and time; no other entry of any index changes, nor any
    artifact file. *)
Theorem update_model_status_written model_type name version st self metadata :
  let key := VersionManager.model_key name version in
  let t := default 0 (head (clock (VersionManager.disk self))) in
  resolve self model_type name version = Some metadata →
  VersionManager.metadata_file self model_type name version
    ∉ unwritable (VersionManager.disk self) →
  VersionManager.get_registry_file self model_type
    ∉ unwritable (VersionManager.disk self) →
  ∃ self',
    VersionManager.update_model_status model_type name version st self
    = (inr true, self') ∧
    resolve self' model_type name version = Some (set_status st t metadata) ∧
    stored self' model_type name version = Some (set_status st t metadata) ∧
    registry self' model_type !! key
    = VersionManager.update_registry_entry st t
        <$> registry self model_type !! key ∧
    (∀ T k, T ≠ model_type ∨ k ≠ key →
            registry self' T !! k = registry self T !! k) ∧
    files (VersionManager.disk self') = files (VersionManager.disk self).
Proof.
  intros key t Hres Hmp Hrp.
  destruct (update_model_status_cases model_type name version st self metadata
              Hres)
    as (ok & self' & Hrun & Hcache & Hbase & Hfiles & _ & _ & _ & Hw).
  destruct (Hw Hmp) as [Hmeta Hreg]. fold key t in Hcache, Hmeta, Hreg.
  assert (Hok : ok = true ∧
    registry self' model_type !! key
    = VersionManager.update_registry_entry st t
        <$> registry self model_type !! key ∧
    ∀ T k, T ≠ model_type ∨ k ≠ key →
           registry self' T !! k = registry self T !! k).
  { destruct (registry self model_type !! key) as [e|] eqn:He.
    - rewrite bool_decide_eq_false_2 in Hreg by done.
      destruct Hreg as [-> Hreg]. split; [done|].
      pose proof (λ T', registry_insert self self' model_type _ T' Hbase Hreg)
        as Hins.
      split.
      + by rewrite Hins, decide_True, lookup_insert_eq.
      + intros T k Hne. rewrite Hins.
        destruct (decide (T = model_type)) as [->|]; [|done].
        destruct Hne as [|Hk]; [done|]. by rewrite lookup_insert_ne.
    - destruct Hreg as [-> Hreg]. split; [done|].
      assert (Hsame : ∀ T, registry self' T = registry self T).
      { intros T. unfold registry, VersionManager.get_registry_file.
        by rewrite Hreg, Hbase. }
      split; [by rewrite Hsame, He|]. intros T k _. by rewrite Hsame. }
  destruct Hok as (-> & Hkey & Hother).
  exists self'. split; [exact Hrun|]. split.
  { apply resolve_cached. rewrite Hcache. apply lookup_insert_eq. }
  split.
  { unfold stored, VersionManager.metadata_file,
      VersionManager.get_model_directory.
    rewrite Hmeta, Hbase. unfold VersionManager.metadata_file,
      VersionManager.get_model_directory. by rewrite lookup_insert_eq. }
  done.
Qed.

(** X6.  [update_model_status] changes the record in memory before it
    writes.  When the version resolves and its metadata file cannot be
    written, the call returns false and leaves the metadata file and every
    registry index as they were, yet [get_model_metadata] reports the new
    status from then on. *)
Theorem update_model_status_unwritable model_type name version st self
    metadata :
  resolve self model_type name version = Some metadata →
  VersionManager.metadata_file self model_type name version
    ∈ unwritable (VersionManager.disk self) →
  ∃ self',
    VersionManager.update_model_status model_type name version st self
    = (inr false, self') ∧
    status_of self' model_type name version = Some st ∧
    stored self' model_type name version = stored self model_type name version ∧
    (∀ T, registry self' T = registry self T) ∧
    files (VersionManager.disk self') = files (VersionManager.disk self).
Proof.
  intros Hres Hmp.
  destruct (update_model_status_cases model_type name version st self metadata
              Hres)
    as (ok & self' & Hrun & Hcache & Hbase & Hfiles & _ & _ & Hw & _).
  destruct (Hw Hmp) as (-> & Hmeta & Hreg).
  exists self'. split; [exact Hrun|]. split.
  { unfold status_of.
    destruct (resolve_cached model_type name version self'
                (set_status st
                   (default 0 (head (clock (VersionManager.disk self))))
                   metadata)) as [-> _]; [|done].
    rewrite Hcache. apply lookup_insert_eq. }
  split.
  { unfold stored, VersionManager.metadata_file,
      VersionManager.get_model_directory. by rewrite Hmeta, Hbase. }
  split; [|done].
  intros T. unfold registry, VersionManager.get_registry_file.
  by rewrite Hreg, Hbase.
Qed.

End Status.
(** ** version_manager.py: deleting *)

Section Paths.

Lemma string_app_assoc (a b c : string) : (a +:+ b) +:+ c = a +:+ (b +:+ c).
Proof.
  induction a as [|x a IH]; [done|].
  change ((String x a +:+ b) +:+ c) with (String x ((a +:+ b) +:+ c)).
  by rewrite IH.
Qed.

Lemma is_prefix_app (a x y : string) :
  is_prefix (a +:+ x) (a +:+ y) = is_prefix x y.
Proof.
  induction a as [|c a IH]; simpl; [done|]. by rewrite Ascii.eqb_refl, IH.
Qed.

Lemma is_prefix_elem_of p s c :
  is_prefix p s = true →
  c ∈ String.list_ascii_of_string p → c ∈ String.list_ascii_of_string s.
Proof.
  revert s. induction p as [|a p IH]; intros [|b s]; simpl;
    try done; [by intros _ ?%elem_of_nil|].
  intros [->%Ascii.eqb_eq Hp]%andb_prop. rewrite !elem_of_cons.
  intros [->|Hc]; [by left|right; by apply IH].
Qed.

Lemma elem_of_string_app_r c (a b : string) :
  c ∈ String.list_ascii_of_string b →
  c ∈ String.list_ascii_of_string (a +:+ b).
Proof.
  intros Hc. induction a as [|x a IH]; simpl; [done|]. by right.
Qed.

(** A registry file does not lie below the directory of a version. *)
Lemma registry_not_below self T n v T' :
  VersionManager.below (VersionManager.get_model_directory self T n v)
    (VersionManager.get_registry_file self T') = false.
Proof.
  unfold VersionManager.below, VersionManager.get_model_directory,
    VersionManager.get_registry_file.
  rewrite !string_app_assoc, is_prefix_app. simpl.
  apply not_true_is_false. intros Hpre.
  assert (Hrest : is_prefix (n +:+ "/" +:+ v +:+ "/") "registry.json" = true).
  { destruct T, T'; simpl in Hpre; try discriminate; exact Hpre. }
  apply (is_prefix_elem_of _ _ "/"%char) in Hrest.
  - revert Hrest. apply (bool_decide_unpack _). by vm_compute.
  - apply elem_of_string_app_r. by left.
Qed.

(** The metadata file of a version lies below its directory. *)
Lemma metadata_file_below self T n v :
  VersionManager.below (VersionManager.get_model_directory self T n v)
    (VersionManager.metadata_file self T n v) = true.
Proof.
  unfold VersionManager.below, VersionManager.metadata_file.
  rewrite is_prefix_app. reflexivity.
Qed.

End Paths.

Section Delete.

(** [delete_model_version], case by case. *)
Lemma delete_model_version_run T n v self :
  let key := VersionManager.model_key n v in
  let rp := VersionManager.get_registry_file self T in
  let dir := VersionManager.get_model_directory self T n v in
  let d := VersionManager.disk self in
  VersionManager.delete_model_version T n v self
  = match registry self T !! key with
    | None => (inr false, self)
    | Some _ =>
        if bool_decide (rp ∈ unwritable d) then (inr false, self)
        else
          (inr true,
           {| VersionManager.models_base_path :=
                VersionManager.models_base_path self;
              VersionManager._metadata_cache :=
                delete key (VersionManager._metadata_cache self);
              VersionManager.disk :=
                {| files :=
                     filter (λ kv, VersionManager.below dir kv.1 = false)
                       (files d);
                   metadata_files :=
                     filter (λ kv, VersionManager.below dir kv.1 = false)
                       (metadata_files d);
                   registry_files :=
                     filter (λ kv, VersionManager.below dir kv.1 = false)
                       (<[rp := delete key (registry self T)]>
                          (registry_files d));
                   unwritable := unwritable d; clock := clock d |} |})
    end.
Proof.
  intros key rp dir d.
  unfold VersionManager.delete_model_version, VersionManager._load_registry,
    VersionManager.rmtree, write_registry_file, open_w.
  run. unfold registry. subst key rp dir d.
  destruct (default ∅ _ !! VersionManager.model_key n v) as [e|];
    simpl; [|done].
  case_bool_decide; simpl; [by destruct self|]. done.
Qed.

Lemma lookup_filter_below {A} dir (m : gmap string A) p :
  filter (λ kv, VersionManager.below dir kv.1 = false) m !! p
  = if VersionManager.below dir p then None else m !! p.
Proof.
  rewrite map_lookup_filter. destruct (m !! p) as [x|]; simpl.
  - destruct (VersionManager.below dir p) eqn:Hb.
    + by rewrite option_guard_False by (simpl; congruence).
    + by rewrite option_guard_True.
  - by destruct (VersionManager.below dir p).
Qed.

(** The registry indexes after a deletion. *)
Lemma registry_after_delete T n v self self' :
  VersionManager.delete_model_version T n v self = (inr true, self') →
  ∀ T', registry self' T'
        = if decide (T' = T)
          then delete (VersionManager.model_key n v) (registry self T)
          else registry self T'.
Proof.
  rewrite delete_model_version_run.
  destruct (registry self T !! _) as [e|]; [|discriminate].
  case_bool_decide; [discriminate|]. intros [= <-] T'.
  unfold registry at 1. simpl.
  unfold VersionManager.get_registry_file at 1. simpl.
  fold (VersionManager.get_registry_file self T').
  rewrite lookup_filter_below, registry_not_below.
  destruct (decide (T' = T)) as [->|Hne].
  - by rewrite lookup_insert_eq.
  - rewrite lookup_insert_ne; [done|].
    intros Heq%get_registry_file_inj. congruence.
Qed.

(** X7.  [delete_model_version] for a name and a version that are path
    segments never raises.  It returns true exactly when the key
    [name:version] is in the registry index of its type and the registry
    file can be written; otherwise it changes nothing.  When it returns true
    the key is no longer in the index and the version no longer resolves,
    every file below the directory of the version is gone, every other file
    and every other entry of any index is as before, and the cache has lost
    at most the entry under [name:version]. *)
Theorem delete_model_version_effect T n v self :
  let key := VersionManager.model_key n v in
  let dir := VersionManager.get_model_directory self T n v in
  VersionManager.path_segment n = true →
  VersionManager.path_segment v = true →
  ∃ ok self',
    VersionManager.delete_model_version T n v self = (inr ok, self') ∧
    (ok = true ↔
     registered self T n v ∧
     VersionManager.get_registry_file self T
       ∉ unwritable (VersionManager.disk self)) ∧
    (ok = false → self' = self) ∧
    (ok = true →
     ¬ registered self' T n v ∧
     resolve self' T n v = None ∧
     (∀ T' k, T' ≠ T ∨ k ≠ key →
              registry self' T' !! k = registry self T' !! k) ∧
     (∀ p, files (VersionManager.disk self') !! p
           = if VersionManager.below dir p then None
             else files (VersionManager.disk self) !! p) ∧
     (∀ p, metadata_files (VersionManager.disk self') !! p
           = if VersionManager.below dir p then None
             else metadata_files (VersionManager.disk self) !! p) ∧
     (∀ k, k ≠ key →
           VersionManager._metadata_cache self' !! k
           = VersionManager._metadata_cache self !! k)).
Proof.
  intros key dir _ _. rewrite delete_model_version_run. fold key dir.
  unfold registered. fold key.
  destruct (registry self T !! key) as [e|] eqn:He.
  2: { exists false, self. split; [done|]. split; [|done].
       split; [done|]. by intros [[? ?] _]. }
  case_bool_decide as Hrp.
  { exists false, self. split; [done|]. split; [|done].
    split; [done|]. by intros [_ ?]. }
  eexists true, _. split; [reflexivity|]. split; [by eauto|].
  split; [done|]. intros _.
  match goal with
  | |- context [registry ?s' T !! key] =>
      pose proof (registry_after_delete T n v self s') as Hreg
  end.
  rewrite delete_model_version_run in Hreg. fold key dir in Hreg.
  rewrite He, bool_decide_eq_false_2 in Hreg by done.
  specialize (Hreg eq_refl). fold key in Hreg.
  split. { rewrite Hreg, decide_True, lookup_delete_eq by done.
           by intros [? ?]. }
  split.
  { unfold resolve, VersionManager.get_model_metadata. run. fold key.
    rewrite lookup_delete_eq.
    change (VersionManager.metadata_file _ T n v)
      with (VersionManager.metadata_file self T n v).
    rewrite lookup_filter_below. unfold dir.
    by rewrite metadata_file_below. }
  split.
  { intros T' k Hne. rewrite Hreg.
    destruct (decide (T' = T)) as [->|]; [|done].
    destruct Hne as [|Hk]; [done|]. by rewrite lookup_delete_ne. }
  simpl. split; [intros p; apply lookup_filter_below|].
  split; [intros p; apply lookup_filter_below|].
  intros k Hk. by rewrite lookup_delete_ne.
Qed.

(** X8.  After a successful [delete_model_version] for a name and a version
    that are path segments, on a registry index in which every entry stands
    under the key of the name and version it records and no recorded name
    holds a colon, [list_versions] lists the versions that were registered
    under the name before, but for the deleted one, and
    [get_latest_version] answers the first of them. *)
Theorem delete_model_version_then_unlisted T n v self self' :
  VersionManager.delete_model_version T n v self = (inr true, self') →
  VersionManager.path_segment n = true →
  VersionManager.path_segment v = true →
  registry_plain self T →
  ∃ versions,
    VersionManager.list_versions T n self' = (inr versions, self') ∧
    VersionManager.get_latest_version T n self'
    = (inr (head versions), self') ∧
    ∀ w, w ∈ versions ↔ w ≠ v ∧ registered_under self T n w.
Proof.
  intros Hrun _ _ Hplain.
  pose proof (registry_after_delete T n v self self' Hrun T) as Hreg.
  rewrite decide_True in Hreg by done.
  destruct (list_versions_registered_under self' T n)
    as (versions & Hlist & Hlatest & _ & _ & Hmem).
  { intros k e. rewrite Hreg. intros [_ Hk]%lookup_delete_Some.
    exact (Hplain k e Hk). }
  exists versions. split; [exact Hlist|]. split; [exact Hlatest|].
  intros w. rewrite Hmem. unfold registered_under. rewrite Hreg.
  destruct (decide (w = v)) as [->|Hne].
  - rewrite lookup_delete_eq. split; [by intros (? & ? & _) | by intros [? _]].
  - rewrite lookup_delete_ne by (by intros ?%model_key_inj). tauto.
Qed.

End Delete.
(** ** version_manager.py: a registry key without a colon *)

Section MalformedKey.
Context `{Externals}.

Lemma versions_of_raises name keys :
  match VersionManager.versions_of name keys with
  | inr _ => ∀ key, key ∈ keys → has_colon key = true
  | inl e =>
      kind e = ValueError ∧ ∃ key, key ∈ keys ∧ has_colon key = false
  end.
Proof.
  induction keys as [|key keys IH]; simpl; [by intros ? ?%elem_of_nil|].
  destruct (VersionManager.split_once key) as [[n v]|] eqn:Hsplit.
  - apply split_once_Some in Hsplit as [-> _].
    destruct (VersionManager.versions_of name keys) as [e|versions].
    + destruct IH as [He (k & Hk & Hcolon)]. split; [done|].
      exists k. split; [by right | done].
    + intros k [->|Hk]%elem_of_cons; [apply has_colon_model_key | by apply IH].
  - split; [done|]. exists key. split; [by left|].
    destruct (has_colon key) eqn:Hcolon; [|done].
    destruct (split_once_is_Some key Hcolon) as [? ?]. congruence.
Qed.

(** X9.  On a registry file that holds a table of models, as the registry
    files the service writes do, [list_versions] and [get_latest_version]
    return, for every name, exactly when every key of the table has a colon.
    When some key has none they raise [ValueError] and change nothing, and so
    does [load_model] when it is called without a version: the lookup of the
    latest version stands before its [try] block. *)
Theorem list_versions_raises_iff (self : ModelManager.t) T name :
  let v := ModelManager.version_manager self in
  (registry_wf v T ↔
   ∃ versions, VersionManager.list_versions T name v = (inr versions, v)) ∧
  (¬ registry_wf v T →
   ∃ e, kind e = ValueError ∧
        VersionManager.list_versions T name v = (inl e, v) ∧
        VersionManager.get_latest_version T name v = (inl e, v) ∧
        ModelManager.load_model T name None self = (inl e, self)).
Proof.
  intros v.
  assert (Hkeys : (∀ key, key ∈ (map_to_list (registry v T)).*1 →
                          has_colon key = true) ↔ registry_wf v T).
  { split.
    - intros Hall k e Hk. apply Hall, list_elem_of_fmap.
      exists (k, e). split; [done|]. by apply elem_of_map_to_list.
    - intros Hwf key [[k e] [-> Hin]]%list_elem_of_fmap.
      apply elem_of_map_to_list in Hin. exact (Hwf k e Hin). }
  pose proof (versions_of_raises name (map_to_list (registry v T)).*1) as Hrun.
  assert (Hlist : VersionManager.list_versions T name v
            = match VersionManager.versions_of name
                      (map_to_list (registry v T)).*1 with
              | inr versions =>
                  (inr (VersionManager.sorted_reverse versions), v)
              | inl e => (inl e, v)
              end).
  { unfold VersionManager.list_versions, VersionManager._load_registry,
      registry. run.
    by destruct (VersionManager.versions_of _ _). }
  assert (Hlatest : ∀ e,
            VersionManager.list_versions T name v = (inl e, v) →
            VersionManager.get_latest_version T name v = (inl e, v)).
  { intros e He. unfold VersionManager.get_latest_version. run.
    by rewrite He. }
  destruct (VersionManager.versions_of name (map_to_list (registry v T)).*1)
    as [e|versions].
  - destruct Hrun as [He (k & Hk & Hcolon)].
    assert (Hnwf : ¬ registry_wf v T).
    { intros Hwf. pose proof (proj2 Hkeys Hwf k Hk). congruence. }
    split.
    + split; [done|]. intros [versions Hv]. congruence.
    + intros _. exists e. split; [done|]. split; [done|].
      split; [by apply Hlatest|].
      unfold ModelManager.load_model. run. fold v.
      rewrite (Hlatest e Hlist). simpl. by destruct self.
  - apply (proj1 Hkeys) in Hrun. split; [|done]. split; [eauto|done].
Qed.

End MalformedKey.
(** ** version_manager.py: listing the models of a type *)

Section ListModels.






End ListModels.
(** ** version_manager.py: storage information *)



Section StorageInfo.
Variable truediv : Z → Z → Q.
Variable round : Q → Z → Q.

Lemma sum_of_perm {A} (f : A → Z) l l' : l ≡ₚ l' → sum_of f l = sum_of f l'.
Proof.
  unfold sum_of. induction 1; simpl; lia.
Qed.







End StorageInfo.
(** ** model_manager.py: registering from a file *)

Section RegisterFromFile.
Context `{Externals}.



End RegisterFromFile.
(** ** model_manager.py: loading and unloading *)

Section Loading.
Context `{Externals}.

Lemma clock_now_tick (self : ModelManager.t) :
  let v := ModelManager.version_manager self in
  ∃ t d',
    ModelManager.clock_now self
    = (inr t, ModelManager.set_version_manager
                (VersionManager.set_disk d' v) self) ∧
    files d' = files (VersionManager.disk v) ∧
    metadata_files d' = metadata_files (VersionManager.disk v) ∧
    registry_files d' = registry_files (VersionManager.disk v) ∧
    unwritable d' = unwritable (VersionManager.disk v).
Proof.
  intros v. unfold ModelManager.clock_now, now. run. fold v.
  destruct (clock (VersionManager.disk v)); do 2 eexists;
    (split; [reflexivity|]); by repeat split.
Qed.

Lemma resolve_congr v v' T n w :
  VersionManager._metadata_cache v' = VersionManager._metadata_cache v →
  VersionManager.models_base_path v' = VersionManager.models_base_path v →
  metadata_files (VersionManager.disk v')
  = metadata_files (VersionManager.disk v) →
  resolve v' T n w = resolve v T n w.
Proof.
  intros Hc Hb Hm.
  unfold resolve, VersionManager.get_model_metadata,
    VersionManager.metadata_file, VersionManager.get_model_directory.
  run. rewrite Hc, Hb, Hm.
  destruct (VersionManager._metadata_cache v !! _); [done|].
  by destruct (metadata_files (VersionManager.disk v) !! _) as [[?|]|].
Qed.

(** A configuration that the constructor returns has passed its
    validators. *)
Lemma float_range v lo hi :
  float_le v lo || float_gt v hi = false → nan_or_within lo hi v.
Proof.
  destruct v as [q| | |]; simpl; try discriminate; [|by left].
  intros [Hlo Hhi]%orb_false_elim. right. exists q. split; [done|].
  apply negb_false_iff, Qle_bool_iff in Hhi. split; [|done].
  apply Qnot_le_lt. rewrite <- Qle_bool_iff. congruence.
Qed.

Lemma ModelConfig_init_range kw c :
  ModelConfig_init kw = inr c →
  nan_or_within 0 2 (temperature c) ∧ nan_or_within 0 1 (top_p c).
Proof.
  unfold ModelConfig_init, validate_temperature, validate_top_p.
  destruct (coerce_ModelConfig kw) as [c'|]; [|discriminate].
  destruct (float_le (temperature c') 0 || float_gt (temperature c') 2)
    eqn:Ht; [discriminate|].
  destruct (float_le (top_p c') 0 || float_gt (top_p c') 1) eqn:Hp;
    [discriminate|].
  intros [= <-]. split; by apply float_range.
Qed.

Lemma config_of_range v T n w c :
  config_of v T n w = Some c →
  nan_or_within 0 2 (temperature c) ∧ nan_or_within 0 1 (top_p c).
Proof.
  unfold config_of, VersionManager.get_model_config. run.
  rewrite get_model_metadata_run.
  destruct (resolve v T n w) as [metadata|]; [|discriminate].
  destruct (ModelConfig_init _) as [e|c'] eqn:Hinit; [discriminate|].
  intros [= <-]. by eapply ModelConfig_init_range.
Qed.

(** [load_model] when everything it asks for is there. *)
Lemma load_model_success (self : ModelManager.t) T n w metadata c :
  let v := ModelManager.version_manager self in
  let key := ModelManager.get_model_key T n w in
  resolve v T n w = Some metadata →
  (integrity v T n w).1 = true →
  config_of v T n w = Some c →
  ModelManager._loaded_models self !! key = None →
  ∃ self',
    ModelManager.load_model T n (Some w) self = (inr true, self') ∧
    ModelManager.is_model_loaded T n w self' = (inr true, self') ∧
    (∃ model,
       ModelManager._loaded_models self'
       = <[key := model]> (ModelManager._loaded_models self) ∧
       memory_requirement_mb (ModelManager.lm_metadata model)
       = memory_requirement_mb metadata ∧
       ModelManager.lm_name model = n ∧
       ModelManager.lm_version model = w ∧
       ModelManager.lm_type model = ModelType_value T ∧
       ModelManager.lm_config model = c ∧
       ModelManager.lm_status model = "loaded") ∧
    ModelManager._model_configs self' !! key = Some c ∧
    is_Some (ModelManager._load_times self' !! key) ∧
    status_of (ModelManager.version_manager self') T n w = Some AVAILABLE ∧
    ModelManager.metrics self'
    = (ModelManager.metrics self
         ++ [ModelManager.set_active_models
               (S (size (ModelManager._loaded_models self)));
             ModelManager.set_model_memory_usage (ModelType_value T) w
               (memory_requirement_mb metadata * 1024 * 1024)])%list ∧
    nan_or_within 0 2 (temperature c) ∧ nan_or_within 0 1 (top_p c).
Proof.
  intros v key Hres Hvalid Hconfig Hunloaded.
  set (v1 := after_resolve v T n w).
  assert (Hres1 : resolve v1 T n w = Some metadata
                  ∧ after_resolve v1 T n w = v1).
  { apply resolve_cached, resolve_after_resolve, Hres. }
  destruct Hres1 as [Hres1 Hsame1].
  assert (Hvalid1 : (integrity v1 T n w).1 = true).
  { rewrite (integrity_congr v1 v); [done | by rewrite Hres1 |].
    unfold v1. by rewrite after_resolve_disk. }
  destruct (status_after_update T n w LOADING v1 metadata Hres1)
    as (ok2 & v2 & t2 & Hupd2 & Hres2 & Hsame2 & _ & _).
  assert (Hconfig2 : config_of v2 T n w = Some c).
  { by rewrite (config_of_congr v2 v T n w _ _ Hres2 Hres). }
  unfold ModelManager.load_model. run. fold key.
  repeat (case_bool_decide as Hl;
          [exfalso; destruct Hl as [? Hl]; simpl in Hl; congruence
          |clear Hl]).
  simpl. fold v. rewrite get_model_metadata_run, Hres. fold v1. simpl.
  rewrite validate_model_integrity_integrity, Hsame1.
  destruct (integrity v1 T n w) as [valid reason].
  simpl in Hvalid1. subst valid. simpl. rewrite Hupd2. simpl.
  rewrite get_model_config_run, Hconfig2, Hsame2. simpl.
  match goal with
  | |- context [ModelManager.clock_now ?s] =>
      destruct (clock_now_tick s) as (t3 & d3 & -> & _ & Hm3 & _ & _)
  end.
  simpl.
  match goal with
  | |- context [ModelManager.clock_now ?s] =>
      destruct (clock_now_tick s) as (t4 & d4 & -> & _ & Hm4 & _ & _)
  end.
  simpl.
  set (v4 := VersionManager.set_disk d4 (VersionManager.set_disk d3 v2)).
  assert (Hres4 : resolve v4 T n w = Some (set_status LOADING t2 metadata)).
  { rewrite <- Hres2. apply resolve_congr; [done | done |].
    simpl in *. congruence. }
  destruct (status_after_update T n w AVAILABLE v4 _ Hres4)
    as (ok5 & v5 & t5 & Hupd5 & Hres5 & _ & _ & _).
  rewrite Hupd5. simpl.
  eexists. split; [reflexivity|].
  unfold ModelManager.is_model_loaded, gets. simpl. fold key.
  rewrite !lookup_insert_eq.
  split. { rewrite bool_decide_eq_true_2; [done | eauto]. }
  split. { eexists. split; [reflexivity|]. done. }
  split; [done|]. split; [eauto|].
  split. { unfold status_of. by rewrite Hres5. }
  split.
  { rewrite map_size_insert_None by done. by rewrite <- app_assoc. }
  by apply (config_of_range v T n w).
Qed.



End Loading.
Section Unloading.

(** [unload_model], case by case. *)
Lemma unload_model_run T n w (self : ModelManager.t) :
  let key := ModelManager.get_model_key T n w in
  ModelManager.unload_model T n w self
  = if bool_decide (is_Some (ModelManager._loaded_models self !! key))
    then
      (inr true,
       (ModelManager.emit
          (ModelManager.set_active_models
             (size (delete key (ModelManager._loaded_models self))))
          (ModelManager.remove_loaded key self)).2)
    else (inr false, self).
Proof.
  intros key. unfold ModelManager.unload_model, ModelManager.emit. run.
  fold key. by case_bool_decide.
Qed.

(** X14.  [unload_model] never raises.  It returns true exactly when the
    model is loaded; otherwise it changes nothing.  When it returns true the
    key is gone from the tables of loaded models, configurations, load times
    and inference statistics, no other key of these tables changes, the
    number of models still loaded is emitted as a metric, the version
    manager is not touched, and [is_model_loaded] answers false. *)
Theorem unload_model_effect T n w (self : ModelManager.t) :
  let key := ModelManager.get_model_key T n w in
  ∃ ok self',
    ModelManager.unload_model T n w self = (inr ok, self') ∧
    (ok = true ↔ is_Some (ModelManager._loaded_models self !! key)) ∧
    (ok = false → self' = self) ∧
    (ok = true →
     ModelManager._loaded_models self'
     = delete key (ModelManager._loaded_models self) ∧
     ModelManager._model_configs self'
     = delete key (ModelManager._model_configs self) ∧
     ModelManager._load_times self'
     = delete key (ModelManager._load_times self) ∧
     ModelManager._inference_stats self'
     = delete key (ModelManager._inference_stats self) ∧
     ModelManager.version_manager self' = ModelManager.version_manager self ∧
     ModelManager.metrics self'
     = (ModelManager.metrics self
          ++ [ModelManager.set_active_models
                (size (ModelManager._loaded_models self) - 1)%nat])%list ∧
     ModelManager.is_model_loaded T n w self' = (inr false, self')).
Proof.
  intros key. rewrite unload_model_run. fold key.
  case_bool_decide as Hl.
  - eexists true, _. split; [reflexivity|]. split; [done|]. split; [done|].
    intros _. simpl. repeat (split; [done|]). split.
    + rewrite map_size_delete_Some by done. by rewrite Nat.sub_1_r.
    + unfold ModelManager.is_model_loaded, gets. simpl. fold key.
      rewrite lookup_delete_eq. rewrite bool_decide_eq_false_2; [done|].
      by intros [? ?].
  - exists false, self. split; [done|]. split; [|done].
    split; [done|]. intros ?. by destruct Hl.
Qed.

End Unloading.
(** ** model_manager.py: keys of loaded models *)

Section ModelKeys.

Lemma rsplit_once_Some s a b :
  ModelManager.rsplit_once s = Some (a, b) →
  s = a +:+ ":" +:+ b ∧ has_colon b = false.
Proof.
  revert a. induction s as [|c s IH]; simpl; intros a; [discriminate|].
  destruct (ModelManager.rsplit_once s) as [[a' b']|] eqn:Hs.
  - intros [= <- <-]. destruct (IH a' eq_refl) as [-> Hb]. by split.
  - destruct (Ascii.eqb_spec c ":") as [->|Hc]; [|discriminate].
    intros [= <- <-]. split; [done|].
    clear IH. induction s as [|x s IH]; simpl in *; [done|].
    destruct (ModelManager.rsplit_once s) as [[? ?]|]; [discriminate|].
    destruct (Ascii.eqb x ":"); [discriminate|]. by apply IH.
Qed.

Lemma rsplit_once_None s :
  ModelManager.rsplit_once s = None → has_colon s = false.
Proof.
  induction s as [|x s IH]; simpl; [done|].
  destruct (ModelManager.rsplit_once s) as [[? ?]|]; [discriminate|].
  destruct (Ascii.eqb x ":"); [discriminate|]. by intros _; apply IH.
Qed.

Lemma has_colon_app_r (a b : string) :
  has_colon b = true → has_colon (a +:+ b) = true.
Proof.
  intros Hb. induction a as [|x a IH]; simpl; [done|].
  rewrite IH. apply orb_true_r.
Qed.

Lemma has_colon_app (a b : string) :
  has_colon (a +:+ b) = has_colon a || has_colon b.
Proof.
  induction a as [|x a IH]; simpl; [done|]. by rewrite IH, orb_assoc.
Qed.

(** Splitting at the last colon undoes joining with a version that has no
    colon. *)
Lemma rsplit_once_join n w :
  has_colon w = false →
  ModelManager.rsplit_once (n +:+ ":" +:+ w) = Some (n, w).
Proof.
  intros Hw. induction n as [|x n IH].
  - change ("" +:+ ":" +:+ w) with (String ":" w). simpl.
    destruct (ModelManager.rsplit_once w) as [[a b]|] eqn:Hs; [|done].
    apply rsplit_once_Some in Hs as [-> _].
    rewrite has_colon_app in Hw. simpl in Hw.
    by rewrite orb_true_r in Hw.
  - change (String x n +:+ ":" +:+ w) with (String x (n +:+ ":" +:+ w)).
    simpl. by rewrite IH.
Qed.

Lemma has_colon_ModelType_value T : has_colon (ModelType_value T) = false.
Proof. by destruct T. Qed.

(** What the two unpacking assignments make of a key built by
    [get_model_key]: the type, and a name and a version that give the same
    key again; they are the name and the version the key was built from when
    that version has no colon. *)
Lemma unpack_model_key_get T n w :
  ∃ n' w',
    ModelManager.unpack_model_key (ModelManager.get_model_key T n w)
    = inr (ModelType_value T, n', w') ∧
    ModelManager.get_model_key T n' w' = ModelManager.get_model_key T n w ∧
    (has_colon w = false → n' = n ∧ w' = w).
Proof.
  unfold ModelManager.unpack_model_key, ModelManager.get_model_key.
  change (ModelType_value T +:+ ":" +:+ n +:+ ":" +:+ w)
    with (VersionManager.model_key (ModelType_value T) (n +:+ ":" +:+ w)).
  rewrite split_once_model_key by apply has_colon_ModelType_value.
  destruct (ModelManager.rsplit_once (n +:+ ":" +:+ w)) as [[n' w']|] eqn:Hs.
  - exists n', w'. split; [done|].
    pose proof (rsplit_once_Some _ _ _ Hs) as [Heq _].
    split; [unfold VersionManager.model_key; by rewrite Heq|].
    intros Hw. rewrite (rsplit_once_join n w Hw) in Hs. by simplify_eq.
  - apply rsplit_once_None in Hs. rewrite has_colon_app in Hs. simpl in Hs.
    by rewrite orb_true_r in Hs.
Qed.

End ModelKeys.


Section UnloadKeys.

Lemma ModelType_of_value_value T :
  ModelType_of_value (ModelType_value T) = inr T.
Proof. by destruct T. Qed.

(** The body of the loops of [cleanup_old_models] and [shutdown] on a key
    built by [get_model_key]: the model under that key is unloaded if it is
    loaded. *)
Lemma unload_key_run key self :
  key_built key →
  ModelManager.unload_key key self = (inr tt, unloaded key self).
Proof.
  intros (T & n & w & ->).
  destruct (unpack_model_key_get T n w) as (n' & w' & Hun & Hkey & _).
  unfold ModelManager.unload_key.
  unfold mbind, M_bind, bind, lift, mret, M_ret, ret.
  rewrite Hun. simpl. rewrite ModelType_of_value_value. simpl.
  rewrite unload_model_run, Hkey. unfold unloaded.
  by case_bool_decide.
Qed.

Lemma unloaded_loaded key self k :
  ModelManager._loaded_models (unloaded key self) !! k
  = if decide (k = key) then None else ModelManager._loaded_models self !! k.
Proof.
  unfold unloaded. case_bool_decide as Hl; simpl.
  - destruct (decide (k = key)) as [->|Hne];
      [apply lookup_delete_eq | by apply lookup_delete_ne].
  - destruct (decide (k = key)) as [->|Hne]; [|done].
    by apply eq_None_not_Some.
Qed.

Lemma unloaded_version_manager key self :
  ModelManager.version_manager (unloaded key self)
  = ModelManager.version_manager self.
Proof. unfold unloaded. by case_bool_decide. Qed.

Lemma unloaded_side_tables key self k :
  side_tables (unloaded key self) k
  = if decide (k = key ∧ is_Some (ModelManager._loaded_models self !! key))
    then (None, None, None) else side_tables self k.
Proof.
  unfold unloaded, side_tables. case_bool_decide as Hl; simpl.
  - destruct (decide (k = key)) as [->|Hne].
    + rewrite decide_True by done. by rewrite !lookup_delete_eq.
    + rewrite decide_False by (by intros [? _]).
      by rewrite !lookup_delete_ne.
  - by rewrite decide_False by (by intros [_ ?]).
Qed.

(** The loop over a list of built keys: every key of the list is unloaded,
    every other key stays as it is, the version manager is not touched. *)
Lemma unload_keys_run keys : ∀ self,
  (∀ key, key ∈ keys → key_built key) →
  ∃ self',
    for_each keys ModelManager.unload_key self = (inr tt, self') ∧
    ModelManager.version_manager self' = ModelManager.version_manager self ∧
    (∀ k, ModelManager._loaded_models self' !! k
          = if decide (k ∈ keys) then None
            else ModelManager._loaded_models self !! k) ∧
    (∀ k, side_tables self' k
          = if decide (k ∈ keys
                       ∧ is_Some (ModelManager._loaded_models self !! k))
            then (None, None, None) else side_tables self k).
Proof.
  induction keys as [|key keys IH]; intros self Hbuilt.
  { exists self. split; [done|]. split; [done|].
    split; intros k.
    - by rewrite decide_False by apply not_elem_of_nil.
    - rewrite decide_False; [done|]. by intros [?%elem_of_nil _]. }
  destruct (IH (unloaded key self)) as (self' & Hrun & Hvm & Hl & Ht).
  { intros k Hk. apply Hbuilt. by right. }
  exists self'. split.
  { cbn [for_each]. unfold bind.
    rewrite unload_key_run by (apply Hbuilt; by left). exact Hrun. }
  split; [by rewrite Hvm, unloaded_version_manager|].
  split.
  - intros k. rewrite Hl, unloaded_loaded.
    destruct (decide (k = key)) as [->|Hne].
    + rewrite (decide_True (P := key ∈ key :: keys)) by (by left).
      by destruct (decide (key ∈ keys)).
    + destruct (decide (k ∈ keys)) as [Hin|Hnin].
      * by rewrite decide_True by (by right).
      * rewrite decide_False; [done|]. by intros [?|?]%elem_of_cons.
  - intros k. rewrite Ht, unloaded_loaded, unloaded_side_tables.
    destruct (decide (k = key)) as [->|Hne].
    + destruct (decide (is_Some (ModelManager._loaded_models self !! key)))
        as [Hloaded|Hnot].
      * rewrite (decide_True (P := key = key ∧ _)) by done.
        rewrite (decide_True (P := key ∈ key :: keys ∧ _))
          by (split; [by left | done]).
        by destruct (decide (key ∈ keys ∧ is_Some None)).
      * rewrite (decide_False (P := key = key ∧ _)) by (by intros [_ ?]).
        rewrite (decide_False (P := key ∈ key :: keys ∧ _))
          by (by intros [_ ?]).
        rewrite decide_False; [done|]. by intros [_ [? ?]].
    + rewrite (decide_False (P := k = key ∧ _)) by (by intros [? _]).
      destruct (decide (k ∈ keys
                        ∧ is_Some (ModelManager._loaded_models self !! k)))
        as [[Hin Hloaded]|Hnot].
      * by rewrite decide_True by (split; [by right | done]).
      * rewrite decide_False; [done|].
        intros [[?|?]%elem_of_cons ?]; [done|]. by apply Hnot.
Qed.

End UnloadKeys.
Section Reports.

Lemma elem_of_keys {A} (m : gmap string A) key :
  key ∈ (map_to_list m).*1 ↔ is_Some (m !! key).
Proof.
  split.
  - intros [[k x] [-> Hin]]%list_elem_of_fmap.
    apply elem_of_map_to_list in Hin. by exists x.
  - intros [x Hx]. apply list_elem_of_fmap. exists (key, x).
    split; [done|]. by apply elem_of_map_to_list.
Qed.

(** X15.  [shutdown], when every key of the table of loaded models was built
    by [get_model_key] (as the keys that [load_model] enters are): it does
    not raise, leaves no model loaded, clears the configuration, the load
    time and the inference statistics of every model that was loaded, and
    touches neither the other entries of these tables nor the version
    manager. *)
Theorem shutdown_unloads_all (self : ModelManager.t) :
  (∀ key, is_Some (ModelManager._loaded_models self !! key) →
          key_built key) →
  ∃ self',
    ModelManager.shutdown self = (inr tt, self') ∧
    ModelManager._loaded_models self' = ∅ ∧
    ModelManager.version_manager self' = ModelManager.version_manager self ∧
    ∀ k, side_tables self' k
         = if decide (is_Some (ModelManager._loaded_models self !! k))
           then (None, None, None) else side_tables self k.
Proof.
  intros Hbuilt.
  destruct (unload_keys_run (map_to_list (ModelManager._loaded_models self)).*1
              self) as (self' & Hrun & Hvm & Hl & Ht).
  { intros key Hkey%elem_of_keys. by apply Hbuilt. }
  exists self'. split; [exact Hrun|]. split; [|split; [exact Hvm|]].
  - apply map_eq. intros k. rewrite Hl, lookup_empty.
    destruct (decide (k ∈ _)) as [Hin|Hnin]; [done|].
    apply eq_None_not_Some. by rewrite <- elem_of_keys.
  - intros k. rewrite Ht.
    destruct (decide (is_Some (ModelManager._loaded_models self !! k)))
      as [Hloaded|Hnot].
    + rewrite decide_True; [done|]. split; [by apply elem_of_keys | done].
    + rewrite decide_False; [done|]. by intros [_ ?].
Qed.

Lemma clock_now_reading (self : ModelManager.t) :
  ∃ self',
    ModelManager.clock_now self
    = (inr (default 0 (head (clock (VersionManager.disk
                                      (ModelManager.version_manager self))))),
       self') ∧
    ModelManager._loaded_models self' = ModelManager._loaded_models self ∧
    ModelManager._load_times self' = ModelManager._load_times self ∧
    (∀ k, side_tables self' k = side_tables self k) ∧
    VersionManager._metadata_cache (ModelManager.version_manager self')
    = VersionManager._metadata_cache (ModelManager.version_manager self) ∧
    files (VersionManager.disk (ModelManager.version_manager self'))
    = files (VersionManager.disk (ModelManager.version_manager self)) ∧
    metadata_files (VersionManager.disk (ModelManager.version_manager self'))
    = metadata_files (VersionManager.disk (ModelManager.version_manager self)) ∧
    registry_files (VersionManager.disk (ModelManager.version_manager self'))
    = registry_files (VersionManager.disk (ModelManager.version_manager self)).
Proof.
  unfold ModelManager.clock_now, now. run.
  destruct (clock _); eexists; (split; [reflexivity|]); by repeat split.
Qed.

(** X16.  [cleanup_old_models], when the cutoff date can be computed and
    every key of the table of load times was built by [get_model_key]: it
    does not raise; no model whose load time is before the cutoff is loaded
    afterwards, while the models without such a load time and their entries
    in the other tables stay as they are; the files and the metadata cache
    of the version manager are not touched. *)
Theorem cleanup_old_models_effect days_before max_age_days cutoff_date
    (self : ModelManager.t) :
  let v := ModelManager.version_manager self in
  days_before (default 0 (head (clock (VersionManager.disk v)))) max_age_days
  = inr cutoff_date →
  (∀ key, is_Some (ModelManager._load_times self !! key) → key_built key) →
  ∃ self',
    ModelManager.cleanup_old_models days_before max_age_days self
    = (inr tt, self') ∧
    (∀ k load_time,
       ModelManager._load_times self !! k = Some load_time →
       load_time < cutoff_date →
       ModelManager._loaded_models self' !! k = None) ∧
    (∀ k,
       (∀ load_time, ModelManager._load_times self !! k = Some load_time →
                     cutoff_date ≤ load_time) →
       ModelManager._loaded_models self' !! k
       = ModelManager._loaded_models self !! k ∧
       side_tables self' k = side_tables self k) ∧
    VersionManager._metadata_cache (ModelManager.version_manager self')
    = VersionManager._metadata_cache v ∧
    files (VersionManager.disk (ModelManager.version_manager self'))
    = files (VersionManager.disk v) ∧
    metadata_files (VersionManager.disk (ModelManager.version_manager self'))
    = metadata_files (VersionManager.disk v) ∧
    registry_files (VersionManager.disk (ModelManager.version_manager self'))
    = registry_files (VersionManager.disk v).
Proof.
  intros v Hcutoff Hbuilt.
  destruct (clock_now_reading self)
    as (s1 & Hnow & Hl1 & Ht1 & Hs1 & Hc1 & Hf1 & Hm1 & Hr1).
  unfold ModelManager.cleanup_old_models.
  unfold mbind, M_bind, bind, gets, lift. rewrite Hnow. fold v.
  rewrite Hcutoff. cbn [id]. rewrite Ht1.
  set (old_models :=
         (filter (λ kv : string * Z, kv.2 < cutoff_date)
            (map_to_list (ModelManager._load_times self))).*1).
  assert (Hold : ∀ k, k ∈ old_models
                      ↔ ∃ load_time,
                          ModelManager._load_times self !! k = Some load_time
                          ∧ load_time < cutoff_date).
  { intros k. unfold old_models. rewrite list_elem_of_fmap. split.
    - intros [[k' t] [-> [Hlt Hin]%list_elem_of_filter]].
      apply elem_of_map_to_list in Hin. eauto.
    - intros (t & Hk & Hlt). exists (k, t). split; [done|].
      apply list_elem_of_filter. split; [done|].
      by apply elem_of_map_to_list. }
  destruct (unload_keys_run old_models s1) as (self' & Hrun & Hvm & Hl & Ht).
  { intros key (t & Hk & _)%Hold. apply Hbuilt. eauto. }
  exists self'. split; [exact Hrun|]. rewrite Hvm.
  split; [|split; [|done]].
  - intros k t Hk Hlt. rewrite Hl, decide_True; [done|].
    apply Hold. eauto.
  - intros k Hyoung.
    assert (Hnin : k ∉ old_models).
    { intros (t & Hk & Hlt)%Hold. specialize (Hyoung t Hk). lia. }
    rewrite Hl, Ht, decide_False by done.
    rewrite decide_False by (by intros [? _]).
    by rewrite Hl1, Hs1.
Qed.

End Reports.
(** ** model_manager.py: inference statistics and reports *)

Section Statistics.

(** X17.  [_track_inference_time] keeps a bounded history: after the call
    the list under the key has at most 100 measurements, whatever it held
    before; it ends with the new measurement and is the end of the old list
    followed by the new measurement, all of it when the old list had fewer
    than 100; the lists under the other keys and the table of loaded models
    are not touched. *)
Theorem track_inference_time_bounded model_key time_ms (self : ModelManager.t) :
  let old := default [] (ModelManager._inference_stats self !! model_key) in
  ∃ self' times,
    ModelManager._track_inference_time model_key time_ms self
    = (inr tt, self') ∧
    ModelManager._inference_stats self' !! model_key = Some times ∧
    (length times ≤ 100)%nat ∧
    last times = Some time_ms ∧
    times `suffix_of` (old ++ [time_ms])%list ∧
    ((length old < 100)%nat → times = (old ++ [time_ms])%list) ∧
    (∀ k, k ≠ model_key →
          ModelManager._inference_stats self' !! k
          = ModelManager._inference_stats self !! k) ∧
    ModelManager._loaded_models self' = ModelManager._loaded_models self.
Proof.
  intros old. unfold ModelManager._track_inference_time, modify.
  fold old. do 2 eexists. split; [reflexivity|]. simpl.
  rewrite lookup_insert_eq. split; [reflexivity|].
  case_bool_decide as Hlen.
  - rewrite length_app in Hlen. simpl in Hlen.
    split; [rewrite length_drop, length_app; simpl; lia|].
    split.
    { rewrite length_app, drop_app_le by (simpl; lia). apply last_snoc. }
    split; [apply suffix_drop|]. split; [lia|].
    split; [|done]. intros k Hk. by rewrite lookup_insert_ne.
  - rewrite length_app in Hlen. simpl in Hlen.
    split; [rewrite length_app; simpl; lia|].
    split; [by rewrite last_snoc|]. split; [done|]. split; [done|].
    split; [|done]. intros k Hk. by rewrite lookup_insert_ne.
Qed.

End Statistics.
Section LoadedReports.

Lemma loaded_infos_run load_times models :
  (∀ km, km ∈ models → key_built km.1) →
  ∃ infos,
    ModelManager.loaded_infos load_times models = inr infos ∧
    length infos = length models ∧
    ∀ T n w model,
      has_colon w = false →
      (ModelManager.get_model_key T n w, model) ∈ models →
      {| ModelManager.li_model_type := ModelType_value T;
         ModelManager.li_name := n;
         ModelManager.li_version := w;
         ModelManager.li_loaded_at :=
           load_times !! ModelManager.get_model_key T n w;
         ModelManager.li_memory_usage_mb :=
           memory_requirement_mb (ModelManager.lm_metadata model) |}
      ∈ infos.
Proof.
  induction models as [|[key model] models IH]; intros Hbuilt.
  { exists []. split; [done|]. split; [done|].
    by intros ? ? ? ? _ ?%elem_of_nil. }
  destruct IH as (infos & Hrun & Hlen & Hin).
  { intros km Hkm. apply Hbuilt. by right. }
  destruct (Hbuilt (key, model)) as (T & n & w & Hkey); [by left|].
  simpl in Hkey. subst key.
  destruct (unpack_model_key_get T n w) as (n' & w' & Hun & Hkey & Hsame).
  cbn [ModelManager.loaded_infos]. rewrite Hun, Hrun.
  eexists. split; [reflexivity|]. split; [simpl; by rewrite Hlen|].
  intros T0 n0 w0 model0 Hw0 [Heq|Hrest]%elem_of_cons; [|right; by eapply Hin].
  injection Heq as Heq ->.
  destruct (unpack_model_key_get T0 n0 w0) as (n1 & w1 & Hun1 & _ & Hsame1).
  destruct (Hsame1 Hw0) as [-> ->]. rewrite Heq, Hun in Hun1.
  injection Hun1 as HT -> ->. rewrite Heq, <- HT. by left.
Qed.

(** X18.  [get_loaded_models], when every key of the table of loaded models
    was built by [get_model_key]: it does not raise and changes nothing; it
    reports one entry for each loaded model, and a model loaded under a
    version without a colon is reported with its type, its name (which may
    hold colons), its version, its load time and the memory requirement of
    its metadata. *)
Theorem get_loaded_models_reports (self : ModelManager.t) :
  (∀ key, is_Some (ModelManager._loaded_models self !! key) →
          key_built key) →
  ∃ infos,
    ModelManager.get_loaded_models self = (inr infos, self) ∧
    length infos = size (ModelManager._loaded_models self) ∧
    ∀ T n w model,
      has_colon w = false →
      ModelManager._loaded_models self !! ModelManager.get_model_key T n w
      = Some model →
      {| ModelManager.li_model_type := ModelType_value T;
         ModelManager.li_name := n;
         ModelManager.li_version := w;
         ModelManager.li_loaded_at :=
           ModelManager._load_times self !! ModelManager.get_model_key T n w;
         ModelManager.li_memory_usage_mb :=
           memory_requirement_mb (ModelManager.lm_metadata model) |}
      ∈ infos.
Proof.
  intros Hbuilt.
  destruct (loaded_infos_run (ModelManager._load_times self)
              (map_to_list (ModelManager._loaded_models self)))
    as (infos & Hrun & Hlen & Hin).
  { intros [k model] Hk%elem_of_map_to_list. apply Hbuilt. by exists model. }
  exists infos. split.
  { unfold ModelManager.get_loaded_models. run. by rewrite Hrun. }
  split; [by rewrite Hlen, length_map_to_list|].
  intros T n w model Hw Hk. apply Hin; [done|]. by apply elem_of_map_to_list.
Qed.

End LoadedReports.
Section MemoryUsage.
Context `{Externals}.
Variable truediv : Z → Z → Q.

Lemma fold_left_sum_of {A} (f : A → Z) l acc :
  fold_left (λ acc x, acc + f x) l acc = acc + sum_of f l.
Proof.
  unfold sum_of. revert acc. induction l as [|x l IH]; intros acc; simpl;
    [lia|]. rewrite IH. lia.
Qed.

Lemma sum_of_insert {A} (f : string * A → Z) (m : gmap string A) k x :
  m !! k = None →
  sum_of f (map_to_list (<[k := x]> m)) = f (k, x) + sum_of f (map_to_list m).
Proof.
  intros Hk. by rewrite (sum_of_perm f _ _ (map_to_list_insert _ _ _ Hk)).
Qed.

Lemma get_memory_usage_run (self : ModelManager.t) :
  ModelManager.get_memory_usage truediv self
  = (inr {| ModelManager.loaded_models_count :=
              size (ModelManager._loaded_models self);
            ModelManager.total_memory_mb :=
              sum_of (λ model, memory_requirement_mb
                                (ModelManager.lm_metadata model.2))
                (map_to_list (ModelManager._loaded_models self));
            ModelManager.average_memory_per_model_mb :=
              if bool_decide (0 < size (ModelManager._loaded_models self))%nat
              then VFloat
                     (truediv
                        (sum_of (λ model, memory_requirement_mb
                                           (ModelManager.lm_metadata model.2))
                           (map_to_list (ModelManager._loaded_models self)))
                        (Z.of_nat (size (ModelManager._loaded_models self))))
              else VInt 0 |}, self).
Proof.
  unfold ModelManager.get_memory_usage, gets.
  by rewrite fold_left_sum_of, Z.add_0_l.
Qed.

(** X19.  [get_memory_usage] never raises and changes nothing: with nothing
    loaded it reports no model, no memory and the average 0, without
    dividing.  Loading a model successfully makes it count one model more and
    adds the memory requirement of the model's metadata to the total;
    unloading that model brings both back to what they were. *)
Theorem get_memory_usage_tracks (self : ModelManager.t) T n w metadata c :
  let v := ModelManager.version_manager self in
  let key := ModelManager.get_model_key T n w in
  resolve v T n w = Some metadata →
  (integrity v T n w).1 = true →
  config_of v T n w = Some c →
  ModelManager._loaded_models self !! key = None →
  ∃ self' self'' before loaded after,
    ModelManager.get_memory_usage truediv self = (inr before, self) ∧
    ModelManager.load_model T n (Some w) self = (inr true, self') ∧
    ModelManager.get_memory_usage truediv self' = (inr loaded, self') ∧
    ModelManager.unload_model T n w self' = (inr true, self'') ∧
    ModelManager.get_memory_usage truediv self'' = (inr after, self'') ∧
    (ModelManager._loaded_models self = ∅ →
     ModelManager.loaded_models_count before = 0%nat ∧
     ModelManager.total_memory_mb before = 0 ∧
     ModelManager.average_memory_per_model_mb before = VInt 0) ∧
    ModelManager.loaded_models_count loaded
    = S (ModelManager.loaded_models_count before) ∧
    ModelManager.total_memory_mb loaded
    = ModelManager.total_memory_mb before + memory_requirement_mb metadata ∧
    ModelManager.loaded_models_count after
    = ModelManager.loaded_models_count before ∧
    ModelManager.total_memory_mb after = ModelManager.total_memory_mb before.
Proof.
  intros v key Hres Hvalid Hconfig Hunloaded.
  destruct (load_model_success self T n w metadata c Hres Hvalid Hconfig
              Hunloaded)
    as (self' & Hrun & _ & (model & Hmodels & Hmem & _) & _).
  fold key in Hmodels.
  assert (Hafter : ModelManager._loaded_models
                     (unloaded key self') = ModelManager._loaded_models self).
  { unfold unloaded. rewrite Hmodels, lookup_insert_eq.
    rewrite bool_decide_eq_true_2 by eauto. simpl.
    rewrite Hmodels, delete_insert_eq. by apply delete_id. }
  exists self', (unloaded key self'). do 3 eexists.
  rewrite !get_memory_usage_run, unload_model_run. fold key.
  split; [reflexivity|]. split; [exact Hrun|]. split; [reflexivity|].
  split.
  { rewrite Hmodels, lookup_insert_eq, bool_decide_eq_true_2 by eauto.
    unfold unloaded.
    by rewrite Hmodels, lookup_insert_eq, bool_decide_eq_true_2 by eauto. }
  split; [reflexivity|]. cbn.
  split. { intros ->. by rewrite map_to_list_empty. }
  rewrite Hafter, Hmodels, map_size_insert_None, sum_of_insert by done.
  simpl. rewrite Hmem. repeat split; lia.
Qed.

End MemoryUsage.
(** ** config_loader.py: a configuration without findings *)

Section CleanConfig.
Context `{Externals}.

Lemma for_each_clean {A} (l : list A) (body : A → M (list string) unit) :
  (∀ x e e', body x e = (inr tt, e') → e `prefix_of` e') →
  for_each l body [] = (inr tt, []) →
  ∀ x, x ∈ l → body x [] = (inr tt, []).
Proof.
  intros Hmono Hrun x Hx.
  apply (for_each_visit prefix) in Hrun as [_ Hvisit];
    [|intros y s s' _; apply Hmono].
  destruct (Hvisit x Hx) as (e1 & e2 & He1 & Hturn & He2).
  apply prefix_nil_inv in He2 as ->.
  apply Hmono in Hturn as He1'. apply prefix_nil_inv in He1' as ->.
  exact Hturn.
Qed.

Lemma validate_version_clean t n ver vd :
  ConfigLoader.validate_version t n ver vd [] = (inr tt, []) →
  contains (VStr "model_source") vd = inr true ∧
  contains (VStr "memory_requirement_mb") vd = inr true.
Proof.
  unfold ConfigLoader.validate_version, ConfigLoader.append_error. run.
  destruct (contains (VStr "model_source") vd) as [?|[]];
    destruct (contains (VStr "memory_requirement_mb") vd) as [?|[]];
    simpl; intros [=]; done.
Qed.

Lemma validate_model_clean t n model_def :
  ConfigLoader.validate_model t n model_def [] = (inr tt, []) →
  ∃ md vs,
    model_def = VDict md ∧
    dict_lookup "versions" md = Some (VDict vs) ∧
    (∃ dv, dict_lookup "default_version" md = Some dv ∧
           (truthy dv = true →
            ∃ s, dv = VStr s ∧ is_Some (dict_lookup s vs))) ∧
    ∀ ver vd, (ver, vd) ∈ vs →
      contains (VStr "model_source") vd = inr true ∧
      contains (VStr "memory_requirement_mb") vd = inr true.
Proof.
  intros Hrun.
  assert (Hdict : ∃ md, model_def = VDict md).
  { revert Hrun.
    unfold ConfigLoader.validate_model, ConfigLoader.append_error. run.
    destruct model_def as [| | | | |l|md]; simpl; try discriminate;
      [|eauto|eauto].
    - destruct (is_substring "versions" s); simpl; [|discriminate].
      destruct (is_substring "default_version" s); simpl; discriminate.
    - destruct (existsb _ l); simpl; [|discriminate].
      destruct (existsb _ l); simpl; discriminate. }
  destruct Hdict as [md ->]. exists md. revert Hrun.
  unfold ConfigLoader.validate_model, ConfigLoader.append_error. run.
  unfold dict_mem.
  destruct (dict_lookup "versions" md) as [versions|]; simpl;
    [|discriminate].
  destruct (dict_lookup "default_version" md) as [dv|]; simpl.
  2: { destruct versions; simpl; try discriminate.
       intros Hrun%validate_versions_mono.
       by apply prefix_nil_inv in Hrun. }
  assert (Hloop : ∀ vs,
    for_each vs
      (λ '(version, version_def),
         ConfigLoader.validate_version t n version version_def) []
    = (inr tt, []) →
    ∀ ver vd, (ver, vd) ∈ vs →
      contains (VStr "model_source") vd = inr true ∧
      contains (VStr "memory_requirement_mb") vd = inr true).
  { intros vs Hrun ver vd Hin.
    apply (validate_version_clean t n ver).
    assert (Hmono : ∀ (x : string * value) e e',
              (let '(version, version_def) := x in
               ConfigLoader.validate_version t n version version_def) e
              = (inr tt, e') → e `prefix_of` e').
    { intros [? ?] ? ?. apply validate_version_mono. }
    exact (for_each_clean vs _ Hmono Hrun (ver, vd) Hin). }
  destruct (truthy dv) eqn:Htruthy; simpl.
  - destruct (contains dv versions) as [?|found] eqn:Hfound; simpl;
      [discriminate|].
    destruct found; simpl.
    + destruct versions as [| | | | | |vs]; simpl; try discriminate.
      intros Hrun. exists vs. split; [done|]. split; [done|]. split.
      * exists dv. split; [done|]. intros _.
        destruct dv as [| | | |s| |]; simpl in Hfound; try discriminate.
        exists s. split; [done|]. injection Hfound as Hfound.
        unfold dict_mem in Hfound.
        by destruct (dict_lookup s vs).
      * by apply Hloop.
    + destruct versions; simpl; try discriminate.
      intros Hrun%validate_versions_mono.
      by apply prefix_nil_inv in Hrun.
  - destruct versions as [| | | | | |vs]; simpl; try discriminate.
    intros Hrun. exists vs. split; [done|]. split; [done|]. split.
    + exists dv. split; [done|]. congruence.
    + by apply Hloop.
Qed.

(** X20.  A configuration for which [validate_config] returns no error is
    well formed: it is a dictionary whose [model_definitions] is a
    dictionary; every model type in it is a recognised one and holds a
    dictionary of models; every model is a dictionary with [versions], a
    dictionary, and with [default_version], which is falsy or a string that
    is a key of [versions]; and every version definition holds
    [model_source] and [memory_requirement_mb]. *)
Theorem validate_config_no_findings config_data :
  ConfigLoader.validate_config config_data = inr [] →
  ∃ d defs,
    config_data = VDict d ∧
    dict_lookup "model_definitions" d = Some (VDict defs) ∧
    ∀ t models, (t, models) ∈ defs →
      is_ok (ModelType_of_value t) = true ∧
      ∃ ms,
        models = VDict ms ∧
        ∀ n model_def, (n, model_def) ∈ ms →
          ∃ md vs,
            model_def = VDict md ∧
            dict_lookup "versions" md = Some (VDict vs) ∧
            (∃ dv, dict_lookup "default_version" md = Some dv ∧
                   (truthy dv = true →
                    ∃ s, dv = VStr s ∧ is_Some (dict_lookup s vs))) ∧
            ∀ ver vd, (ver, vd) ∈ vs →
              contains (VStr "model_source") vd = inr true ∧
              contains (VStr "memory_requirement_mb") vd = inr true.
Proof.
  unfold ConfigLoader.validate_config.
  destruct (ConfigLoader.validate_config_body config_data [])
    as [[e|[]] errors] eqn:Hrun; [discriminate|].
  intros [= ->]. revert Hrun.
  unfold ConfigLoader.validate_config_body, ConfigLoader.append_error. run.
  destruct (truthy config_data) eqn:Htruthy; simpl; [|discriminate].
  destruct (contains (VStr "model_definitions") config_data)
    as [?|[]] eqn:Hhas; simpl; [discriminate | | discriminate].
  destruct (getitem config_data "model_definitions") as [?|definitions]
    eqn:Hget; simpl; [discriminate|].
  destruct config_data as [| | | | | |d]; simpl in Hget; try discriminate.
  destruct (dict_lookup "model_definitions" d) as [x|] eqn:Hdefs;
    [|discriminate].
  injection Hget as ->.
  destruct definitions as [| | | | | |defs]; simpl; try discriminate.
  intros Hrun. exists d, defs. split; [done|]. split; [done|].
  intros t models Hin.
  assert (Hmono : ∀ (x : string * value) e e',
            (let '(model_type_str, models) := x in
             match ModelType_of_value model_type_str with
             | inl _ =>
                 ConfigLoader.append_error
                   ("Invalid model type: " +:+ model_type_str)
             | inr _ =>
                 models ← lift (items models);
                 for_each models
                   (λ '(model_name, model_def),
                      ConfigLoader.validate_model model_type_str model_name
                        model_def)
             end) e = (inr tt, e') → e `prefix_of` e').
  { intros [t' models'] e e'. destruct (ModelType_of_value t').
    - unfold ConfigLoader.append_error. run. intros [= <-].
      apply append_error_prefix.
    - run. destruct (items models'); [discriminate|].
      apply validate_models_mono. }
  pose proof (for_each_clean defs _ Hmono Hrun (t, models) Hin) as Hturn.
  simpl in Hturn.
  destruct (ModelType_of_value t) as [?|T].
  { revert Hturn. unfold ConfigLoader.append_error. run. discriminate. }
  split; [done|]. revert Hturn. run.
  destruct models as [| | | | | |ms]; simpl; try discriminate.
  intros Hmodels. exists ms. split; [done|]. intros n model_def Hn.
  apply (validate_model_clean t n).
  assert (Hmono' : ∀ (x : string * value) e e',
            (let '(model_name, model_def) := x in
             ConfigLoader.validate_model t model_name model_def) e
            = (inr tt, e') → e `prefix_of` e').
  { intros [? ?] ? ?. apply validate_model_mono. }
  exact (for_each_clean ms _ Hmono' Hmodels (n, model_def) Hn).
Qed.

End CleanConfig.


(** ** config_loader.py: reading definitions *)

Section Definitions.

Lemma dict_lookup_elem_of {A} k (x : A) d :
  dict_lookup k d = Some x → (k, x) ∈ d.
Proof.
  induction d as [|[k' x'] d IH]; simpl; [discriminate|].
  destruct (String.eqb_spec k k') as [->|Hne].
  - intros [= ->]. by left.
  - intros Hx. right. by apply IH.
Qed.

Lemma dict_lookup_unique {A} k (x : A) d :
  NoDup d.*1 → (k, x) ∈ d → dict_lookup k d = Some x.
Proof.
  induction d as [|[k' x'] d IH]; simpl; [by intros _ ?%elem_of_nil|].
  rewrite NoDup_cons. intros [Hnotin Hnd] [Heq|Hin]%elem_of_cons.
  - injection Heq as -> ->. by rewrite String.eqb_refl.
  - destruct (String.eqb_spec k k') as [->|Hne]; [|by apply IH].
    destruct Hnotin. apply list_elem_of_fmap. by exists (k', x).
Qed.

Lemma keys_unique_dict d :
  keys_unique (VDict d) = true →
  NoDup d.*1 ∧ ∀ k x, (k, x) ∈ d → keys_unique x = true.
Proof.
  simpl. intros [Hnd Hall]%andb_prop. split; [by apply bool_decide_eq_true in Hnd|].
  clear Hnd. induction d as [|[k' x'] d IH]; [by intros ? ? ?%elem_of_nil|].
  apply andb_prop in Hall as [Hx Hall].
  intros k x [Heq|Hin]%elem_of_cons; [by simplify_eq | by eapply IH].
Qed.

Arguments dict_lookup : simpl never.

(** X21.  [get_version_definition] and the loop of
    [initialize_models_from_config] see the same versions.  A definition
    that [get_version_definition] returns (other than [None]) is that of a
    version the loop visits, under the same type, name and version.
    Conversely, in a document whose dictionaries have each key once, every
    version the loop visits is found by [get_version_definition], with its
    definition.  On a document of the declared shape
    [get_version_definition] does not raise. *)
Theorem get_version_definition_declared config_data :
  (∀ T n v vd,
     ConfigLoader.get_version_definition config_data T n v = inr vd →
     vd ≠ VNone →
     ∃ d, d ∈ declared_versions config_data ∧
          d_type d = T ∧ d_name d = n ∧ d_version d = v ∧ d_def d = vd) ∧
  (keys_unique config_data = true →
   ∀ d, d ∈ declared_versions config_data →
        ConfigLoader.get_version_definition config_data (d_type d) (d_name d)
          (d_version d) = inr (d_def d)) ∧
  (declared_shape config_data = true →
   ∀ T n v,
     is_ok (ConfigLoader.get_version_definition config_data T n v) = true).
Proof.
  split; [|split].
  - intros T n v vd.
    unfold ConfigLoader.get_version_definition,
      ConfigLoader.get_model_definition, ConfigLoader.except_KeyError,
      declared_versions.
    destruct config_data as [| | | | | |cd]; simpl; try discriminate.
    destruct (dict_lookup "model_definitions" cd) as [definitions|];
      simpl; [|by intros [= <-]].
    destruct definitions as [| | | | | |defs]; simpl; try discriminate.
    destruct (dict_lookup (ModelType_value T) defs) as [models|] eqn:Hmodels;
      simpl; [|by intros [= <-]].
    destruct models as [| | | | | |ms]; simpl; try discriminate.
    destruct (dict_lookup n ms) as [model_def|] eqn:Hmodel; simpl;
      [|by intros [= <-]].
    destruct (truthy model_def); simpl; [|by intros [= <-]].
    destruct model_def as [| | | | | |md]; simpl; try discriminate.
    destruct (dict_lookup "versions" md) as [versions|] eqn:Hversions;
      simpl; [|by intros [= <-]].
    destruct versions as [| | | | | |vs]; simpl; try discriminate.
    destruct (dict_lookup v vs) as [x|] eqn:Hv; simpl; [|by intros [= <-]].
    intros [= ->] _.
    exists {| d_type_str := ModelType_value T; d_type := T; d_name := n;
              d_version := v; d_def := vd |}.
    split; [|done].
    apply list_elem_of_bind. exists (ModelType_value T, VDict ms).
    split; [|by apply dict_lookup_elem_of].
    unfold declared_of_type. simpl. rewrite ModelType_of_value_value.
    apply list_elem_of_bind. exists (n, VDict md).
    split; [|by apply dict_lookup_elem_of].
    unfold declared_of_model. simpl. rewrite Hversions.
    apply list_elem_of_fmap. exists (v, vd).
    split; [done|]. by apply dict_lookup_elem_of.
  - intros Hunique d Hd.
    pose proof (declared_versions_type config_data d Hd) as Htype.
    unfold declared_versions in Hd.
    destruct config_data as [| | | | | |cd]; try by inversion Hd.
    apply keys_unique_dict in Hunique as [_ Hcd].
    destruct (dict_lookup "model_definitions" cd) as [definitions|] eqn:Hdefs;
      [|by inversion Hd].
    pose proof (Hcd _ _ (dict_lookup_elem_of _ _ _ Hdefs)) as Hu1.
    destruct definitions as [| | | | | |defs]; try by inversion Hd.
    apply keys_unique_dict in Hu1 as [Hnd1 Hu1].
    apply list_elem_of_bind in Hd as ([t models] & Hd & Ht).
    unfold declared_of_type in Hd. simpl in Hd.
    destruct (ModelType_of_value t) as [?|T] eqn:HT; [by inversion Hd|].
    destruct models as [| | | | | |ms]; try by inversion Hd.
    pose proof (Hu1 _ _ Ht) as Hu2.
    apply keys_unique_dict in Hu2 as [Hnd2 Hu2].
    apply list_elem_of_bind in Hd as ([n model_def] & Hd & Hn).
    unfold declared_of_model in Hd. simpl in Hd.
    destruct model_def as [| | | | | |md]; try by inversion Hd.
    pose proof (Hu2 _ _ Hn) as Hu3.
    apply keys_unique_dict in Hu3 as [_ Hu3].
    destruct (dict_lookup "versions" md) as [versions|] eqn:Hversions;
      [|by inversion Hd].
    destruct versions as [| | | | | |vs]; try by inversion Hd.
    pose proof (Hu3 _ _ (dict_lookup_elem_of _ _ _ Hversions)) as Hu4.
    apply keys_unique_dict in Hu4 as [Hnd3 _].
    apply list_elem_of_fmap in Hd as ([v vd] & -> & Hv). simpl in *.
    apply ModelType_of_value_inr in HT. subst t.
    unfold ConfigLoader.get_version_definition,
      ConfigLoader.get_model_definition, ConfigLoader.except_KeyError.
    simpl. rewrite Hdefs. simpl.
    rewrite (dict_lookup_unique _ _ _ Hnd1 Ht). simpl.
    rewrite (dict_lookup_unique _ _ _ Hnd2 Hn). simpl.
    destruct md as [|kv md']; [discriminate|]. simpl.
    rewrite Hversions. simpl.
    by rewrite (dict_lookup_unique _ _ _ Hnd3 Hv).
  - intros Hshape T n v. revert Hshape.
    unfold ConfigLoader.get_version_definition,
      ConfigLoader.get_model_definition, ConfigLoader.except_KeyError,
      declared_shape.
    destruct config_data as [| | | | | |cd]; simpl; try discriminate.
    destruct (dict_lookup "model_definitions" cd) as [definitions|];
      simpl; [|done].
    destruct definitions as [| | | | | |defs]; simpl; try discriminate.
    intros Hdefs. rewrite forallb_forall in Hdefs.
    destruct (dict_lookup (ModelType_value T) defs) as [models|] eqn:Hmodels;
      simpl; [|done].
    apply dict_lookup_elem_of, list_elem_of_In, Hdefs in Hmodels.
    unfold models_shape in Hmodels. simpl in Hmodels.
    rewrite ModelType_of_value_value in Hmodels.
    destruct models as [| | | | | |ms]; simpl; try discriminate.
    rewrite forallb_forall in Hmodels.
    destruct (dict_lookup n ms) as [model_def|] eqn:Hmodel; simpl; [|done].
    apply dict_lookup_elem_of, list_elem_of_In, Hmodels in Hmodel.
    simpl in Hmodel.
    destruct model_def as [| | | | | |md]; simpl in *; try discriminate.
    destruct md as [|kv md']; [done|]. simpl.
    destruct (dict_lookup "versions" (kv :: md')) as [versions|];
      simpl; [|done].
    destruct versions as [| | | | | |vs]; simpl; try discriminate.
    by destruct (dict_lookup v vs).
Qed.

End Definitions.
(** ** The keyword arguments of the [ModelConfig] constructor *)

Section Keywords.
Context `{Externals}.

Lemma dict_lookup_set {A} k k' (x : A) d :
  dict_lookup k (dict_set k' x d)
  = if String.eqb k k' then Some x else dict_lookup k d.
Proof.
  induction d as [|[k0 x0] d IH]; simpl.
  - by destruct (String.eqb k k').
  - destruct (String.eqb_spec k' k0) as [->|Hne]; simpl.
    + by destruct (String.eqb k k0).
    + rewrite IH. destruct (String.eqb_spec k k0) as [->|Hne'];
        [|done]. by rewrite (proj2 (String.eqb_neq _ _)) by done.
Qed.

(** [d.update(e)] on a dictionary [e] whose keys are distinct: the value of
    [e] where it has the key, that of [d] elsewhere. *)
Lemma dict_lookup_update {A} k (d e : list (string * A)) :
  NoDup e.*1 →
  dict_lookup k (dict_update d e)
  = match dict_lookup k e with
    | Some x => Some x
    | None => dict_lookup k d
    end.
Proof.
  unfold dict_update. revert d.
  induction e as [|[k' x'] e IH]; intros d; simpl; [done|].
  rewrite NoDup_cons. intros [Hnotin Hnd]. rewrite (IH _ Hnd).
  rewrite dict_lookup_set.
  destruct (String.eqb_spec k k') as [->|Hne]; [|done].
  destruct (dict_lookup k' e) as [x|] eqn:Hx; [|done].
  destruct Hnotin. apply list_elem_of_fmap. exists (k', x).
  split; [done|]. clear IH Hnd.
  induction e as [|[k0 x0] e IH]; simpl in Hx; [discriminate|].
  destruct (String.eqb_spec k' k0) as [->|Hne].
  - injection Hx as ->. by left.
  - right. by apply IH.
Qed.

Lemma identity_keywords (kw : list (string * value)) T n v :
  let kw' := dict_update kw [("model_type", VStr (ModelType_value T));
                             ("name", VStr n); ("version", VStr v)] in
  dict_lookup "model_type" kw' = Some (VStr (ModelType_value T)) ∧
  dict_lookup "name" kw' = Some (VStr n) ∧
  dict_lookup "version" kw' = Some (VStr v) ∧
  ∀ k, k ∉ ["model_type"; "name"; "version"] →
       dict_lookup k kw' = dict_lookup k kw.
Proof.
  intros kw'. subst kw'.
  assert (Hnd : NoDup [("model_type", VStr (ModelType_value T));
                       ("name", VStr n); ("version", VStr v)].*1).
  { apply (bool_decide_unpack _). by vm_compute. }
  repeat split; try (by rewrite (dict_lookup_update _ _ _ Hnd)).
  intros k Hk. rewrite (dict_lookup_update _ _ _ Hnd). simpl.
  rewrite !not_elem_of_cons in Hk. destruct Hk as (H1 & H2 & H3 & _).
  by rewrite !(proj2 (String.eqb_neq _ _)) by done.
Qed.

(** X22.  A configuration that [create_model_config] returns was built by
    the constructor from keyword arguments that carry the requested model
    type, name and version, whatever the global settings and the
    configuration of the version hold under these keys; its temperature and
    top-p are each NaN, which the validators let pass, or within their
    ranges (above 0, at most 2 and 1). *)
Theorem create_model_config_identity config_data T n v c :
  ConfigLoader.create_model_config config_data T n v = inr (Some c) →
  ∃ kw,
    ModelConfig_init kw = inr c ∧
    dict_lookup "model_type" kw = Some (VStr (ModelType_value T)) ∧
    dict_lookup "name" kw = Some (VStr n) ∧
    dict_lookup "version" kw = Some (VStr v) ∧
    nan_or_within 0 2 (temperature c) ∧ nan_or_within 0 1 (top_p c).
Proof.
  unfold ConfigLoader.create_model_config.
  destruct (ConfigLoader.get_version_definition config_data T n v)
    as [?|version_def]; [discriminate|].
  destruct (negb (truthy version_def)); [discriminate|].
  destruct (get_default config_data "global_config" (VDict []))
    as [?|[| | | | | |global_config]]; try discriminate.
  destruct (contains (VStr "config") version_def) as [?|has_config];
    [discriminate|].
  match goal with
  | |- context [match ?layer with Some _ => _ | None => None end] =>
      destruct layer as [kw|]; [|discriminate]
  end.
  destruct (ModelConfig_init _) as [?|c'] eqn:Hinit; [discriminate|].
  intros [= ->]. eexists. split; [exact Hinit|].
  destruct (identity_keywords kw T n v) as (Ht & Hn & Hv & _).
  split; [exact Ht|]. split; [exact Hn|]. split; [exact Hv|].
  by eapply ModelConfig_init_range.
Qed.

(** X23.  [get_model_config] merges the stored configuration over the
    requested identity: the configuration it returns was built by the
    constructor from keyword arguments in which every key of the stored
    configuration has the stored value, also [model_type], [name] and
    [version], and only the keys the stored configuration leaves out have
    the requested type, name and version. *)
Theorem get_model_config_stored_wins self T n v metadata c :
  resolve self T n v = Some metadata →
  NoDup (config metadata).*1 →
  config_of self T n v = Some c →
  ∃ kw,
    ModelConfig_init kw = inr c ∧
    ∀ k, dict_lookup k kw
         = match dict_lookup k (config metadata) with
           | Some x => Some x
           | None =>
               dict_lookup k [("model_type", VStr (ModelType_value T));
                              ("name", VStr n); ("version", VStr v)]
           end.
Proof.
  intros Hres Hnd. unfold config_of, VersionManager.get_model_config. run.
  rewrite get_model_metadata_run, Hres.
  destruct (ModelConfig_init _) as [?|c'] eqn:Hinit; [discriminate|].
  intros [= ->]. eexists. split; [exact Hinit|]. intros k.
  destruct (config metadata) as [|kv stored] eqn:Hconfig; [done|].
  by rewrite dict_lookup_update.
Qed.

End Keywords.
(** ** config_loader.py: reconciling twice *)

Section ReconcileTwice.
Context `{Externals}.

(** One run of the loop over the declared versions, from an empty result. *)
Lemma initialize_models_from_config_turns config_data self :
  declared_shape config_data = true →
  NoDup (cache_key <$> declared_versions config_data) →
  NoDup (directory self <$> declared_versions config_data) →
  let s := {| ConfigLoader.results := ∅; ConfigLoader.manager := self |} in
  ∃ s',
    ConfigLoader.initialize_models_from_config config_data self
    = (inr (ConfigLoader.results s'), ConfigLoader.manager s') ∧
    ∀ d, d ∈ declared_versions config_data →
         ∃ t t', turn d t = (inr tt, t') ∧ held t d = held s d
                 ∧ held s' d = held t' d.
Proof.
  intros Hshape Hkeys Hdirs s.
  destruct (turns_run (declared_versions config_data) s)
    as (s' & Hrun & _ & Hvisit); [|done|done|].
  { apply result_keys_NoDup; [|done].
    intros d Hd. by eapply declared_versions_type. }
  exists s'. split; [|exact Hvisit].
  unfold ConfigLoader.initialize_models_from_config. fold s.
  by rewrite loop_flatten, Hrun.
Qed.

(** A version whose turn gave the result true resolves afterwards. *)
Lemma turn_true_resolves d t t' :
  turn d t = (inr tt, t') →
  ConfigLoader.results t' !! result_key d = Some true →
  is_Some (resolve (ConfigLoader.manager t') (d_type d) (d_name d)
             (d_version d)).
Proof.
  intros Hturn Htrue.
  pose proof (turn_reconciled d t t' Hturn) as (_ & Hplain & Hmock).
  destruct (turn_run d t) as (t1 & Hrun & Heffect).
  rewrite Hturn in Hrun. injection Hrun as <-.
  destruct (resolve (ConfigLoader.manager t) (d_type d) (d_name d)
              (d_version d)) as [metadata|] eqn:Hres.
  - destruct Heffect as [_ ->]. exists metadata.
    by apply resolve_cached, resolve_after_resolve.
  - destruct (is_mock (d_def d)) eqn:Hm.
    + destruct (Hmock eq_refl eq_refl) as (ok & Hok & _ & Hreg & _).
      rewrite Htrue in Hok. injection Hok as <-.
      destruct (Hreg eq_refl) as (metadata & Hres' & _). eauto.
    + destruct (Hplain eq_refl eq_refl) as [Hfalse _]. congruence.
Qed.

(** X24.  Reconciling twice: on a configuration document of the declared
    shape in which no two declared versions have the same name:version pair
    or the same directory, a second run of [initialize_models_from_config]
    on the version manager the first run leaves does not raise, reports true
    again for every declared version the first run reported true, and writes
    nothing for these versions. *)
Theorem initialize_models_from_config_twice config_data self :
  declared_shape config_data = true →
  NoDup (cache_key <$> declared_versions config_data) →
  NoDup (directory self <$> declared_versions config_data) →
  ∃ results self' results' self'',
    ConfigLoader.initialize_models_from_config config_data self
    = (inr results, self') ∧
    ConfigLoader.initialize_models_from_config config_data self'
    = (inr results', self'') ∧
    ∀ d, d ∈ declared_versions config_data →
         results !! result_key d = Some true →
         results' !! result_key d = Some true ∧
         nothing_written self' self'' d.
Proof.
  intros Hshape Hkeys Hdirs.
  destruct (initialize_models_from_config_turns config_data self Hshape Hkeys
              Hdirs) as (s1 & Hrun1 & Hvisit1).
  assert (Hbase : declared_versions config_data ≠ [] →
            VersionManager.models_base_path (ConfigLoader.manager s1)
            = VersionManager.models_base_path self).
  { destruct (declared_versions config_data) as [|d0 decls] eqn:Hdecls;
      [done|]. intros _.
    destruct (Hvisit1 d0) as (t & t' & Hturn & Ht & Ht'); [by left|].
    apply held_inv in Ht as (Hb & _), Ht' as (Hb' & _).
    destruct (turn_changes_only d0 t t' Hturn) as [(Hb'' & _) _].
    simpl in *. congruence. }
  assert (Hdirs1 : NoDup (directory (ConfigLoader.manager s1)
                            <$> declared_versions config_data)).
  { destruct (declared_versions config_data) as [|d0 decls] eqn:Hdecls;
      [constructor|].
    rewrite (list_fmap_ext _ (directory self)); [done|].
    intros _ d _. by apply directory_base, Hbase. }
  destruct (initialize_models_from_config_turns config_data
              (ConfigLoader.manager s1) Hshape Hkeys Hdirs1)
    as (s2 & Hrun2 & Hvisit2).
  exists (ConfigLoader.results s1), (ConfigLoader.manager s1),
    (ConfigLoader.results s2), (ConfigLoader.manager s2).
  split; [exact Hrun1|]. split; [exact Hrun2|].
  intros d Hd Htrue.
  destruct (Hvisit1 d Hd) as (t & t' & Hturn & Ht & Ht').
  assert (Hres1 : is_Some (resolve (ConfigLoader.manager s1) (d_type d)
                             (d_name d) (d_version d))).
  { rewrite (resolve_held _ _ _ Ht'). apply (turn_true_resolves d t t' Hturn).
    apply held_inv in Ht' as (_ & _ & <- & _). exact Htrue. }
  destruct (Hvisit2 d Hd) as (u & u' & Hturn2 & Hu & Hu').
  pose proof (reconciled_held _ u _ u' d (eq_sym Hu) Hu') as Hrec.
  simpl in Hrec.
  destruct Hrec as (Hthere & _).
  - by destruct (turn_changes_only d u u' Hturn2) as [(? & _) _].
  - by apply turn_reconciled.
  - by apply Hthere.
Qed.

End ReconcileTwice.
(** ** config_loader.py: the models on offer *)

Section Available.

Arguments dict_lookup : simpl never.

(** The inner loop of [list_available_models] on models of the declared
    shape: one entry for each model, with the keys of its [versions] and
    its [default_version]. *)
Lemma available_models_run ms :
  forallb (λ kv, model_def_shape kv.2) ms = true →
  ∃ entries,
    ConfigLoader.available_models ms = inr entries ∧
    length entries = length ms ∧
    ∀ n md, (n, VDict md) ∈ ms →
      VDict [("name", VStr n);
             ("versions",
              VList (VStr <$> match dict_lookup "versions" md with
                              | Some (VDict vs) => vs.*1
                              | _ => []
                              end));
             ("default_version",
              default VNone (dict_lookup "default_version" md))]
      ∈ entries.
Proof.
  induction ms as [|[n model_def] ms IH]; intros Hshape.
  { exists []. split; [done|]. split; [done|]. by intros ? ? ?%elem_of_nil. }
  simpl in Hshape. apply andb_prop in Hshape as [Hdef Hshape].
  destruct (IH Hshape) as (entries & Hrun & Hlen & Hin).
  destruct model_def as [| | | | | |md]; try discriminate.
  cbn [ConfigLoader.available_models get_default]. simpl in Hdef.
  destruct (dict_lookup "versions" md) as [versions|] eqn:Hversions; simpl.
  - destruct versions as [| | | | | |vs]; try discriminate. simpl.
    rewrite Hrun. eexists. split; [reflexivity|].
    split; [simpl; by rewrite Hlen|].
    intros n' md' [Heq|Hrest]%elem_of_cons; [|right; by apply Hin].
    injection Heq as -> ->. rewrite Hversions. by left.
  - rewrite Hrun. eexists. split; [reflexivity|].
    split; [simpl; by rewrite Hlen|].
    intros n' md' [Heq|Hrest]%elem_of_cons; [|right; by apply Hin].
    injection Heq as -> ->. rewrite Hversions. by left.
Qed.

(** X25.  [list_available_models] for one type, on a configuration document
    of the declared shape whose dictionaries have each key once: it does not
    raise and returns a dictionary with the one key of that type; every
    version the loop of [initialize_models_from_config] visits under the
    type is listed among the versions of the entry of its model, and the
    default version of that entry is what [get_default_version] answers for
    the model. *)
Theorem list_available_models_declared config_data T :
  declared_shape config_data = true →
  keys_unique config_data = true →
  ∃ entries,
    ConfigLoader.list_available_models config_data (Some T)
    = inr (VDict [(ModelType_value T, VList entries)]) ∧
    ∀ d, d ∈ declared_versions config_data → d_type d = T →
      ∃ versions dv,
        VDict [("name", VStr (d_name d)); ("versions", VList versions);
               ("default_version", dv)] ∈ entries ∧
        VStr (d_version d) ∈ versions ∧
        ConfigLoader.get_default_version config_data T (d_name d) = inr dv.
Proof.
  intros Hshape Hunique.
  destruct config_data as [| | | | | |cd]; try discriminate.
  apply keys_unique_dict in Hunique as [_ Hcd].
  unfold ConfigLoader.list_available_models, declared_versions,
    ConfigLoader.get_default_version, ConfigLoader.get_model_definition,
    ConfigLoader.except_KeyError.
  cbn [ConfigLoader.available_types get_default getitem].
  simpl in Hshape.
  destruct (dict_lookup "model_definitions" cd) as [definitions|] eqn:Hdefs;
    simpl.
  2: { eexists. split; [reflexivity|]. by intros d ?%elem_of_nil. }
  pose proof (Hcd _ _ (dict_lookup_elem_of _ _ _ Hdefs)) as Hu1.
  destruct definitions as [| | | | | |defs]; try discriminate.
  apply keys_unique_dict in Hu1 as [Hnd1 Hu1].
  rewrite forallb_forall in Hshape. simpl. unfold dict_mem.
  destruct (dict_lookup (ModelType_value T) defs) as [models|] eqn:Hmodels;
    simpl.
  2: { eexists. split; [reflexivity|].
       intros d ([t models] & Hd & Ht)%list_elem_of_bind HT.
       unfold declared_of_type in Hd. simpl in Hd.
       destruct (ModelType_of_value t) as [?|T'] eqn:HT';
         [by inversion Hd|].
       destruct models as [| | | | | |ms]; try by inversion Hd.
       apply list_elem_of_bind in Hd as ([n model_def] & Hd & _).
       unfold declared_of_model in Hd. simpl in Hd.
       destruct model_def as [| | | | | |md]; try by inversion Hd.
       destruct (dict_lookup "versions" md) as [[| | | | | |vs]|];
         try by inversion Hd.
       apply list_elem_of_fmap in Hd as ([v vd] & -> & _). simpl in HT.
       subst T'. apply ModelType_of_value_inr in HT'. subst t.
       by rewrite (dict_lookup_unique _ _ _ Hnd1 Ht) in Hmodels. }
  pose proof (dict_lookup_elem_of _ _ _ Hmodels) as Hmodels'.
  pose proof (Hshape _ (proj1 (list_elem_of_In _ _) Hmodels')) as Hms.
  unfold models_shape in Hms. simpl in Hms.
  rewrite ModelType_of_value_value in Hms.
  destruct models as [| | | | | |ms]; try discriminate. simpl.
  pose proof (Hu1 _ _ Hmodels') as Hu2.
  apply keys_unique_dict in Hu2 as [Hnd2 _].
  destruct (available_models_run ms Hms) as (entries & Hrun & _ & Hin).
  rewrite Hrun. exists entries. split; [reflexivity|].
  intros d ([t models] & Hd & Ht)%list_elem_of_bind HT.
  unfold declared_of_type in Hd. simpl in Hd.
  destruct (ModelType_of_value t) as [?|T'] eqn:HT'; [by inversion Hd|].
  destruct models as [| | | | | |ms']; try by inversion Hd.
  apply list_elem_of_bind in Hd as ([n model_def] & Hd & Hn).
  unfold declared_of_model in Hd. simpl in Hd.
  destruct model_def as [| | | | | |md]; try by inversion Hd.
  destruct (dict_lookup "versions" md) as [versions|] eqn:Hversions;
    [|by inversion Hd].
  destruct versions as [| | | | | |vs]; try by inversion Hd.
  apply list_elem_of_fmap in Hd as ([v vd] & -> & Hv). simpl in *.
  subst T'. apply ModelType_of_value_inr in HT'. subst t.
  rewrite (dict_lookup_unique _ _ _ Hnd1 Ht) in Hmodels.
  injection Hmodels as <-.
  specialize (Hin n md Hn). rewrite Hversions in Hin.
  do 2 eexists. split; [exact Hin|]. split.
  - apply list_elem_of_fmap. exists v. split; [done|].
    apply list_elem_of_fmap. by exists (v, vd).
  - rewrite (dict_lookup_unique _ _ _ Hnd2 Hn).
    destruct md as [|kv md']; [discriminate|]. reflexivity.
Qed.

End Available.
(** ** The properties at work on the example states *)

Section Witnesses.
#[local] Existing Instance Examples.libraries.

Lemma register_model_then_listed_witness :
  ∃ versions,
    VersionManager.list_versions TASK_PARSER "m"
      (Examples.register_sample TASK_PARSER "m" "v1" Examples.fresh_manager)
    = (inr versions,
       Examples.register_sample TASK_PARSER "m" "v1" Examples.fresh_manager) ∧
    "v1" ∈ versions.
Proof.
  destruct (register_model_then_listed
              (Examples.sample_metadata TASK_PARSER "m" "v1" "model.bin" [])
              Examples.fresh_manager
              (Examples.register_sample TASK_PARSER "m" "v1"
                 Examples.fresh_manager))
    as (_ & _ & versions & Hlist & Hmem).
  - by vm_compute.
  - reflexivity.
  - apply (bool_decide_unpack _). by vm_compute.
  - exists versions. split; [exact Hlist|]. apply Hmem. by left.
Defined.

Lemma update_model_status_written_witness :
  ∃ self',
    VersionManager.update_model_status TASK_PARSER "default" "v1" DEPRECATED
      Examples.sample_registered = (inr true, self') ∧
    status_of self' TASK_PARSER "default" "v1" = Some DEPRECATED.
Proof.
  destruct (update_model_status_written TASK_PARSER "default" "v1" DEPRECATED
              Examples.sample_registered
              (Examples.sample_metadata TASK_PARSER "default" "v1"
                 "model.bin" []))
    as (self' & Hrun & Hres & _).
  - by vm_compute.
  - apply (bool_decide_unpack _). by vm_compute.
  - apply (bool_decide_unpack _). by vm_compute.
  - exists self'. split; [exact Hrun|]. unfold status_of. by rewrite Hres.
Defined.

Lemma update_model_status_unwritable_witness :
  ∃ self',
    VersionManager.update_model_status TASK_PARSER "default" "v1" ERROR
      (Examples.protect "models/task_parser/default/v1/metadata.json"
         Examples.sample_registered) = (inr false, self') ∧
    status_of self' TASK_PARSER "default" "v1" = Some ERROR ∧
    status <$> stored self' TASK_PARSER "default" "v1" = Some AVAILABLE.
Proof.
  destruct (update_model_status_unwritable TASK_PARSER "default" "v1" ERROR
              (Examples.protect "models/task_parser/default/v1/metadata.json"
                 Examples.sample_registered)
              (Examples.sample_metadata TASK_PARSER "default" "v1"
                 "model.bin" []))
    as (self' & Hrun & Hstatus & Hstored & _).
  - by vm_compute.
  - apply (bool_decide_unpack _). by vm_compute.
  - exists self'. split; [exact Hrun|]. split; [exact Hstatus|].
    rewrite Hstored. by vm_compute.
Defined.

Lemma delete_model_version_effect_witness :
  ∃ self',
    VersionManager.delete_model_version TASK_PARSER "default" "v1"
      Examples.sample_registered = (inr true, self') ∧
    ¬ registered self' TASK_PARSER "default" "v1" ∧
    resolve self' TASK_PARSER "default" "v1" = None.
Proof.
  destruct (delete_model_version_effect TASK_PARSER "default" "v1"
              Examples.sample_registered eq_refl eq_refl)
    as (ok & self' & Hrun & Hok & _ & Heffect).
  assert (Htrue : ok = true).
  { apply Hok. split; apply (bool_decide_unpack _); by vm_compute. }
  rewrite Htrue in Hrun.
  destruct (Heffect Htrue) as (Hgone & Hresolve & _).
  exists self'. split; [exact Hrun|]. split; [exact Hgone | exact Hresolve].
Defined.

Lemma delete_model_version_then_unlisted_witness :
  ∃ versions,
    VersionManager.get_latest_version TASK_PARSER "m"
      (VersionManager.delete_model_version TASK_PARSER "m" "v2"
         Examples.three_versions).2
    = (inr (head versions),
       (VersionManager.delete_model_version TASK_PARSER "m" "v2"
          Examples.three_versions).2) ∧
    "v10" ∈ versions ∧ "v2" ∉ versions.
Proof.
  destruct (delete_model_version_then_unlisted TASK_PARSER "m" "v2"
              Examples.three_versions
              (VersionManager.delete_model_version TASK_PARSER "m" "v2"
                 Examples.three_versions).2)
    as (versions & _ & Hlatest & Hmem).
  - by vm_compute.
  - reflexivity.
  - reflexivity.
  - apply (bool_decide_unpack _). by vm_compute.
  - exists versions. split; [exact Hlatest|]. split.
    + apply Hmem. split; [discriminate|].
      exists (VersionManager.registry_entry
                (Examples.sample_metadata TASK_PARSER "m" "v10" "model.bin"
                   [])).
      split; [by vm_compute|]. split; reflexivity.
    + intros Hin. apply Hmem in Hin as [Hne _]. exact (Hne eq_refl).
Defined.




Lemma sample_loaded_keys :
  map_Forall (λ key _, key = "task_parser:default:v1")
    (ModelManager._loaded_models Examples.sample_loaded) ∧
  map_Forall (λ key _, key = "task_parser:default:v1")
    (ModelManager._load_times Examples.sample_loaded).
Proof. split; apply (bool_decide_unpack _); by vm_compute. Qed.

Lemma key_built_sample : key_built "task_parser:default:v1".
Proof. by exists TASK_PARSER, "default", "v1". Qed.

Lemma shutdown_unloads_all_witness :
  ∃ self',
    ModelManager.shutdown Examples.sample_loaded = (inr tt, self') ∧
    ModelManager._loaded_models self' = ∅.
Proof.
  destruct (shutdown_unloads_all Examples.sample_loaded)
    as (self' & Hrun & Hempty & _).
  - intros key [model Hkey].
    rewrite (proj1 sample_loaded_keys key model Hkey).
    apply key_built_sample.
  - exists self'. split; [exact Hrun | exact Hempty].
Defined.

Lemma cleanup_old_models_effect_witness :
  ∃ self',
    ModelManager.cleanup_old_models Examples.days_before 0
      Examples.sample_loaded = (inr tt, self') ∧
    ModelManager._loaded_models self' !! "task_parser:default:v1" = None.
Proof.
  destruct (cleanup_old_models_effect Examples.days_before 0
              (default 0
                 (head (clock (VersionManager.disk
                                 (ModelManager.version_manager
                                    Examples.sample_loaded)))))
              Examples.sample_loaded)
    as (self' & Hrun & Hold & _).
  - by vm_compute.
  - intros key [load_time Hkey].
    rewrite (proj2 sample_loaded_keys key load_time Hkey).
    apply key_built_sample.
  - exists self'. split; [exact Hrun|].
    eapply Hold; by vm_compute.
Defined.

Lemma get_loaded_models_reports_witness :
  ∃ infos,
    ModelManager.get_loaded_models Examples.sample_loaded
    = (inr infos, Examples.sample_loaded) ∧
    length infos = 1%nat.
Proof.
  destruct (get_loaded_models_reports Examples.sample_loaded)
    as (infos & Hrun & Hlen & _).
  - intros key [model Hkey].
    rewrite (proj1 sample_loaded_keys key model Hkey).
    apply key_built_sample.
  - exists infos. split; [exact Hrun|]. rewrite Hlen. by vm_compute.
Defined.

Lemma get_memory_usage_tracks_witness :
  ∃ self' before loaded,
    ModelManager.get_memory_usage (λ a b, inject_Z a / inject_Z b)%Q
      Examples.sample_manager = (inr before, Examples.sample_manager) ∧
    ModelManager.get_memory_usage (λ a b, inject_Z a / inject_Z b)%Q self'
    = (inr loaded, self') ∧
    ModelManager.average_memory_per_model_mb before = VInt 0 ∧
    ModelManager.total_memory_mb loaded
    = ModelManager.total_memory_mb before + 256.
Proof.
  edestruct (get_memory_usage_tracks (λ a b, inject_Z a / inject_Z b)%Q
               Examples.sample_manager TASK_PARSER "default" "v1")
    as (self' & self'' & before & loaded & after & Hbefore & _ & Hloaded & _
        & _ & Hempty & _ & Htotal & _).
  - by vm_compute.
  - by vm_compute.
  - by vm_compute.
  - by vm_compute.
  - exists self', before, loaded. split; [exact Hbefore|].
    split; [exact Hloaded|]. split; [by apply Hempty|]. exact Htotal.
Defined.

Lemma validate_config_no_findings_witness :
  ∃ d defs,
    ConfigLoader.default_config = VDict d ∧
    dict_lookup "model_definitions" d = Some (VDict defs).
Proof.
  destruct (validate_config_no_findings ConfigLoader.default_config)
    as (d & defs & Hd & Hdefs & _).
  - by vm_compute.
  - by exists d, defs.
Defined.

Lemma create_model_config_identity_witness :
  ∃ c kw,
    ModelConfig_init kw = inr c ∧
    dict_lookup "name" kw = Some (VStr "default") ∧
    dict_lookup "version" kw = Some (VStr "v1").
Proof.
  edestruct (create_model_config_identity ConfigLoader.default_config
               TASK_PARSER "default" "v1")
    as (kw & Hinit & _ & Hname & Hversion & _).
  - by vm_compute.
  - by eexists _, kw.
Defined.

Lemma get_model_config_stored_wins_witness :
  ∃ c kw,
    ModelConfig_init kw = inr c ∧
    dict_lookup "name" kw = Some (VStr "other") ∧
    dict_lookup "version" kw = Some (VStr "v1").
Proof.
  edestruct (get_model_config_stored_wins Examples.renamed_manager
               TASK_PARSER "default" "v1")
    as (kw & Hinit & Hkw).
  - by vm_compute.
  - apply (bool_decide_unpack _). by vm_compute.
  - by vm_compute.
  - eexists _, kw. split; [exact Hinit|]. by rewrite !Hkw.
Defined.

End Witnesses.
(** ** The configuration properties at work on the example document *)

Section ConfigWitnesses.
#[local] Existing Instance Examples.libraries.

Lemma initialize_models_from_config_twice_witness :
  ∃ results self' results' self'',
    ConfigLoader.initialize_models_from_config Examples.two_versions_config
      (Examples.manager_on Examples.sample_disk)
    = (inr results, self') ∧
    ConfigLoader.initialize_models_from_config Examples.two_versions_config
      self'
    = (inr results', self'') ∧
    ∀ d, d ∈ declared_versions Examples.two_versions_config →
         results !! result_key d = Some true →
         results' !! result_key d = Some true ∧
         nothing_written self' self'' d.
Proof.
  apply (initialize_models_from_config_twice
           Examples.two_versions_config
           (Examples.manager_on Examples.sample_disk)).
  - reflexivity.
  - apply (bool_decide_unpack _). by vm_compute.
  - apply (bool_decide_unpack _). by vm_compute.
Defined.

Lemma list_available_models_declared_witness :
  ∃ entries,
    ConfigLoader.list_available_models Examples.two_versions_config
      (Some TASK_PARSER)
    = inr (VDict [(ModelType_value TASK_PARSER, VList entries)]) ∧
    ∀ d, d ∈ declared_versions Examples.two_versions_config →
         d_type d = TASK_PARSER →
      ∃ versions dv,
        VDict [("name", VStr (d_name d)); ("versions", VList versions);
               ("default_version", dv)] ∈ entries ∧
        VStr (d_version d) ∈ versions ∧
        ConfigLoader.get_default_version Examples.two_versions_config
          TASK_PARSER (d_name d) = inr dv.
Proof.
  apply (list_available_models_declared Examples.two_versions_config
           TASK_PARSER); reflexivity.
Defined.

End ConfigWitnesses.
Section Illustrations.
#[local] Existing Instance Examples.libraries.

(** The registry file of the task parsers cannot be written: the sample
    version is not registered, yet its metadata file is there and the
    version resolves. *)
Example register_model_unindexed :
  let run :=
    VersionManager.register_model
      (Examples.sample_metadata TASK_PARSER "default" "v1" "model.bin" [])
      (Examples.protect "models/task_parser/registry.json"
         (Examples.manager_on Examples.sample_disk)) in
  run.1 = inr false ∧
  ¬ registered run.2 TASK_PARSER "default" "v1" ∧
  is_Some (resolve run.2 TASK_PARSER "default" "v1").
Proof.
  split; [by vm_compute|]. split.
  - intros [e He]. by vm_compute in He.
  - vm_compute. eauto.
Qed.

(** A key without a colon in the registry index: listing the versions of any
    name raises, and so does loading without a version. *)
Example list_versions_malformed :
  ¬ registry_wf Examples.malformed_registry TASK_PARSER ∧
  (VersionManager.list_versions TASK_PARSER "other"
     Examples.malformed_registry).1
  = inl (Exn ValueError "not enough values to unpack (expected 2, got 1)") ∧
  (ModelManager.load_model TASK_PARSER "other" None
     (Examples.model_manager_on Examples.malformed_registry)).1
  = inl (Exn ValueError "not enough values to unpack (expected 2, got 1)").
Proof.
  split; [|split; by vm_compute].
  intros Hwf. apply (bool_decide_pack _) in Hwf. by vm_compute in Hwf.
Qed.

(** A version with a colon is reported under another name and version. *)
Example get_loaded_models_colon_version :
  ∃ info,
    (ModelManager.get_loaded_models Examples.colon_version_loaded).1
    = inr [info] ∧
    ModelManager.li_name info = "m:v" ∧ ModelManager.li_version info = "1".
Proof.
  vm_compute. eexists. split; [reflexivity|]. split; reflexivity.
Qed.

(** The stored configuration names another model: the configuration
    returned for default/v1 is that of the other name. *)
Example get_model_config_renamed :
  cfg_name <$> config_of Examples.renamed_manager TASK_PARSER "default" "v1"
  = Some "other".
Proof. by vm_compute. Qed.

(** Deleting the registered sample version: it is gone from the index, it no
    longer resolves, and the sample file, which is not below the directory
    of the version, is still there. *)
Example delete_model_version_sample :
  let run :=
    VersionManager.delete_model_version TASK_PARSER "default" "v1"
      Examples.sample_registered in
  run.1 = inr true ∧
  resolve run.2 TASK_PARSER "default" "v1" = None ∧
  is_Some (files (VersionManager.disk run.2) !! "model.bin").
Proof.
  split; [by vm_compute|]. split; [by vm_compute|]. vm_compute. eauto.
Qed.

End Illustrations.
